(** * Desktop window manager: a shallow embedding of [desktop-manager.ts]

    The script keeps three module-level variables ([highestZ],
    [openWindows], [windowPositions]) and otherwise reads and writes the
    DOM: the window panels, the folder icons and the taskbar container.
    Here the DOM fragment the script touches and the local variables of
    its per-element closures are made an explicit [State]; every source
    function becomes a state transformer with the name it has in the
    source.

    Conventions.
    - JavaScript numbers are rationals ([Q]).  The integer properties of
      the DOM ([offsetLeft], [innerWidth], ...) and the counter [highestZ]
      are in [Z]; the counter is taken to stay where a double is exact
      (below 2^53), far beyond what a session can reach.  The division by
      two of the centring formula (and by four in the mobile grid) is
      applied to such integers, and is exact here as it is on doubles at
      pixel magnitudes.
    - Pointer coordinates ([clientX], [clientY]) are doubles and may have a
      fraction.  The script adds and subtracts them
      ([origX + (clientX - startX)]), and a sum of doubles is the exact sum
      rounded to the nearest double; here the sum is the exact one.  The
      two agree wherever the exact result is a double itself, as it is for
      whole numbers of pixels in the range of a DOM [long] ([pixel]
      below).  Statements that give a computed position or size exactly
      are therefore made for such coordinates; statements on bounds (the
      clamp, the resize floor) need no such proviso, [Math.max] and
      [Math.min] returning one of their arguments.
    - What the browser computes from the styles ([offsetLeft], [offsetTop],
      [offsetWidth], [offsetHeight]) depends on a style sheet that is not
      part of the script: the state carries it as two functions
      ([layout], [folderLayout]) that the script never changes and about
      which nothing is assumed. *)

From Stdlib Require Import ZArith QArith Qabs Qround String Ascii Lia Lqa.
From stdpp Require Import gmap strings list fin_maps.

Open Scope Z_scope.

(** ** Values *)

(** An inline style value: either a string the script did not build
    (the empty string when the property was never set), or the string
    [n + 'px'] for a number [n]. *)
Inductive css : Type :=
  | css_str (s : string)
  | css_px (v : Q).

(** [n + 'px']: the text of a number depends on its value only, so the
    rational is kept in lowest terms. *)
Definition px (n : Q) : css := css_px (Qred n).

(** Truthiness of a string, as in [a || b]. *)
Definition truthy (c : css) : bool :=
  match c with
  | css_str EmptyString => false
  | _ => true
  end.

Definition Math_max (a b : Q) : Q := if Qle_bool a b then b else a.
Definition Math_min (a b : Q) : Q := if Qle_bool a b then a else b.
Definition Math_abs (a : Q) : Q := Qabs a.

(** A whole number of pixels in the range of a DOM [long].  Sums and
    differences of a few such numbers are whole numbers far below 2^53:
    the doubles of the script compute them without rounding. *)
Definition pixel (q : Q) : bool :=
  (Z.pos (Qden (Qred q)) =? 1) && (Z.abs (Qnum (Qred q)) <=? 2 ^ 31).

(** [n || d] on an integer: zero is falsy. *)
Definition or_default (n d : Z) : Z := if n =? 0 then d else n.

(** [s || d] on an optional text: a missing node and the empty text are
    both falsy. *)
Definition text_or (t : option string) (d : string) : string :=
  match t with
  | Some (String c r) => String c r
  | _ => d
  end.

(** [s.includes(sub)] *)
Fixpoint includes (s sub : string) : bool :=
  String.prefix sub s ||
  match s with
  | EmptyString => false
  | String _ r => includes r sub
  end.

(** ** The DOM fragment *)

Record Viewport : Type := mkViewport {
  innerWidth : Z;
  innerHeight : Z
}.

(** The layout box of an element, as the browser reports it. *)
Record Box : Type := mkBox {
  offsetLeft : Z;
  offsetTop : Z;
  offsetWidth : Z;
  offsetHeight : Z
}.

(** A [.desktop-window] panel: its inline style, the two classes the
    script toggles, and the children the script looks for. *)
Record WindowEl : Type := mkWindowEl {
  w_display : string;          (* style.display *)
  w_zIndex : option Z;         (* style.zIndex, [None] when unset *)
  w_left : css;                (* style.left *)
  w_top : css;                 (* style.top *)
  w_width : css;               (* style.width *)
  w_height : css;              (* style.height *)
  w_active : bool;             (* classList.contains('active') *)
  w_maximized : bool;          (* classList.contains('maximized') *)
  w_title : option string;     (* text of .window-title, if any *)
  w_hasTitlebar : bool;        (* a .window-titlebar child exists *)
  w_hasHandle : bool           (* a .window-resize-handle child exists *)
}.

(** A [.desktop-folder] icon. *)
Record FolderEl : Type := mkFolderEl {
  f_folderId : option string;  (* dataset.folderId *)
  f_left : css;
  f_top : css;
  f_zIndex : option Z;
  f_selected : bool;           (* classList.contains('selected') *)
  f_icon : option string       (* text of .folder-icon, if any *)
}.

(** A [button.taskbar-item] built by [updateTaskbar]. *)
Record TaskbarItem : Type := mkTaskbarItem {
  ti_windowId : string;        (* the id its click handler closes over *)
  ti_active : bool;            (* className has 'active' *)
  ti_text : string             (* textContent: icon then title *)
}.

(** ** Module state *)

(** [windowPositions] values. *)
Record SavedGeometry : Type := mkSavedGeometry {
  sg_x : Z;
  sg_y : Z;
  sg_w : css;
  sg_h : css
}.

(** Local variables of the closure [initWindowDrag] creates per window. *)
Record DragVars : Type := mkDragVars {
  wd_isDragging : bool;
  wd_startX : Q;
  wd_startY : Q;
  wd_origX : Z;
  wd_origY : Z
}.

(** Local variables of the closure [initWindowResize] creates per window. *)
Record ResizeVars : Type := mkResizeVars {
  wr_isResizing : bool;
  wr_startX : Q;
  wr_startY : Q;
  wr_startW : Z;
  wr_startH : Z
}.

(** Local variables of the closure [initFolderDrag] creates per folder. *)
Record FolderVars : Type := mkFolderVars {
  fd_isDragging : bool;
  fd_hasMoved : bool;
  fd_startX : Q;
  fd_startY : Q;
  fd_origX : Z;
  fd_origY : Z
}.

Definition initDragVars : DragVars := mkDragVars false 0 0 0 0.
Definition initResizeVars : ResizeVars := mkResizeVars false 0 0 0 0.
Definition initFolderVars : FolderVars := mkFolderVars false false 0 0 0 0.

(** The whole state.  [openWindows] is a JavaScript [Map], whose iteration
    order is insertion order: an association list.  The panels are found by
    their [data-window-id], which is unique; the folders are kept in
    document order, as [querySelectorAll] lists them.  [taskbar] is the
    child list of [#taskbar-items], [None] when the container is missing.
    [layout] and [folderLayout] are the browser's layout of a panel and of
    an icon (position only) from the element as the script left it. *)
Record State : Type := mkState {
  layout : string -> Viewport -> WindowEl -> Box;
  folderLayout : nat -> Viewport -> FolderEl -> Z * Z;
  viewport : Viewport;
  highestZ : Z;
  openWindows : list (string * bool);
  windowPositions : gmap string SavedGeometry;
  windows : gmap string WindowEl;
  folders : list FolderEl;
  taskbar : option (list TaskbarItem);
  dragVars : gmap string DragVars;
  resizeVars : gmap string ResizeVars;
  folderVars : gmap nat FolderVars
}.

(** *** Field updates *)

Definition set_viewport (v : Viewport) (s : State) : State :=
  mkState (layout s) (folderLayout s) v (highestZ s) (openWindows s) (windowPositions s) (windows s)
    (folders s) (taskbar s) (dragVars s) (resizeVars s) (folderVars s).
Definition set_highestZ (z : Z) (s : State) : State :=
  mkState (layout s) (folderLayout s) (viewport s) z (openWindows s) (windowPositions s) (windows s)
    (folders s) (taskbar s) (dragVars s) (resizeVars s) (folderVars s).
Definition set_openWindows (m : list (string * bool)) (s : State) : State :=
  mkState (layout s) (folderLayout s) (viewport s) (highestZ s) m (windowPositions s) (windows s)
    (folders s) (taskbar s) (dragVars s) (resizeVars s) (folderVars s).
Definition set_windowPositions (m : gmap string SavedGeometry) (s : State) : State :=
  mkState (layout s) (folderLayout s) (viewport s) (highestZ s) (openWindows s) m (windows s)
    (folders s) (taskbar s) (dragVars s) (resizeVars s) (folderVars s).
Definition set_windows (m : gmap string WindowEl) (s : State) : State :=
  mkState (layout s) (folderLayout s) (viewport s) (highestZ s) (openWindows s) (windowPositions s) m
    (folders s) (taskbar s) (dragVars s) (resizeVars s) (folderVars s).
Definition set_folders (l : list FolderEl) (s : State) : State :=
  mkState (layout s) (folderLayout s) (viewport s) (highestZ s) (openWindows s) (windowPositions s) (windows s)
    l (taskbar s) (dragVars s) (resizeVars s) (folderVars s).
Definition set_taskbar (t : option (list TaskbarItem)) (s : State) : State :=
  mkState (layout s) (folderLayout s) (viewport s) (highestZ s) (openWindows s) (windowPositions s) (windows s)
    (folders s) t (dragVars s) (resizeVars s) (folderVars s).
Definition set_dragVars (m : gmap string DragVars) (s : State) : State :=
  mkState (layout s) (folderLayout s) (viewport s) (highestZ s) (openWindows s) (windowPositions s) (windows s)
    (folders s) (taskbar s) m (resizeVars s) (folderVars s).
Definition set_resizeVars (m : gmap string ResizeVars) (s : State) : State :=
  mkState (layout s) (folderLayout s) (viewport s) (highestZ s) (openWindows s) (windowPositions s) (windows s)
    (folders s) (taskbar s) (dragVars s) m (folderVars s).
Definition set_folderVars (m : gmap nat FolderVars) (s : State) : State :=
  mkState (layout s) (folderLayout s) (viewport s) (highestZ s) (openWindows s) (windowPositions s) (windows s)
    (folders s) (taskbar s) (dragVars s) (resizeVars s) m.

Definition el_display (d : string) (e : WindowEl) : WindowEl :=
  mkWindowEl d (w_zIndex e) (w_left e) (w_top e) (w_width e) (w_height e)
    (w_active e) (w_maximized e) (w_title e) (w_hasTitlebar e) (w_hasHandle e).
Definition el_zIndex (z : Z) (e : WindowEl) : WindowEl :=
  mkWindowEl (w_display e) (Some z) (w_left e) (w_top e) (w_width e) (w_height e)
    (w_active e) (w_maximized e) (w_title e) (w_hasTitlebar e) (w_hasHandle e).
Definition el_left (c : css) (e : WindowEl) : WindowEl :=
  mkWindowEl (w_display e) (w_zIndex e) c (w_top e) (w_width e) (w_height e)
    (w_active e) (w_maximized e) (w_title e) (w_hasTitlebar e) (w_hasHandle e).
Definition el_top (c : css) (e : WindowEl) : WindowEl :=
  mkWindowEl (w_display e) (w_zIndex e) (w_left e) c (w_width e) (w_height e)
    (w_active e) (w_maximized e) (w_title e) (w_hasTitlebar e) (w_hasHandle e).
Definition el_width (c : css) (e : WindowEl) : WindowEl :=
  mkWindowEl (w_display e) (w_zIndex e) (w_left e) (w_top e) c (w_height e)
    (w_active e) (w_maximized e) (w_title e) (w_hasTitlebar e) (w_hasHandle e).
Definition el_height (c : css) (e : WindowEl) : WindowEl :=
  mkWindowEl (w_display e) (w_zIndex e) (w_left e) (w_top e) (w_width e) c
    (w_active e) (w_maximized e) (w_title e) (w_hasTitlebar e) (w_hasHandle e).
Definition el_active (b : bool) (e : WindowEl) : WindowEl :=
  mkWindowEl (w_display e) (w_zIndex e) (w_left e) (w_top e) (w_width e) (w_height e)
    b (w_maximized e) (w_title e) (w_hasTitlebar e) (w_hasHandle e).
Definition el_maximized (b : bool) (e : WindowEl) : WindowEl :=
  mkWindowEl (w_display e) (w_zIndex e) (w_left e) (w_top e) (w_width e) (w_height e)
    (w_active e) b (w_title e) (w_hasTitlebar e) (w_hasHandle e).

Definition fo_left (c : css) (f : FolderEl) : FolderEl :=
  mkFolderEl (f_folderId f) c (f_top f) (f_zIndex f) (f_selected f) (f_icon f).
Definition fo_top (c : css) (f : FolderEl) : FolderEl :=
  mkFolderEl (f_folderId f) (f_left f) c (f_zIndex f) (f_selected f) (f_icon f).
Definition fo_zIndex (z : Z) (f : FolderEl) : FolderEl :=
  mkFolderEl (f_folderId f) (f_left f) (f_top f) (Some z) (f_selected f) (f_icon f).
Definition fo_selected (b : bool) (f : FolderEl) : FolderEl :=
  mkFolderEl (f_folderId f) (f_left f) (f_top f) (f_zIndex f) b (f_icon f).

(** *** The [Map] operations used on [openWindows] *)

Fixpoint reg_get (id : string) (m : list (string * bool)) : option bool :=
  match m with
  | [] => None
  | (k, v) :: r => if String.eqb k id then Some v else reg_get id r
  end.

(** [m.set(id, v)]: an existing key keeps its place, a new one goes last. *)
Fixpoint reg_set (id : string) (v : bool) (m : list (string * bool)) : list (string * bool) :=
  match m with
  | [] => [(id, v)]
  | (k, x) :: r => if String.eqb k id then (k, v) :: r else (k, x) :: reg_set id v r
  end.

(** [m.delete(id)] *)
Fixpoint reg_delete (id : string) (m : list (string * bool)) : list (string * bool) :=
  match m with
  | [] => []
  | (k, x) :: r => if String.eqb k id then reg_delete id r else (k, x) :: reg_delete id r
  end.

(** Whether [openWindows] has a record for [id], and the flag of that record. *)
Definition isOpen (s : State) (id : string) : bool :=
  match reg_get id (openWindows s) with Some _ => true | None => false end.
Definition isMinimized (s : State) (id : string) : bool :=
  match reg_get id (openWindows s) with Some m => m | None => false end.

Definition getDragVars (s : State) (id : string) : DragVars :=
  default initDragVars (dragVars s !! id).
Definition getResizeVars (s : State) (id : string) : ResizeVars :=
  default initResizeVars (resizeVars s !! id).
Definition getFolderVars (s : State) (i : nat) : FolderVars :=
  default initFolderVars (folderVars s !! i).

(** ** The script *)

(** The layout box of the panel [id], were its element [el]. *)
Definition boxOf (s : State) (id : string) (el : WindowEl) : Box :=
  layout s id (viewport s) el.

(** *** Helpers *)

Definition isMobile (s : State) : bool := innerWidth (viewport s) <=? 640.

Definition clamp (val min max : Q) : Q := Math_max min (Math_min max val).

(** [{ width, height }], the height less the taskbar. *)
Definition getDesktopBounds (s : State) : Z * Z :=
  (innerWidth (viewport s), innerHeight (viewport s) - 48).

(** *** Taskbar *)

(** The first [.desktop-folder] carrying the given [data-folder-id]. *)
Definition findFolder (s : State) (id : string) : option FolderEl :=
  List.find (fun f => match f_folderId f with
                      | Some k => String.eqb k id
                      | None => false
                      end) (folders s).

(** The button [updateTaskbar] builds for one entry of [openWindows]; none
    when the panel is not found.  Icon and title are plain text, so the
    text of the button is the one after the other. *)
Definition taskbarItem (s : State) (entry : string * bool) : option TaskbarItem :=
  let '(windowId, minimized) := entry in
  match windows s !! windowId with
  | None => None
  | Some windowEl =>
      let title := text_or (w_title windowEl) windowId in
      let icon := text_or (findFolder s windowId ≫= f_icon) "📄" in
      Some (mkTaskbarItem windowId (negb minimized) (icon ++ title))
  end.

Definition updateTaskbar (s : State) : State :=
  match taskbar s with
  | None => s
  | Some _ => set_taskbar (Some (omap (taskbarItem s) (openWindows s))) s
  end.

Definition updateTaskbarActiveState (activeId : string) (s : State) : State :=
  let mark (item : TaskbarItem) :=
    mkTaskbarItem (ti_windowId item) (includes (ti_text item) activeId) (ti_text item) in
  let s1 := set_taskbar (fmap (M := option) (fmap (M := list) mark) (taskbar s)) s in
  (* Simpler: rebuild *)
  updateTaskbar s1.

(** *** Focus / z-index *)

(** The source takes the panel itself; here it is named by its id. *)
Definition bringToFront (id : string) (s : State) : State :=
  let z := highestZ s + 1 in
  let ws := alter (fun w => el_active true (el_zIndex z w)) id
              (el_active false <$> windows s) in
  updateTaskbarActiveState id (set_windows ws (set_highestZ z s)).

(** *** Open window *)

(** The block under [// Position window]: what it makes of the panel. *)
Definition positionWindow (windowId : string) (windowEl : WindowEl) (s : State) : WindowEl :=
  if negb (isMobile s) then
    match windowPositions s !! windowId with
    | Some saved =>
        el_top (px (inject_Z (sg_y saved)))
          (el_left (px (inject_Z (sg_x saved))) windowEl)
    | None =>
        let bounds := getDesktopBounds s in
        let b := boxOf s windowId windowEl in
        let wWidth := or_default (offsetWidth b) 600 in
        let wHeight := or_default (offsetHeight b) 450 in
        let size := Z.of_nat (length (openWindows s)) in
        let x := Math_max 40 (inject_Z (fst bounds - wWidth) / 2
                              + inject_Z (size * 30)) in
        let y := Math_max 20 (inject_Z (snd bounds - wHeight) / 2
                              + inject_Z (size * 30)) in
        el_top (px y) (el_left (px x) windowEl)
    end
  else windowEl.

Definition openWindow (windowId : string) (s : State) : State :=
  match windows s !! windowId with
  | None => s
  | Some windowEl =>
      match reg_get windowId (openWindows s) with
      | Some true =>
          (* Restore from minimized *)
          let s1 := set_windows (<[windowId := el_display "flex" windowEl]> (windows s)) s in
          let s2 := set_openWindows (reg_set windowId false (openWindows s1)) s1 in
          updateTaskbar (bringToFront windowId s2)
      | _ =>
          if String.eqb (w_display windowEl) "flex" then
            (* Already open, just focus *)
            bringToFront windowId s
          else
            let el1 := positionWindow windowId windowEl s in
            let s1 := set_windows (<[windowId := el_display "flex" el1]> (windows s)) s in
            let s2 := set_openWindows (reg_set windowId false (openWindows s1)) s1 in
            updateTaskbar (bringToFront windowId s2)
      end
  end.

(** *** Close window *)

Definition closeWindow (windowId : string) (s : State) : State :=
  match windows s !! windowId with
  | None => s
  | Some windowEl =>
      let el1 := el_maximized false (el_display "none" windowEl) in
      let s1 := set_windows (<[windowId := el1]> (windows s)) s in
      updateTaskbar (set_openWindows (reg_delete windowId (openWindows s1)) s1)
  end.

(** *** Minimize window *)

Definition minimizeWindow (windowId : string) (s : State) : State :=
  match windows s !! windowId with
  | None => s
  | Some windowEl =>
      let s1 := set_windows (<[windowId := el_display "none" windowEl]> (windows s)) s in
      let m :=
        match reg_get windowId (openWindows s1) with
        | Some _ => reg_set windowId true (openWindows s1)   (* state.minimized = true *)
        | None => openWindows s1 ++ [(windowId, true)]       (* a new record, last *)
        end in
      updateTaskbar (set_openWindows m s1)
  end.

(** *** Maximize / restore window *)

(** The record the maximize branch saves: where the browser has the panel,
    and its inline size or, without one, its measured size. *)
Definition captureGeometry (s : State) (windowId : string) (windowEl : WindowEl) : SavedGeometry :=
  let b := boxOf s windowId windowEl in
  mkSavedGeometry (offsetLeft b) (offsetTop b)
    (if truthy (w_width windowEl) then w_width windowEl
     else px (inject_Z (offsetWidth b)))
    (if truthy (w_height windowEl) then w_height windowEl
     else px (inject_Z (offsetHeight b))).

Definition toggleMaximize (windowId : string) (s : State) : State :=
  match windows s !! windowId with
  | None => s
  | Some windowEl =>
      if w_maximized windowEl then
        let el1 := el_maximized false windowEl in
        let el2 :=
          match windowPositions s !! windowId with
          | Some saved =>
              el_height (sg_h saved)
                (el_width (sg_w saved)
                   (el_top (px (inject_Z (sg_y saved)))
                      (el_left (px (inject_Z (sg_x saved))) el1)))
          | None => el1
          end in
        set_windows (<[windowId := el2]> (windows s)) s
      else
        (* Save position before maximize *)
        let saved := captureGeometry s windowId windowEl in
        let s1 := set_windowPositions (<[windowId := saved]> (windowPositions s)) s in
        set_windows (<[windowId := el_maximized true windowEl]> (windows s1)) s1
  end.

(** *** Drag folders *)

(** [pointerdown] on the [i]-th folder: the drag listener, then the
    selection listener registered after it on the same element. *)
Definition folderPointerDown (i : nat) (x y : Q) (s : State) : State :=
  match folders s !! i with
  | None => s
  | Some el =>
      let s1 :=
        if isMobile s then s (* No drag on mobile *)
        else
          let '(ox, oy) := folderLayout s i (viewport s) el in
          let v := mkFolderVars true false x y ox oy in
          set_folders (<[i := fo_zIndex 50 el]> (folders s))
            (set_folderVars (<[i := v]> (folderVars s)) s) in
      (* Selection *)
      set_folders (imap (fun j f => fo_selected (Nat.eqb j i) f) (folders s1)) s1
  end.

(** What the [pointermove] listener of the [i]-th folder does to it.  The
    displacement and the target are the exact difference and sum; the
    script has them as doubles, equal to these when the exact values are
    doubles (see the conventions above). *)
Definition folderMoveEl (s : State) (x y : Q) (i : nat) (el : FolderEl) : FolderEl :=
  let v := getFolderVars s i in
  if fd_isDragging v then
    let dx := (x - fd_startX v)%Q in
    let dy := (y - fd_startY v)%Q in
    let bounds := getDesktopBounds s in
    fo_top (px (clamp (inject_Z (fd_origY v) + dy) 0 (inject_Z (snd bounds - 80))))
      (fo_left (px (clamp (inject_Z (fd_origX v) + dx) 0 (inject_Z (fst bounds - 80)))) el)
  else el.

(** What the same listener does to the variables of its closure: the
    movement flag.  The displacement is the exact difference, as in
    [folderMoveEl]. *)
Definition folderMoveVars (x y : Q) (v : FolderVars) : FolderVars :=
  if fd_isDragging v then
    let dx := (x - fd_startX v)%Q in
    let dy := (y - fd_startY v)%Q in
    if Qlt_le_dec 3 (Math_abs dx) then
      mkFolderVars true true (fd_startX v) (fd_startY v) (fd_origX v) (fd_origY v)
    else if Qlt_le_dec 3 (Math_abs dy) then
      mkFolderVars true true (fd_startX v) (fd_startY v) (fd_origX v) (fd_origY v)
    else v
  else v.

Definition folderPointerUpVars (v : FolderVars) : FolderVars :=
  mkFolderVars false (fd_hasMoved v) (fd_startX v) (fd_startY v) (fd_origX v) (fd_origY v).

(** [dblclick] on the [i]-th folder. *)
Definition folderDblClick (i : nat) (s : State) : State :=
  match folders s !! i ≫= f_folderId with
  | Some (String c r) => openWindow (String c r) s
  | _ => s
  end.

(** [click] on the [i]-th folder: opens on mobile only. *)
Definition folderClick (i : nat) (s : State) : State :=
  if isMobile s || negb (fd_hasMoved (getFolderVars s i)) then
    if isMobile s then folderDblClick i s else s
  else s.

(** *** Drag windows (titlebar) *)

(** The [pointerdown] listener of the title bar; [onButton] tells whether
    the event target lies in a [.window-btn]. *)
Definition titlebarPointerDown (id : string) (onButton : bool) (x y : Q) (s : State) : State :=
  match windows s !! id with
  | None => s
  | Some windowEl =>
      if negb (w_hasTitlebar windowEl) then s (* no title bar, no listener *)
      else if isMobile s then s
      else if onButton then s
      else if w_maximized windowEl then s
      else
        let b := boxOf s id windowEl in
        let v := mkDragVars true x y (offsetLeft b) (offsetTop b) in
        bringToFront id (set_dragVars (<[id := v]> (dragVars s)) s)
  end.

(** What the [pointermove] listener of [initWindowDrag] does to its window;
    displacement and target are exact, as in [folderMoveEl]. *)
Definition dragMoveEl (s : State) (x y : Q) (id : string) (windowEl : WindowEl) : WindowEl :=
  let v := getDragVars s id in
  if wd_isDragging v then
    let dx := (x - wd_startX v)%Q in
    let dy := (y - wd_startY v)%Q in
    let bounds := getDesktopBounds s in
    let ow := offsetWidth (boxOf s id windowEl) in
    el_top (px (clamp (inject_Z (wd_origY v) + dy) 0 (inject_Z (snd bounds - 40))))
      (el_left (px (clamp (inject_Z (wd_origX v) + dx)
                      (inject_Z (- ow + 100)) (inject_Z (fst bounds - 50)))) windowEl)
  else windowEl.

(** The record the [pointerup] listener of [initWindowDrag] saves for its
    window, when a drag is on and the panel has a non-empty id. *)
Definition dragCommit (s : State) (id : string) (windowEl : WindowEl) : option SavedGeometry :=
  if wd_isDragging (getDragVars s id) then
    match id with
    | EmptyString => None
    | _ =>
        let b := boxOf s id windowEl in
        Some (mkSavedGeometry (offsetLeft b) (offsetTop b) (w_width windowEl) (w_height windowEl))
    end
  else None.

Definition dragPointerUpVars (v : DragVars) : DragVars :=
  mkDragVars false (wd_startX v) (wd_startY v) (wd_origX v) (wd_origY v).

(** *** Resize windows *)

(** The [pointerdown] listener of the resize handle; the boolean tells
    whether the event goes on to the panel's own listener (the handler
    stops propagation only once it has accepted the event). *)
Definition handlePointerDown (id : string) (x y : Q) (s : State) : State * bool :=
  match windows s !! id with
  | None => (s, true)
  | Some windowEl =>
      if negb (w_hasHandle windowEl) then (s, true) (* no handle, no listener *)
      else if isMobile s then (s, true)
      else
        let b := boxOf s id windowEl in
        let v := mkResizeVars true x y (offsetWidth b) (offsetHeight b) in
        (set_resizeVars (<[id := v]> (resizeVars s)) s, false)
  end.

(** What the [pointermove] listener of [initWindowResize] does to its
    window; the sums are exact, as in [folderMoveEl]. *)
Definition resizeMoveEl (s : State) (x y : Q) (id : string) (windowEl : WindowEl) : WindowEl :=
  let v := getResizeVars s id in
  if wr_isResizing v then
    let w := Math_max 320 (inject_Z (wr_startW v) + (x - wr_startX v)) in
    let h := Math_max 200 (inject_Z (wr_startH v) + (y - wr_startY v)) in
    el_height (px h) (el_width (px w) windowEl)
  else windowEl.

Definition resizePointerUpVars (v : ResizeVars) : ResizeVars :=
  mkResizeVars false (wr_startX v) (wr_startY v) (wr_startW v) (wr_startH v).

(** *** Document-level pointer listeners *)

(** Every closure has its own [pointermove] listener on the document: the
    folders' run first, then the windows' drag listeners, then their resize
    listeners.  Each touches its own element only. *)
Definition pointerMove (x y : Q) (s : State) : State :=
  let fs := imap (folderMoveEl s x y) (folders s) in
  let fv := folderMoveVars x y <$> folderVars s in
  let ws := map_imap (fun id el => Some (resizeMoveEl s x y id (dragMoveEl s x y id el)))
              (windows s) in
  set_windows ws (set_folderVars fv (set_folders fs s)).

Definition pointerUp (s : State) : State :=
  let commits := map_imap (dragCommit s) (windows s) in
  set_windowPositions (commits ∪ windowPositions s)
    (set_resizeVars (resizePointerUpVars <$> resizeVars s)
       (set_dragVars (dragPointerUpVars <$> dragVars s)
          (set_folderVars (folderPointerUpVars <$> folderVars s) s))).

(** *** Pointer-down on a window *)

Inductive Target : Type :=
  | OnBody             (* the panel, outside title bar and handle *)
  | OnTitlebar         (* the title bar, outside its buttons *)
  | OnButton           (* a .window-btn of the title bar *)
  | OnHandle.          (* the resize handle *)

(** Click anywhere on window to focus: the panel's own listener, which
    [initWindowDrag] registers only for a panel with a title bar. *)
Definition panelPointerDown (id : string) (s : State) : State :=
  match windows s !! id with
  | None => s
  | Some windowEl => if w_hasTitlebar windowEl then bringToFront id s else s
  end.

(** A [pointerdown] inside the panel [id]: the listener of the part hit,
    then, unless propagation was stopped, the panel's. *)
Definition windowPointerDown (id : string) (t : Target) (x y : Q) (s : State) : State :=
  match t with
  | OnBody => panelPointerDown id s
  | OnTitlebar => panelPointerDown id (titlebarPointerDown id false x y s)
  | OnButton => panelPointerDown id (titlebarPointerDown id true x y s)
  | OnHandle =>
      let '(s1, bubbles) := handlePointerDown id x y s in
      if bubbles then panelPointerDown id s1 else s1
  end.

(** *** Window controls *)

(** [click] on a [.window-btn] of the panel [windowId], by its [data-action]. *)
Definition windowButton (windowId action : string) (s : State) : State :=
  if String.eqb action "close" then closeWindow windowId s
  else if String.eqb action "minimize" then minimizeWindow windowId s
  else if String.eqb action "maximize" then toggleMaximize windowId s
  else s.

(** [click] on the [i]-th taskbar item.  The handler closes over the
    record of [openWindows] and the panel it was built from; every change
    of [openWindows] is followed by a rebuild of the taskbar, so that record
    is the one [openWindows] holds.  The last branch is for a state whose
    taskbar was not built by the script ([taskbarRegistered] below rules it
    out). *)
Definition taskbarClick (i : nat) (s : State) : State :=
  match taskbar s ≫= (fun items => items !! i) with
  | None => s
  | Some item =>
      let windowId := ti_windowId item in
      match reg_get windowId (openWindows s), windows s !! windowId with
      | Some true, _ => openWindow windowId s
      | Some false, Some windowEl =>
          (* If active, minimize. If not active, bring to front. *)
          if w_active windowEl then minimizeWindow windowId s
          else bringToFront windowId s
      | _, _ => s
      end
  end.

(** *** Desktop click deselect *)

Definition desktopPointerDown (s : State) : State :=
  set_folders (fo_selected false <$> folders s) s.

(** *** Mobile folder grid *)

Definition arrangeFoldersForMobile (s : State) : State :=
  if negb (isMobile s) then s
  else
    let cols := 4%nat in
    let cellW := (inject_Z (innerWidth (viewport s)) / 4)%Q in
    let place (i : nat) (f : FolderEl) :=
      let col := inject_Z (Z.of_nat (i mod cols)) in
      let row := inject_Z (Z.of_nat (i / cols)) in
      fo_top (px (20 + row * 100)) (fo_left (px (col * cellW + (cellW - 80) / 2)) f) in
    set_folders (imap place (folders s)) s.

(** [resize] of the browser window. *)
Definition viewportResize (w h : Z) (s : State) : State :=
  arrangeFoldersForMobile (set_viewport (mkViewport w h) s).

(** ** Sessions *)

(** What can happen to the page: the calls of the lifecycle functions
    (from the buttons, the taskbar, an icon, or the start-up timer) and the
    input events the script listens to. *)
Inductive Event : Type :=
  | Open (id : string)
  | Close (id : string)
  | Minimize (id : string)
  | ToggleMaximize (id : string)
  | BringToFront (id : string)          (* [bringToFront] on the panel [id] *)
  | WindowPointerDown (id : string) (t : Target) (x y : Q)
  | WindowButton (id action : string)
  | TaskbarClick (i : nat)
  | FolderPointerDown (i : nat) (x y : Q)
  | FolderDblClick (i : nat)
  | FolderClick (i : nat)
  | DesktopPointerDown
  | PointerMove (x y : Q)
  | PointerUp
  | ViewportResize (w h : Z).

Definition step (s : State) (e : Event) : State :=
  match e with
  | Open id => openWindow id s
  | Close id => closeWindow id s
  | Minimize id => minimizeWindow id s
  | ToggleMaximize id => toggleMaximize id s
  | BringToFront id =>
      match windows s !! id with
      | Some _ => bringToFront id s
      | None => s          (* there is no panel to pass *)
      end
  | WindowPointerDown id t x y => windowPointerDown id t x y s
  | WindowButton id action => windowButton id action s
  | TaskbarClick i => taskbarClick i s
  | FolderPointerDown i x y => folderPointerDown i x y s
  | FolderDblClick i => folderDblClick i s
  | FolderClick i => folderClick i s
  | DesktopPointerDown => desktopPointerDown s
  | PointerMove x y => pointerMove x y s
  | PointerUp => pointerUp s
  | ViewportResize w h => viewportResize w h s
  end.

Definition run (es : list Event) (s : State) : State := fold_left step es s.


Arguments run es s : simpl never.

(** ** The panel lookup of the lifecycle functions

    [openWindow], [closeWindow], [minimizeWindow] and [toggleMaximize] all
    start with the two lines

    - [const windowEl = document.querySelector(sel)], where [sel] is the
      template [.desktop-window[data-window-id=Q${windowId}Q]] with a double
      quote for each [Q];
    - [if (!windowEl) return;]

    The id is pasted between the double quotes as it is, nothing escapes
    it, and [querySelector] throws a [SyntaxError] when the text it is
    given is not a selector; nothing in the script catches an exception.
    The functions above take the lookup by the id, in [windows]; what the
    browser makes of the selector text is told apart here. *)








(** ** An example page

    A style sheet under which a panel is laid out only while its inline
    [display] is [flex], is absolutely positioned at its inline [left] and
    [top], measures 600 by 450 unless an inline size says otherwise, and
    fills the work area when maximized; icons sit where their inline
    position says, in a column otherwise. *)

Definition pxOr (c : css) (d : Z) : Z :=
  match c with
  | css_px v => Qfloor (v + (1 # 2))%Q
  | css_str _ => d
  end.

Definition pageLayout (id : string) (vp : Viewport) (el : WindowEl) : Box :=
  if negb (String.eqb (w_display el) "flex") then mkBox 0 0 0 0
  else if w_maximized el then mkBox 0 0 (innerWidth vp) (innerHeight vp - 48)
  else mkBox (pxOr (w_left el) 0) (pxOr (w_top el) 0)
             (pxOr (w_width el) 600) (pxOr (w_height el) 450).

Definition pageFolderLayout (i : nat) (vp : Viewport) (f : FolderEl) : Z * Z :=
  (pxOr (f_left f) 20, pxOr (f_top f) (20 + 100 * Z.of_nat i)).

(** A panel and an icon as the markup has them before the script runs. *)
Definition panel (title : string) : WindowEl :=
  mkWindowEl EmptyString None (css_str EmptyString) (css_str EmptyString)
    (css_str EmptyString) (css_str EmptyString) false false (Some title) true true.

Definition icon (id glyph : string) : FolderEl :=
  mkFolderEl (Some id) (css_str EmptyString) (css_str EmptyString) None false (Some glyph).

(** Three windows [A], [B], [C] with their icons, on a 1280 by 768
    viewport, as the script finds the page at start-up. *)
Definition page : State :=
  mkState pageLayout pageFolderLayout (mkViewport 1280 768) 100 [] ∅
    (<["A" := panel "About"]> (<["B" := panel "Blog"]> (<["C" := panel "Contact"]> ∅)))
    [icon "A" "a"; icon "B" "b"; icon "C" "c"]
    (Some []) ∅ ∅ ∅.

(** States of the example page used below: [A] opened; [A] opened with a
    drag of its title bar and of the first icon under way; [A] opened with a
    resize under way; [A] dragged, dropped and closed, which leaves a record
    of saved geometry. *)
Definition pageOpened : State := run [Open "A"] page.

Definition pageDragging : State :=
  run [Open "A"; WindowPointerDown "A" OnTitlebar 400 140; FolderPointerDown 0 25 25] page.

Definition pageResizing : State :=
  run [Open "A"; WindowPointerDown "A" OnHandle 940 585] page.

Definition pageDropped : State :=
  run [PointerMove 500 300; PointerUp; Close "A"] pageDragging.

(** The example page at 1281 by 769 with [A] opened: the centring puts the
    panel at a half pixel. *)
Definition pageHalfPixel : State := run [ViewportResize 1281 769; Open "A"] page.

(** [A] opened and resized to 900 by 700; then closed. *)
Definition pageResized : State := run [PointerMove 1240 835; PointerUp] pageResizing.

Definition pageResizedClosed : State := run [Close "A"] pageResized.

(** [A] opened, with a drag of its title bar and a resize both under way,
    as two pointers can have them. *)
Definition pageDragResize : State :=
  run [Open "A"; WindowPointerDown "A" OnTitlebar 900 140;
       WindowPointerDown "A" OnHandle 940 585] page.

(** The example page on a phone: 360 by 640. *)
Definition pageNarrow : State := run [ViewportResize 360 640] page.

(** The page with [A] being dragged, after a pointer move. *)
Definition pageDragged : State := run [PointerMove 500 300] pageDragging.

(** ** Predicates of the statements *)

(** A panel with the [maximized] class has a record of saved geometry. *)
Definition maximizedSaved (s : State) : Prop :=
  forall id el, windows s !! id = Some el -> w_maximized el = true ->
    is_Some (windowPositions s !! id).

(** [s'] has every record of saved geometry that [s] has, and a panel
    maximized in [s'] was so in [s] or has its record in [s']. *)
Definition grows (s s' : State) : Prop :=
  (forall id, is_Some (windowPositions s !! id) -> is_Some (windowPositions s' !! id))
  /\ (forall id el', windows s' !! id = Some el' -> w_maximized el' = true ->
        (exists el, windows s !! id = Some el /\ w_maximized el = true)
        \/ is_Some (windowPositions s' !! id)).

(** The browser gives the panel [id] the same width wherever the panel is
    put: its [offsetWidth] does not depend on the inline position. *)
Definition widthIgnoresPosition (s : State) (id : string) : Prop :=
  forall el l t,
    offsetWidth (boxOf s id (el_top t (el_left l el))) = offsetWidth (boxOf s id el).

(** The browser reports no size for a panel that has [display: none]. *)
Definition hiddenUnmeasured (s : State) (id : string) : Prop :=
  forall el, w_display el = "none"%string ->
    offsetWidth (boxOf s id el) = 0 /\ offsetHeight (boxOf s id el) = 0.

(** A panel shown by the script ([display: flex]) is registered as visible. *)
Definition shownRegistered (s : State) : Prop :=
  forall id el, windows s !! id = Some el -> w_display el = "flex"%string ->
    reg_get id (openWindows s) = Some false.

(** Every taskbar item stands for a registry record and a panel: the state
    in which the click handler of an item finds the record it closes over. *)
Definition taskbarRegistered (s : State) : Prop :=
  forall items item, taskbar s = Some items -> item ∈ items ->
    is_Some (reg_get (ti_windowId item) (openWindows s))
    /\ is_Some (windows s !! ti_windowId item).

(** Every registry record belongs to a panel of the page, shown when the
    record says visible and hidden when it says minimized. *)
Definition registeredPanel (s : State) : Prop :=
  forall id m, reg_get id (openWindows s) = Some m ->
    exists el, windows s !! id = Some el
               /\ w_display el = (if m then "none" else "flex")%string.

(** The taskbar holds what a rebuild would put there now. *)
Definition taskbarSynced (s : State) : Prop :=
  forall items, taskbar s = Some items ->
    items = omap (taskbarItem s) (openWindows s).

(** What a taskbar item shows of the page: the title of each panel, and the
    id and glyph of each icon. *)
Definition folderLabel (f : FolderEl) : option string * option string :=
  (f_folderId f, f_icon f).

Definition sameLabels (s s' : State) : Prop :=
  (forall k, w_title <$> windows s' !! k = w_title <$> windows s !! k)
  /\ folderLabel <$> folders s' = folderLabel <$> folders s.

(** The events whose handlers write [windowPositions]: a maximize (by call
    or by button) and the end of a drag. *)
Definition writesGeometry (e : Event) : bool :=
  match e with
  | ToggleMaximize _ | PointerUp => true
  | WindowButton _ action => String.eqb action "maximize"
  | _ => false
  end.

(** No drag and no resize is under way. *)
Definition noSession (s : State) : Prop :=
  (forall id, wd_isDragging (getDragVars s id) = false)
  /\ (forall id, wr_isResizing (getResizeVars s id) = false)
  /\ (forall i, fd_isDragging (getFolderVars s i) = false).

(** The focus order: a panel with the [active] class carries the current
    value of the counter as its stacking value, every other panel that has a
    stacking value has a smaller one, and at most one panel is active. *)
Definition focusOrdered (s : State) : Prop :=
  (forall id el, windows s !! id = Some el -> w_active el = true ->
     w_zIndex el = Some (highestZ s))
  /\ (forall id el z, windows s !! id = Some el -> w_active el = false ->
        w_zIndex el = Some z -> z < highestZ s)
  /\ (forall id1 id2 el1 el2,
        windows s !! id1 = Some el1 -> windows s !! id2 = Some el2 ->
        w_active el1 = true -> w_active el2 = true -> id1 = id2).

(** * Properties *)

(** ** Numbers *)

Lemma Math_max_lb_l (a b : Q) : (a <= Math_max a b)%Q.
Proof.
  unfold Math_max. destruct (Qle_bool a b) eqn:E.
  - by apply Qle_bool_iff.
  - apply Qle_refl.
Qed.

Lemma Math_max_lb_r (a b : Q) : (b <= Math_max a b)%Q.
Proof.
  unfold Math_max. destruct (Qle_bool a b) eqn:E.
  - apply Qle_refl.
  - apply Qlt_le_weak, Qnot_le_lt. intros H. apply Qle_bool_iff in H. congruence.
Qed.

Lemma Math_max_below (a b : Q) : (b < a)%Q -> Math_max a b = a.
Proof.
  intros H. unfold Math_max. destruct (Qle_bool a b) eqn:E; [|done].
  apply Qle_bool_iff in E. exfalso. by apply (Qlt_not_le _ _ H).
Qed.

Lemma Math_max_cases (a b : Q) : Math_max a b = a \/ Math_max a b = b.
Proof. unfold Math_max. destruct (Qle_bool a b); auto. Qed.

Lemma Math_min_ub_l (a b : Q) : (Math_min a b <= a)%Q.
Proof.
  unfold Math_min. destruct (Qle_bool a b) eqn:E.
  - apply Qle_refl.
  - apply Qlt_le_weak, Qnot_le_lt. intros H. apply Qle_bool_iff in H. congruence.
Qed.

Lemma Math_max_compat (a a' b b' : Q) :
  (a == a')%Q -> (b == b')%Q -> (Math_max a b == Math_max a' b')%Q.
Proof.
  intros Ha Hb. unfold Math_max.
  destruct (Qle_bool a b) eqn:E, (Qle_bool a' b') eqn:E'; try done.
  - apply Qle_bool_iff in E. rewrite Ha, Hb in E. apply Qle_bool_iff in E. congruence.
  - apply Qle_bool_iff in E'. rewrite <- Ha, <- Hb in E'. apply Qle_bool_iff in E'. congruence.
Qed.

(** The clamp never goes under its lower bound, and goes over the upper one
    only when the bounds are crossed, in which case it is the lower one. *)
Lemma clamp_lower (val lo hi : Q) : (lo <= clamp val lo hi)%Q.
Proof. apply Math_max_lb_l. Qed.

Lemma clamp_upper (val lo hi : Q) :
  (clamp val lo hi <= hi)%Q \/ clamp val lo hi = lo.
Proof.
  unfold clamp. destruct (Math_max_cases lo (Math_min hi val)) as [-> | ->].
  - by right.
  - left. apply Math_min_ub_l.
Qed.

Lemma clamp_upper_ok (val lo hi : Q) : (lo <= hi)%Q -> (clamp val lo hi <= hi)%Q.
Proof.
  intros H. destruct (clamp_upper val lo hi) as [? | ->]; done.
Qed.

Lemma px_inj_eq (a b : Q) : (a == b)%Q -> px a = px b.
Proof. intros H. unfold px. f_equal. by apply Qred_complete. Qed.

(** ** The registry *)

Lemma reg_get_set_eq id v m : reg_get id (reg_set id v m) = Some v.
Proof.
  induction m as [| [k x] r IH]; simpl.
  - by rewrite String.eqb_refl.
  - destruct (String.eqb k id) eqn:E; simpl; rewrite E; done.
Qed.

Lemma reg_get_set_ne id id' v m :
  id <> id' -> reg_get id' (reg_set id v m) = reg_get id' m.
Proof.
  intros Hne. induction m as [| [k x] r IH]; simpl.
  - destruct (String.eqb_spec id id'); done.
  - destruct (String.eqb_spec k id) as [-> | Hk]; simpl.
    + destruct (String.eqb_spec id id'); done.
    + by rewrite IH.
Qed.

Lemma reg_get_delete_eq id m : reg_get id (reg_delete id m) = None.
Proof.
  induction m as [| [k x] r IH]; simpl; [done |].
  destruct (String.eqb k id) eqn:E; simpl; [done | by rewrite E].
Qed.

Lemma reg_get_delete_ne id id' m :
  id <> id' -> reg_get id' (reg_delete id m) = reg_get id' m.
Proof.
  intros Hne. induction m as [| [k x] r IH]; simpl; [done |].
  destruct (String.eqb_spec k id) as [-> | Hk]; simpl.
  - destruct (String.eqb_spec id id'); done.
  - by rewrite IH.
Qed.

Lemma reg_set_absent id v m : reg_get id m = None -> reg_set id v m = m ++ [(id, v)].
Proof.
  induction m as [| [k x] r IH]; simpl; [done |].
  destruct (String.eqb k id); [done |]. intros H. by rewrite IH.
Qed.

(** ** What each function leaves alone *)

Lemma updateTaskbar_frame s : exists t, updateTaskbar s = set_taskbar t s.
Proof.
  unfold updateTaskbar. destruct (taskbar s) eqn:E; [by eexists |].
  exists None. destruct s; simpl in *; by subst.
Qed.

Lemma updateTaskbarActiveState_frame id s :
  exists t, updateTaskbarActiveState id s = set_taskbar t s.
Proof.
  unfold updateTaskbarActiveState.
  edestruct updateTaskbar_frame as [t ->]. by exists t.
Qed.

Lemma bringToFront_frame id s :
  exists t, bringToFront id s =
    set_taskbar t
      (set_windows (alter (fun w => el_active true (el_zIndex (highestZ s + 1) w)) id
                      (el_active false <$> windows s))
         (set_highestZ (highestZ s + 1) s)).
Proof.
  unfold bringToFront. edestruct updateTaskbarActiveState_frame as [t ->]. by exists t.
Qed.

(** Rewrites a state under a taskbar rebuild into one under [set_taskbar]. *)
Ltac frame :=
  repeat match goal with
  | |- context [updateTaskbar ?s] =>
      let t := fresh "t" in let E := fresh "E" in
      destruct (updateTaskbar_frame s) as [t E]; rewrite E; clear E
  | |- context [bringToFront ?id ?s] =>
      let t := fresh "t" in let E := fresh "E" in
      destruct (bringToFront_frame id s) as [t E]; rewrite E; clear E
  end; simpl.

Lemma bringToFront_highestZ id s : highestZ (bringToFront id s) = highestZ s + 1.
Proof. by frame. Qed.

Lemma bringToFront_windows id s :
  windows (bringToFront id s) =
  alter (fun w => el_active true (el_zIndex (highestZ s + 1) w)) id
    (el_active false <$> windows s).
Proof. by frame. Qed.

Lemma bringToFront_lookup_eq id s el :
  windows s !! id = Some el ->
  windows (bringToFront id s) !! id =
  Some (el_active true (el_zIndex (highestZ s + 1) (el_active false el))).
Proof.
  intros H. rewrite bringToFront_windows, lookup_alter_eq, lookup_fmap, H. done.
Qed.

Lemma bringToFront_lookup_ne id k s :
  k <> id -> windows (bringToFront id s) !! k = el_active false <$> windows s !! k.
Proof.
  intros H. rewrite bringToFront_windows, lookup_alter_ne, lookup_fmap; done.
Qed.

(** ** The lifecycle functions, field by field *)

Lemma openWindow_windowPositions id s :
  windowPositions (openWindow id s) = windowPositions s.
Proof.
  unfold openWindow. destruct (windows s !! id); [|done].
  destruct (reg_get id (openWindows s)) as [[|]|]; try by frame.
  all: destruct (String.eqb (w_display w) "flex"); by frame.
Qed.

Lemma closeWindow_windowPositions id s :
  windowPositions (closeWindow id s) = windowPositions s.
Proof. unfold closeWindow. destruct (windows s !! id); [by frame | done]. Qed.

Lemma minimizeWindow_windowPositions id s :
  windowPositions (minimizeWindow id s) = windowPositions s.
Proof. unfold minimizeWindow. destruct (windows s !! id); [by frame | done]. Qed.

Lemma closeWindow_openWindows id s el :
  windows s !! id = Some el ->
  openWindows (closeWindow id s) = reg_delete id (openWindows s).
Proof. intros H. unfold closeWindow. rewrite H. by frame. Qed.

Lemma closeWindow_lookup id s el :
  windows s !! id = Some el ->
  windows (closeWindow id s) !! id = Some (el_maximized false (el_display "none" el)).
Proof. intros H. unfold closeWindow. rewrite H. frame. by rewrite lookup_insert_eq. Qed.

Lemma closeWindow_viewport id s : viewport (closeWindow id s) = viewport s.
Proof. unfold closeWindow. destruct (windows s !! id); [by frame | done]. Qed.

Lemma closeWindow_layout id s : layout (closeWindow id s) = layout s.
Proof. unfold closeWindow. destruct (windows s !! id); [by frame | done]. Qed.



(** Opening a panel that is neither minimized nor shown: it is placed,
    shown, registered as visible and brought to the front. *)
Lemma openWindow_hidden id s el :
  windows s !! id = Some el ->
  reg_get id (openWindows s) <> Some true ->
  w_display el <> "flex"%string ->
  windows (openWindow id s) !! id =
    Some (el_active true (el_zIndex (highestZ s + 1)
            (el_active false (el_display "flex" (positionWindow id el s)))))
  /\ openWindows (openWindow id s) = reg_set id false (openWindows s)
  /\ highestZ (openWindow id s) = highestZ s + 1.
Proof.
  intros H Hreg Hdisp. unfold openWindow. rewrite H.
  destruct (String.eqb_spec (w_display el) "flex") as [? | _]; [done |].
  destruct (reg_get id (openWindows s)) as [[|]|]; [done | |].
  all: frame; rewrite lookup_alter_eq, lookup_fmap, lookup_insert_eq; done.
Qed.

Lemma positionWindow_saved id el s g :
  isMobile s = false -> windowPositions s !! id = Some g ->
  positionWindow id el s =
    el_top (px (inject_Z (sg_y g))) (el_left (px (inject_Z (sg_x g))) el).
Proof. intros Hm Hg. unfold positionWindow. by rewrite Hm, Hg. Qed.

Lemma positionWindow_cascade id el s :
  isMobile s = false -> windowPositions s !! id = None ->
  let b := boxOf s id el in
  let n := Z.of_nat (length (openWindows s)) in
  positionWindow id el s =
    el_top (px (Math_max 20
                  (inject_Z (innerHeight (viewport s) - 48 - or_default (offsetHeight b) 450) / 2
                   + inject_Z (n * 30))))
      (el_left (px (Math_max 40
                      (inject_Z (innerWidth (viewport s) - or_default (offsetWidth b) 600) / 2
                       + inject_Z (n * 30)))) el).
Proof. intros Hm Hg. unfold positionWindow. by rewrite Hm, Hg. Qed.

Lemma positionWindow_size id el s :
  w_width (positionWindow id el s) = w_width el
  /\ w_height (positionWindow id el s) = w_height el
  /\ w_display (positionWindow id el s) = w_display el.
Proof.
  unfold positionWindow. destruct (negb _); [| done].
  by destruct (windowPositions s !! id).
Qed.

Lemma minimizeWindow_lookup id s el :
  windows s !! id = Some el ->
  windows (minimizeWindow id s) !! id = Some (el_display "none" el)
  /\ openWindows (minimizeWindow id s) = reg_set id true (openWindows s).
Proof.
  intros H. unfold minimizeWindow. rewrite H. frame.
  split; [by rewrite lookup_insert_eq |].
  destruct (reg_get id (openWindows s)) eqn:E; [done |].
  by rewrite (reg_set_absent _ _ _ E).
Qed.

Lemma toggleMaximize_maximize id s el :
  windows s !! id = Some el -> w_maximized el = false ->
  toggleMaximize id s =
    set_windows (<[id := el_maximized true el]> (windows s))
      (set_windowPositions (<[id := captureGeometry s id el]> (windowPositions s)) s).
Proof. intros H Hm. unfold toggleMaximize. by rewrite H, Hm. Qed.

Lemma toggleMaximize_restore id s el g :
  windows s !! id = Some el -> w_maximized el = true ->
  windowPositions s !! id = Some g ->
  toggleMaximize id s =
    set_windows
      (<[id := el_height (sg_h g) (el_width (sg_w g)
                 (el_top (px (inject_Z (sg_y g)))
                    (el_left (px (inject_Z (sg_x g))) (el_maximized false el))))]>
         (windows s)) s.
Proof. intros H Hm Hg. unfold toggleMaximize. by rewrite H, Hm, Hg. Qed.

Lemma pointerMove_lookup x y s id el :
  windows s !! id = Some el ->
  windows (pointerMove x y s) !! id = Some (resizeMoveEl s x y id (dragMoveEl s x y id el)).
Proof. intros H. unfold pointerMove. simpl. by rewrite map_lookup_imap, H. Qed.

Lemma pointerMove_folder x y s i f :
  folders s !! i = Some f ->
  folders (pointerMove x y s) !! i = Some (folderMoveEl s x y i f).
Proof. intros H. unfold pointerMove. simpl. by rewrite list_lookup_imap, H. Qed.

Lemma resizeMoveEl_position s x y id el :
  w_left (resizeMoveEl s x y id el) = w_left el /\ w_top (resizeMoveEl s x y id el) = w_top el.
Proof. unfold resizeMoveEl. by destruct (wr_isResizing _). Qed.

Lemma dragMoveEl_idle s x y id el :
  wd_isDragging (getDragVars s id) = false -> dragMoveEl s x y id el = el.
Proof. intros H. unfold dragMoveEl. by rewrite H. Qed.

Lemma resizeMoveEl_idle s x y id el :
  wr_isResizing (getResizeVars s id) = false -> resizeMoveEl s x y id el = el.
Proof. intros H. unfold resizeMoveEl. by rewrite H. Qed.

Lemma dragMoveEl_size s x y id el :
  w_width (dragMoveEl s x y id el) = w_width el
  /\ w_height (dragMoveEl s x y id el) = w_height el.
Proof. unfold dragMoveEl. by destruct (wd_isDragging _). Qed.

(** ** The claims *)


(** C3, as the code has it: for an identity without a registry record,
    [minimizeWindow] changes nothing only when the panel is not found; when
    the panel exists it hides it and appends the record [{minimized: true}]
    for the identity to the registry. *)
Theorem minimizeWindow_unopened (id : string) (s : State) :
  isOpen s id = false ->
  match windows s !! id with
  | None => minimizeWindow id s = s
  | Some el =>
      openWindows (minimizeWindow id s) = openWindows s ++ [(id, true)]
      /\ windows (minimizeWindow id s) !! id = Some (el_display "none" el)
      /\ isOpen (minimizeWindow id s) id = true
      /\ isMinimized (minimizeWindow id s) id = true
  end.
Proof.
  intros Hopen. destruct (windows s !! id) as [el |] eqn:H.
  - destruct (minimizeWindow_lookup id s el H) as [Hw Hr].
    unfold isOpen, isMinimized in *. rewrite Hr, Hw, reg_get_set_eq.
    destruct (reg_get id (openWindows s)) eqn:E; [done |].
    by rewrite (reg_set_absent _ _ _ E).
  - unfold minimizeWindow. by rewrite H.
Qed.

(** C4, as the code has it: on a panel that is not maximized, two calls of
    [toggleMaximize] in a row leave it not maximized, with the inline
    position set to the whole-pixel position the browser reported before
    the first call ([offsetLeft], [offsetTop]) and the inline size set to
    the inline size it had or, if it had none, to the size the browser
    reported ([offsetWidth], [offsetHeight]); apart from the panel only the
    saved geometry of the identity has changed.  The panel is exactly as
    before the first call when its inline position was that offset
    position and its inline size was set.  An inline position that is not
    the reported one (a fraction of a pixel, for one) is replaced, and an
    empty inline size becomes a size in pixels.  Measured again where the
    restore has put it, the panel gives the record of the first call. *)
Theorem toggleMaximize_twice (id : string) (s : State) (el : WindowEl) :
  windows s !! id = Some el ->
  w_maximized el = false ->
  let b := boxOf s id el in
  let width := if truthy (w_width el) then w_width el else px (inject_Z (offsetWidth b)) in
  let height := if truthy (w_height el) then w_height el else px (inject_Z (offsetHeight b)) in
  let saved := mkSavedGeometry (offsetLeft b) (offsetTop b) width height in
  let s2 := toggleMaximize id (toggleMaximize id s) in
  exists el2,
    windows s2 !! id = Some el2
    /\ w_maximized el2 = false
    /\ w_left el2 = px (inject_Z (offsetLeft b)) /\ w_top el2 = px (inject_Z (offsetTop b))
    /\ w_width el2 = width /\ w_height el2 = height
    /\ w_display el2 = w_display el /\ w_zIndex el2 = w_zIndex el
    /\ w_active el2 = w_active el
    /\ s2 = set_windows (<[id := el2]> (windows s))
              (set_windowPositions (<[id := saved]> (windowPositions s)) s)
    /\ (w_left el = px (inject_Z (offsetLeft b)) -> w_top el = px (inject_Z (offsetTop b)) ->
        truthy (w_width el) = true -> truthy (w_height el) = true ->
        el2 = el)
    /\ (forall q, w_left el = css_px q -> ~ (q == inject_Z (offsetLeft b))%Q ->
          w_left el2 <> w_left el)
    /\ (forall q, w_top el = css_px q -> ~ (q == inject_Z (offsetTop b))%Q ->
          w_top el2 <> w_top el)
    /\ (truthy (w_width el) = false -> w_width el2 <> w_width el)
    /\ (truthy (w_height el) = false -> w_height el2 <> w_height el)
    /\ (offsetLeft (boxOf s2 id el2) = offsetLeft b ->
        offsetTop (boxOf s2 id el2) = offsetTop b ->
        captureGeometry s2 id el2 = saved).
Proof.
  intros H Hm b width height saved s2. subst s2.
  assert (Hcap : captureGeometry s id el = saved) by reflexivity.
  rewrite (toggleMaximize_maximize id s el H Hm), Hcap.
  erewrite toggleMaximize_restore; simpl.
  2: apply lookup_insert_eq. 2: done. 2: apply lookup_insert_eq.
  assert (Hfrac : forall (q : Q) (n : Z), ~ (q == inject_Z n)%Q -> px (inject_Z n) <> css_px q).
  { intros q n Hq. unfold px. intros [= Heq]. apply Hq. rewrite <- Heq.
    apply Qred_correct. }
  assert (Hempty : forall c d, truthy c = false -> px d <> c).
  { intros c d Hc Heq. subst c. discriminate. }
  eexists. split; [apply lookup_insert_eq |].
  split; [done |]. split; [done |]. split; [done |].
  split; [done |]. split; [done |]. split; [done |]. split; [done |]. split; [done |].
  split; [by rewrite insert_insert_eq |].
  split.
  { intros Hl Ht Hw Hh. subst saved width height. simpl. rewrite Hw, Hh, <- Hl, <- Ht.
    clear -Hm. destruct el; simpl in *. by subst. }
  split; [intros q Hq Hne; rewrite Hq; by apply Hfrac |].
  split; [intros q Hq Hne; rewrite Hq; by apply Hfrac |].
  split; [intros Hw; subst saved width; simpl; rewrite Hw; by apply Hempty |].
  split; [intros Hh; subst saved height; simpl; rewrite Hh; by apply Hempty |].
  intros Hx Hy. unfold captureGeometry in *. simpl in *.
  rewrite Hx, Hy.
  assert (Ht : forall c d, truthy (if truthy c then c else px d) = true).
  { intros c d. by destruct (truthy c) eqn:E. }
  subst saved width height. simpl. rewrite !Ht. reflexivity.
Qed.

(** C8, as the code has it: opening a closed identity (no registry record,
    panel not shown) that has no saved geometry, on a viewport that is not
    narrow, puts the panel at [max(40, (workW - w)/2 + 30 n)] from the left
    and [max(20, (workH - h)/2 + 30 n)] from the top, where the work area
    is the viewport less the 48px taskbar band in height and [n] is the
    number of registry records at that moment.  [w] and [h] are what the
    browser reports as the panel's width and height at that moment, before
    the panel is shown, with 600 in place of a zero width and 450 in place
    of a zero height; the inline size of the panel does not enter, and is
    left as it is.  Under a browser that reports no size for a panel with
    [display: none], a panel closed by the script is thus placed as a
    window of 600 by 450, whatever its size. *)
Theorem open_cascade_placement (id : string) (s : State) (el : WindowEl) :
  windows s !! id = Some el ->
  isOpen s id = false ->
  w_display el <> "flex"%string ->
  windowPositions s !! id = None ->
  isMobile s = false ->
  let workW := inject_Z (innerWidth (viewport s)) in
  let workH := inject_Z (innerHeight (viewport s) - 48) in
  let n := inject_Z (Z.of_nat (length (openWindows s))) in
  let ow := offsetWidth (boxOf s id el) in
  let oh := offsetHeight (boxOf s id el) in
  exists el',
    windows (openWindow id s) !! id = Some el'
    /\ w_left el'
       = px (Math_max 40 ((workW - inject_Z (if ow =? 0 then 600 else ow)) / 2 + 30 * n))
    /\ w_top el'
       = px (Math_max 20 ((workH - inject_Z (if oh =? 0 then 450 else oh)) / 2 + 30 * n))
    /\ w_width el' = w_width el /\ w_height el' = w_height el
    /\ w_display el' = "flex"%string
    /\ isOpen (openWindow id s) id = true
    /\ (hiddenUnmeasured s id -> w_display el = "none"%string ->
        w_left el' = px (Math_max 40 ((workW - 600) / 2 + 30 * n))
        /\ w_top el' = px (Math_max 20 ((workH - 450) / 2 + 30 * n))).
Proof.
  intros H Hopen Hdisp Hsaved Hm workW workH n ow oh.
  assert (Hreg : reg_get id (openWindows s) <> Some true).
  { unfold isOpen in Hopen. by destruct (reg_get id (openWindows s)). }
  destruct (openWindow_hidden id s el H Hreg Hdisp) as (Hw & Hr & _).
  assert (Hl : w_left (positionWindow id el s)
               = px (Math_max 40 ((workW - inject_Z (if ow =? 0 then 600 else ow)) / 2
                                  + 30 * n))).
  { rewrite (positionWindow_cascade id el s Hm Hsaved). simpl.
    apply px_inj_eq, Math_max_compat; [reflexivity |].
    subst workW n ow. unfold or_default. rewrite inject_Z_mult. unfold Z.sub.
    rewrite inject_Z_plus, inject_Z_opp. field. }
  assert (Ht : w_top (positionWindow id el s)
               = px (Math_max 20 ((workH - inject_Z (if oh =? 0 then 450 else oh)) / 2
                                  + 30 * n))).
  { rewrite (positionWindow_cascade id el s Hm Hsaved). simpl.
    apply px_inj_eq, Math_max_compat; [reflexivity |].
    subst workH n oh. unfold or_default. rewrite inject_Z_mult. unfold Z.sub.
    rewrite !inject_Z_plus, !inject_Z_opp. field. }
  destruct (positionWindow_size id el s) as (Hpw & Hph & _).
  eexists. split; [exact Hw |]. simpl.
  split; [exact Hl |]. split; [exact Ht |].
  split; [exact Hpw |]. split; [exact Hph |]. split; [done |].
  split; [unfold isOpen; by rewrite Hr, reg_get_set_eq |].
  intros Hnone Hd. destruct (Hnone el Hd) as [Hw0 Hh0].
  rewrite Hl, Ht. subst ow oh. rewrite Hw0, Hh0. done.
Qed.


(** C7: while a resize session is on, every pointer move sets the width to
    at least 320 and the height to at least 200; a move that asks for less
    than the floor gives exactly 320, respectively exactly 200. *)
Theorem resize_floor (x y : Q) (s : State) (id : string) (el : WindowEl) :
  windows s !! id = Some el ->
  wr_isResizing (getResizeVars s id) = true ->
  let v := getResizeVars s id in
  let wantW := (inject_Z (wr_startW v) + (x - wr_startX v))%Q in
  let wantH := (inject_Z (wr_startH v) + (y - wr_startY v))%Q in
  exists el' w h,
    windows (pointerMove x y s) !! id = Some el'
    /\ w_width el' = css_px w /\ w_height el' = css_px h
    /\ (320 <= w)%Q /\ (200 <= h)%Q
    /\ ((wantW < 320)%Q -> w = 320%Q)
    /\ ((wantH < 200)%Q -> h = 200%Q).
Proof.
  intros H Hr v wantW wantH.
  eexists _, _, _. split; [by apply pointerMove_lookup |].
  subst v. unfold resizeMoveEl. rewrite Hr. simpl. unfold px.
  split; [reflexivity |]. split; [reflexivity |].
  subst wantW wantH. repeat split.
  - rewrite Qred_correct. apply Math_max_lb_l.
  - rewrite Qred_correct. apply Math_max_lb_l.
  - intros Hlt. by rewrite Math_max_below.
  - intros Hlt. by rewrite Math_max_below.
Qed.

(** C6, as the code has it: while a drag is on, every pointer move leaves
    the panel with [left >= -width + 100] and [top >= 0], where [width] is
    the [offsetWidth] of the panel as the drag listener reads it when it
    handles the move, and the icon with [left >= 0] and [top >= 0]; the
    upper bounds ([viewportWidth - 50] and [viewportHeight - 48 - 40] for a
    panel, [viewportWidth - 80] and [viewportHeight - 48 - 80] for an icon)
    hold whenever they are not below the lower bound of the same axis, and
    otherwise the position is that lower bound.  When no resize of the same
    panel is under way, the move leaves the size of the panel alone, and
    under a browser whose width for the panel does not depend on its
    position the bound [left >= -width + 100] holds of the width the panel
    has after the move as well. *)
Theorem drag_clamped (x y : Q) (s : State) :
  (forall (id : string) (el : WindowEl),
     windows s !! id = Some el ->
     wd_isDragging (getDragVars s id) = true ->
     let lo := inject_Z (- offsetWidth (boxOf s id el) + 100) in
     let hiX := inject_Z (innerWidth (viewport s) - 50) in
     let hiY := inject_Z (innerHeight (viewport s) - 48 - 40) in
     exists el' l t,
       windows (pointerMove x y s) !! id = Some el'
       /\ w_left el' = css_px l /\ w_top el' = css_px t
       /\ (lo <= l)%Q /\ (0 <= t)%Q
       /\ ((lo <= hiX)%Q -> (l <= hiX)%Q) /\ ((0 <= hiY)%Q -> (t <= hiY)%Q)
       /\ ((hiX < lo)%Q -> (l == lo)%Q) /\ ((hiY < 0)%Q -> (t == 0)%Q)
       /\ (wr_isResizing (getResizeVars s id) = false ->
           w_width el' = w_width el /\ w_height el' = w_height el
           /\ (widthIgnoresPosition s id ->
               (inject_Z (- offsetWidth (boxOf (pointerMove x y s) id el') + 100) <= l)%Q)))
  /\
  (forall (i : nat) (f : FolderEl),
     folders s !! i = Some f ->
     fd_isDragging (getFolderVars s i) = true ->
     let hiX := inject_Z (innerWidth (viewport s) - 80) in
     let hiY := inject_Z (innerHeight (viewport s) - 48 - 80) in
     exists f' l t,
       folders (pointerMove x y s) !! i = Some f'
       /\ f_left f' = css_px l /\ f_top f' = css_px t
       /\ (0 <= l)%Q /\ (0 <= t)%Q
       /\ ((0 <= hiX)%Q -> (l <= hiX)%Q) /\ ((0 <= hiY)%Q -> (t <= hiY)%Q)
       /\ ((hiX < 0)%Q -> (l == 0)%Q) /\ ((hiY < 0)%Q -> (t == 0)%Q)).
Proof.
  assert (Hcross : forall val lo hi, (hi < lo)%Q -> (Qred (clamp val lo hi) == lo)%Q).
  { intros val lo hi Hlt. rewrite Qred_correct.
    destruct (clamp_upper val lo hi) as [Hle | ->]; [| reflexivity].
    apply Qle_antisym; [| apply clamp_lower].
    apply Qlt_le_weak. eapply Qle_lt_trans; eauto. }
  split.
  - intros id el H Hd lo hiX hiY.
    eexists _, _, _. split; [by apply pointerMove_lookup |].
    destruct (resizeMoveEl_position s x y id (dragMoveEl s x y id el)) as [-> ->].
    split; [unfold dragMoveEl; rewrite Hd; reflexivity |].
    split; [unfold dragMoveEl; rewrite Hd; reflexivity |].
    split; [rewrite Qred_correct; apply clamp_lower |].
    split; [rewrite Qred_correct; apply clamp_lower |].
    split; [intros Hle; rewrite Qred_correct; by apply clamp_upper_ok |].
    split; [intros Hle; rewrite Qred_correct; by apply clamp_upper_ok |].
    split; [apply Hcross |]. split; [apply Hcross |].
    intros Hr. rewrite (resizeMoveEl_idle s x y id _ Hr).
    destruct (dragMoveEl_size s x y id el) as [Hw Hh].
    split; [exact Hw |]. split; [exact Hh |].
    intros Hpos. rewrite Qred_correct.
    assert (Hsame : offsetWidth (boxOf (pointerMove x y s) id (dragMoveEl s x y id el))
                    = offsetWidth (boxOf s id el)).
    { unfold dragMoveEl. rewrite Hd. apply Hpos. }
    rewrite Hsame. apply clamp_lower.
  - intros i f H Hd hiX hiY.
    eexists _, _, _. split; [by apply pointerMove_folder |].
    unfold folderMoveEl. rewrite Hd. simpl. unfold px.
    split; [reflexivity |]. split; [reflexivity |].
    repeat split; try (rewrite Qred_correct; apply clamp_lower).
    + intros Hle. rewrite Qred_correct. by apply clamp_upper_ok.
    + intros Hle. rewrite Qred_correct. by apply clamp_upper_ok.
    + apply Hcross.
    + apply Hcross.
Qed.

(** ** Invariants of a session *)

(** *** The counter never goes down *)

Lemma openWindow_highestZ id s :
  highestZ s <= highestZ (openWindow id s) <= highestZ s + 1.
Proof.
  unfold openWindow. destruct (windows s !! id); [| lia].
  destruct (reg_get id (openWindows s)) as [[|]|]; try (frame; lia).
  all: destruct (String.eqb (w_display w) "flex"); frame; lia.
Qed.

Lemma closeWindow_highestZ id s : highestZ (closeWindow id s) = highestZ s.
Proof. unfold closeWindow. destruct (windows s !! id); [by frame | done]. Qed.

Lemma minimizeWindow_highestZ id s : highestZ (minimizeWindow id s) = highestZ s.
Proof. unfold minimizeWindow. destruct (windows s !! id); [by frame | done]. Qed.

Lemma toggleMaximize_highestZ id s : highestZ (toggleMaximize id s) = highestZ s.
Proof.
  unfold toggleMaximize. destruct (windows s !! id); [| done].
  by destruct (w_maximized w).
Qed.

Lemma panelPointerDown_highestZ id s : highestZ s <= highestZ (panelPointerDown id s).
Proof.
  unfold panelPointerDown. destruct (windows s !! id); [| lia].
  destruct (w_hasTitlebar w); [frame |]; lia.
Qed.

Lemma titlebarPointerDown_highestZ id b x y s :
  highestZ s <= highestZ (titlebarPointerDown id b x y s).
Proof.
  unfold titlebarPointerDown. destruct (windows s !! id); [| lia].
  destruct (negb _), (isMobile s), b, (w_maximized w); try lia. frame. lia.
Qed.

Lemma windowPointerDown_highestZ id t x y s :
  highestZ s <= highestZ (windowPointerDown id t x y s).
Proof.
  destruct t; simpl.
  - apply panelPointerDown_highestZ.
  - etrans; [| apply panelPointerDown_highestZ]. apply titlebarPointerDown_highestZ.
  - etrans; [| apply panelPointerDown_highestZ]. apply titlebarPointerDown_highestZ.
  - unfold handlePointerDown. destruct (windows s !! id).
    + destruct (negb _); [apply panelPointerDown_highestZ |].
      destruct (isMobile s); [apply panelPointerDown_highestZ | simpl; lia].
    + apply panelPointerDown_highestZ.
Qed.

Lemma folderDblClick_highestZ i s : highestZ s <= highestZ (folderDblClick i s).
Proof.
  unfold folderDblClick. destruct (folders s !! i ≫= f_folderId) as [[|]|]; try lia.
  apply openWindow_highestZ.
Qed.

Lemma step_highestZ s e : highestZ s <= highestZ (step s e).
Proof.
  destruct e; simpl.
  - apply openWindow_highestZ.
  - by rewrite closeWindow_highestZ.
  - by rewrite minimizeWindow_highestZ.
  - by rewrite toggleMaximize_highestZ.
  - destruct (windows s !! id); [rewrite bringToFront_highestZ |]; lia.
  - apply windowPointerDown_highestZ.
  - unfold windowButton.
    repeat match goal with |- context [if ?b then _ else _] => destruct b end.
    + by rewrite closeWindow_highestZ.
    + by rewrite minimizeWindow_highestZ.
    + by rewrite toggleMaximize_highestZ.
    + lia.
  - unfold taskbarClick. destruct (taskbar s ≫= _); [| lia].
    destruct (reg_get _ _) as [[|]|]; [apply openWindow_highestZ | | lia].
    destruct (windows s !! _); [| lia].
    destruct (w_active w); [by rewrite minimizeWindow_highestZ |].
    rewrite bringToFront_highestZ. lia.
  - unfold folderPointerDown. destruct (folders s !! i); [| lia].
    destruct (isMobile s); [simpl; lia |].
    destruct (folderLayout s i (viewport s) f). simpl. lia.
  - apply folderDblClick_highestZ.
  - unfold folderClick.
    destruct (isMobile s || _); [| lia].
    destruct (isMobile s); [apply folderDblClick_highestZ | lia].
  - simpl. lia.
  - simpl. lia.
  - simpl. lia.
  - unfold viewportResize, arrangeFoldersForMobile.
    destruct (negb _); simpl; lia.
Qed.

Lemma run_app es1 es2 s : run (es1 ++ es2) s = run es2 (run es1 s).
Proof. unfold run. apply fold_left_app. Qed.

Lemma run_cons e es s : run (e :: es) s = run es (step s e).
Proof. done. Qed.

Lemma run_nil s : run [] s = s.
Proof. done. Qed.

Lemma run_highestZ es s : highestZ s <= highestZ (run es s).
Proof.
  revert s. induction es as [| e es IH]; intros s.
  - rewrite run_nil. lia.
  - rewrite run_cons. etrans; [apply step_highestZ | apply IH].
Qed.

(** *** A maximized panel has saved geometry *)

Lemma grows_maximizedSaved s s' : grows s s' -> maximizedSaved s -> maximizedSaved s'.
Proof.
  intros [Hp Hw] Hinv id el' H Hm.
  destruct (Hw id el' H Hm) as [(el & He & Hme) | ?]; [| done].
  apply Hp. by eapply Hinv.
Qed.

Lemma grows_refl s : grows s s.
Proof. split; [done |]. intros id el' H Hm. left. eauto. Qed.

Lemma grows_trans s1 s2 s3 : grows s1 s2 -> grows s2 s3 -> grows s1 s3.
Proof.
  intros [Hp1 Hw1] [Hp2 Hw2]. split; [eauto |].
  intros id el3 H Hm.
  destruct (Hw2 id el3 H Hm) as [(el2 & H2 & Hm2) | ?]; [| by right].
  destruct (Hw1 id el2 H2 Hm2) as [? | ?]; [by left | right; eauto].
Qed.

Lemma grows_same s s' :
  windows s' = windows s -> windowPositions s' = windowPositions s -> grows s s'.
Proof.
  intros Hw Hp. split; rewrite ?Hp; [done |].
  intros id el' H Hm. rewrite Hw in H. left. eauto.
Qed.

(** A change of the panels that turns no [maximized] class on. *)
Lemma grows_windows s ws :
  (forall id el', ws !! id = Some el' -> w_maximized el' = true ->
     exists el, windows s !! id = Some el /\ w_maximized el = true) ->
  grows s (set_windows ws s).
Proof. intros H. split; [done |]. intros id el' He Hm. left. eauto. Qed.

Lemma grows_insert s id el el' :
  windows s !! id = Some el ->
  (w_maximized el' = true -> w_maximized el = true) ->
  grows s (set_windows (<[id := el']> (windows s)) s).
Proof.
  intros H Hk. apply grows_windows. intros k e He Hm.
  destruct (decide (k = id)) as [-> | Hne].
  - rewrite lookup_insert_eq in He. injection He as <-. eauto.
  - rewrite lookup_insert_ne in He by done. eauto.
Qed.

Lemma updateTaskbar_grows s : grows s (updateTaskbar s).
Proof. destruct (updateTaskbar_frame s) as [t ->]. by apply grows_same. Qed.

Lemma bringToFront_grows id s : grows s (bringToFront id s).
Proof.
  destruct (bringToFront_frame id s) as [t ->].
  eapply grows_trans; [| by apply grows_same].
  eapply grows_trans; [by apply (grows_same _ (set_highestZ (highestZ s + 1) s)) |].
  apply grows_windows. simpl. intros k e He Hm.
  destruct (decide (k = id)) as [-> | Hne].
  - rewrite lookup_alter_eq, lookup_fmap in He.
    destruct (windows s !! id) as [el |]; [| done].
    simpl in He. injection He as <-. eauto.
  - rewrite lookup_alter_ne, lookup_fmap in He by done.
    destruct (windows s !! k) as [el |]; [| done].
    simpl in He. injection He as <-. eauto.
Qed.

Lemma positionWindow_maximized id el s :
  w_maximized (positionWindow id el s) = w_maximized el.
Proof.
  unfold positionWindow. destruct (negb _); [| done].
  by destruct (windowPositions s !! id).
Qed.

Lemma openWindow_grows id s : grows s (openWindow id s).
Proof.
  unfold openWindow. destruct (windows s !! id) as [el |] eqn:H; [| apply grows_refl].
  assert (Hopen : forall el1, w_maximized el1 = w_maximized el ->
    grows s (updateTaskbar (bringToFront id
      (set_openWindows (reg_set id false (openWindows s))
         (set_windows (<[id := el1]> (windows s)) s))))).
  { intros el1 Hm.
    eapply grows_trans; [| apply updateTaskbar_grows].
    eapply grows_trans; [| apply bringToFront_grows].
    eapply grows_trans; [| by apply grows_same].
    apply (grows_insert _ _ el); [done | by rewrite Hm]. }
  destruct (reg_get id (openWindows s)) as [[|]|]; [by apply Hopen | |].
  all: destruct (String.eqb (w_display el) "flex"); [apply bringToFront_grows |].
  all: apply Hopen; simpl; apply positionWindow_maximized.
Qed.

Lemma closeWindow_grows id s : grows s (closeWindow id s).
Proof.
  unfold closeWindow. destruct (windows s !! id) as [el |] eqn:H; [| apply grows_refl].
  eapply grows_trans; [| apply updateTaskbar_grows].
  eapply grows_trans; [| by apply grows_same].
  by apply (grows_insert _ _ el).
Qed.

Lemma minimizeWindow_grows id s : grows s (minimizeWindow id s).
Proof.
  unfold minimizeWindow. destruct (windows s !! id) as [el |] eqn:H; [| apply grows_refl].
  eapply grows_trans; [| apply updateTaskbar_grows].
  eapply grows_trans; [| by apply grows_same].
  by apply (grows_insert _ _ el).
Qed.

Lemma toggleMaximize_grows id s : grows s (toggleMaximize id s).
Proof.
  unfold toggleMaximize. destruct (windows s !! id) as [el |] eqn:H; [| apply grows_refl].
  destruct (w_maximized el) eqn:Hm.
  - apply (grows_insert _ _ el); [done |].
    by destruct (windowPositions s !! id).
  - split; simpl.
    + intros k Hk. destruct (decide (k = id)) as [-> | Hne].
      * rewrite lookup_insert_eq. eauto.
      * by rewrite lookup_insert_ne.
    + intros k e He Hme. destruct (decide (k = id)) as [-> | Hne].
      * right. rewrite lookup_insert_eq. eauto.
      * rewrite lookup_insert_ne in He by done. left. eauto.
Qed.

Lemma panelPointerDown_grows id s : grows s (panelPointerDown id s).
Proof.
  unfold panelPointerDown. destruct (windows s !! id); [| apply grows_refl].
  destruct (w_hasTitlebar w); [apply bringToFront_grows | apply grows_refl].
Qed.

Lemma titlebarPointerDown_grows id b x y s : grows s (titlebarPointerDown id b x y s).
Proof.
  unfold titlebarPointerDown. destruct (windows s !! id); [| apply grows_refl].
  destruct (negb _), (isMobile s), b, (w_maximized w); try apply grows_refl.
  eapply grows_trans; [| apply bringToFront_grows]. by apply grows_same.
Qed.

Lemma windowPointerDown_grows id t x y s : grows s (windowPointerDown id t x y s).
Proof.
  destruct t; simpl.
  - apply panelPointerDown_grows.
  - eapply grows_trans; [apply titlebarPointerDown_grows | apply panelPointerDown_grows].
  - eapply grows_trans; [apply titlebarPointerDown_grows | apply panelPointerDown_grows].
  - unfold handlePointerDown. destruct (windows s !! id).
    + destruct (negb _); [apply panelPointerDown_grows |].
      destruct (isMobile s); [apply panelPointerDown_grows | by apply grows_same].
    + apply panelPointerDown_grows.
Qed.

Lemma folderDblClick_grows i s : grows s (folderDblClick i s).
Proof.
  unfold folderDblClick.
  destruct (folders s !! i ≫= f_folderId) as [[|]|]; try apply grows_refl.
  apply openWindow_grows.
Qed.

Lemma dragMoveEl_maximized s x y id el :
  w_maximized (dragMoveEl s x y id el) = w_maximized el.
Proof. unfold dragMoveEl. by destruct (wd_isDragging _). Qed.

Lemma resizeMoveEl_maximized s x y id el :
  w_maximized (resizeMoveEl s x y id el) = w_maximized el.
Proof. unfold resizeMoveEl. by destruct (wr_isResizing _). Qed.

Lemma pointerMove_grows x y s : grows s (pointerMove x y s).
Proof.
  unfold pointerMove. split; [done |]. simpl. intros k e He Hm. left.
  rewrite map_lookup_imap in He.
  destruct (windows s !! k) as [el |]; [| done].
  simpl in He. injection He as <-.
  rewrite resizeMoveEl_maximized, dragMoveEl_maximized in Hm. eauto.
Qed.

Lemma pointerUp_grows s : grows s (pointerUp s).
Proof.
  unfold pointerUp. split; simpl.
  - intros k [g Hk]. rewrite lookup_union.
    destruct (map_imap (dragCommit s) (windows s) !! k); rewrite ?Hk; simpl; eauto.
  - intros k e He Hm. left. eauto.
Qed.

Lemma step_grows s e : grows s (step s e).
Proof.
  destruct e; simpl.
  - apply openWindow_grows.
  - apply closeWindow_grows.
  - apply minimizeWindow_grows.
  - apply toggleMaximize_grows.
  - destruct (windows s !! id); [apply bringToFront_grows | apply grows_refl].
  - apply windowPointerDown_grows.
  - unfold windowButton.
    repeat match goal with |- context [if ?b then _ else _] => destruct b end.
    + apply closeWindow_grows.
    + apply minimizeWindow_grows.
    + apply toggleMaximize_grows.
    + apply grows_refl.
  - unfold taskbarClick. destruct (taskbar s ≫= _); [| apply grows_refl].
    destruct (reg_get _ _) as [[|]|]; [apply openWindow_grows | | apply grows_refl].
    destruct (windows s !! _); [| apply grows_refl].
    destruct (w_active w); [apply minimizeWindow_grows | apply bringToFront_grows].
  - unfold folderPointerDown. destruct (folders s !! i); [| apply grows_refl].
    destruct (isMobile s); [by apply grows_same |].
    destruct (folderLayout s i (viewport s) f). by apply grows_same.
  - apply folderDblClick_grows.
  - unfold folderClick.
    destruct (isMobile s || _); [| apply grows_refl].
    destruct (isMobile s); [apply folderDblClick_grows | apply grows_refl].
  - by apply grows_same.
  - apply pointerMove_grows.
  - apply pointerUp_grows.
  - unfold viewportResize, arrangeFoldersForMobile.
    destruct (negb _); by apply grows_same.
Qed.

Lemma run_grows es s : grows s (run es s).
Proof.
  revert s. induction es as [| e es IH]; intros s.
  - apply grows_refl.
  - rewrite run_cons. eapply grows_trans; [apply step_grows | apply IH].
Qed.

(** C10: the invariant "a panel with the [maximized] class has a record of
    saved geometry" is kept by every event, hence by every session that
    starts in a state where it holds (such as a page without a maximized
    panel); and wherever it holds, the restore branch of [toggleMaximize]
    finds the record and sets position and size from it. *)
Theorem maximized_has_saved_geometry (s : State) (es : list Event) :
  maximizedSaved s ->
  (forall e, maximizedSaved (step s e))
  /\ maximizedSaved (run es s)
  /\ forall id el,
       windows (run es s) !! id = Some el -> w_maximized el = true ->
       exists g el',
         windowPositions (run es s) !! id = Some g
         /\ windows (toggleMaximize id (run es s)) !! id = Some el'
         /\ w_maximized el' = false
         /\ w_left el' = px (inject_Z (sg_x g)) /\ w_top el' = px (inject_Z (sg_y g))
         /\ w_width el' = sg_w g /\ w_height el' = sg_h g.
Proof.
  intros Hinv.
  assert (Hrun : maximizedSaved (run es s))
    by (eapply grows_maximizedSaved; [apply run_grows | done]).
  split; [intros e; eapply grows_maximizedSaved; [apply step_grows | done] |].
  split; [done |].
  intros id el H Hm. destruct (Hrun id el H Hm) as [g Hg].
  exists g. eexists.
  rewrite (toggleMaximize_restore id _ el g H Hm Hg). simpl.
  rewrite lookup_insert_eq. done.
Qed.

(** *** Bringing to front *)

Lemma bringToFront_dom id s k :
  is_Some (windows s !! k) -> is_Some (windows (bringToFront id s) !! k).
Proof.
  intros [el H]. destruct (decide (k = id)) as [-> | Hne].
  - rewrite (bringToFront_lookup_eq _ _ _ H). eauto.
  - rewrite (bringToFront_lookup_ne _ _ _ Hne), H. simpl. eauto.
Qed.

Lemma run_bringToFront_dom ids s k :
  is_Some (windows s !! k) -> is_Some (windows (run (BringToFront <$> ids) s) !! k).
Proof.
  revert s. induction ids as [| id ids IH]; intros s H; [done |].
  rewrite fmap_cons, run_cons. apply IH. simpl.
  destruct (windows s !! id); [by apply bringToFront_dom | done].
Qed.

Lemma run_bringToFront_highestZ ids s :
  Forall (fun id => is_Some (windows s !! id)) ids ->
  highestZ (run (BringToFront <$> ids) s) = highestZ s + Z.of_nat (length ids).
Proof.
  revert s. induction ids as [| id ids IH]; intros s Hall.
  - rewrite run_nil. simpl. lia.
  - apply Forall_cons in Hall as [[el Hid] Hall].
    rewrite fmap_cons, run_cons. simpl step. rewrite Hid, IH.
    + rewrite bringToFront_highestZ. simpl length. lia.
    + eapply Forall_impl; [exact Hall |]. intros k. apply bringToFront_dom.
Qed.

(** C5: in a sequence of [bringToFront] calls on panels of the page, the
    k-th call assigns the stacking value [highestZ + k], so the values
    assigned are strictly increasing and none is used twice; after each
    call the panel just brought to the front carries that value and the
    [active] class, and no other panel carries the class.  Over a whole
    session, whatever the events, the counter never goes down. *)
Theorem bringToFront_monotone_unique_active (s : State) (ids : list string) :
  Forall (fun id => is_Some (windows s !! id)) ids ->
  (forall pre id post, ids = pre ++ id :: post ->
     let s0 := run (BringToFront <$> pre) s in
     let s1 := bringToFront id s0 in
     highestZ s0 < highestZ s1
     /\ highestZ s1 = highestZ s + Z.of_nat (length pre) + 1
     /\ exists el,
          windows s1 !! id = Some el
          /\ w_zIndex el = Some (highestZ s1) /\ w_active el = true
          /\ forall id' el', id' <> id -> windows s1 !! id' = Some el' ->
               w_active el' = false)
  /\ (forall es : list Event, highestZ s <= highestZ (run es s)).
Proof.
  intros Hall. split; [| intros es; apply run_highestZ].
  intros pre id post -> s0 s1. subst s1.
  rewrite Forall_app, Forall_cons in Hall. destruct Hall as (Hpre & Hid & _).
  rewrite bringToFront_highestZ. subst s0. rewrite (run_bringToFront_highestZ _ _ Hpre).
  split; [lia |]. split; [lia |].
  destruct (run_bringToFront_dom pre s id Hid) as [el0 H0].
  eexists. split; [by apply bringToFront_lookup_eq |].
  rewrite (run_bringToFront_highestZ _ _ Hpre).
  repeat split; try done.
  intros id' el' Hne H'. rewrite (bringToFront_lookup_ne _ _ _ Hne) in H'.
  destruct (windows _ !! id'); [| done]. simpl in H'. by injection H' as <-.
Qed.

(** *** A shown panel is registered *)

Lemma shownRegistered_same s s' :
  windows s' = windows s -> openWindows s' = openWindows s ->
  shownRegistered s -> shownRegistered s'.
Proof. intros Hw Ho Hinv id el. rewrite Hw, Ho. apply Hinv. Qed.

(** A change of the panels that shows none of them. *)
Lemma shownRegistered_windows s ws :
  (forall id el', ws !! id = Some el' -> w_display el' = "flex"%string ->
     exists el, windows s !! id = Some el /\ w_display el = "flex"%string) ->
  shownRegistered s -> shownRegistered (set_windows ws s).
Proof.
  intros H Hinv id el' He Hd. simpl in *.
  destruct (H id el' He Hd) as (el & Hel & Hdel). eauto.
Qed.

Lemma updateTaskbar_shownRegistered s :
  shownRegistered s -> shownRegistered (updateTaskbar s).
Proof. destruct (updateTaskbar_frame s) as [t ->]. by apply shownRegistered_same. Qed.

Lemma bringToFront_shownRegistered id s :
  shownRegistered s -> shownRegistered (bringToFront id s).
Proof.
  intros Hinv. destruct (bringToFront_frame id s) as [t ->].
  intros k e He Hd. simpl in *. destruct (decide (k = id)) as [-> | Hne].
  - rewrite lookup_alter_eq, lookup_fmap in He.
    destruct (windows s !! id) as [el |] eqn:Hk; [| done].
    simpl in He. injection He as <-. by apply (Hinv id el).
  - rewrite lookup_alter_ne, lookup_fmap in He by done.
    destruct (windows s !! k) as [el |] eqn:Hk; [| done].
    simpl in He. injection He as <-. by apply (Hinv k el).
Qed.

(** Showing or hiding one panel together with the matching change of its
    registry record. *)
Lemma shownRegistered_show s id el1 :
  shownRegistered s ->
  shownRegistered (set_openWindows (reg_set id false (openWindows s))
                     (set_windows (<[id := el1]> (windows s)) s)).
Proof.
  intros Hinv k e He Hd. simpl in *. destruct (decide (k = id)) as [-> | Hne].
  - apply reg_get_set_eq.
  - rewrite lookup_insert_ne in He by done. rewrite reg_get_set_ne by done. eauto.
Qed.

Lemma openWindow_shownRegistered id s :
  shownRegistered s -> shownRegistered (openWindow id s).
Proof.
  intros Hinv. unfold openWindow. destruct (windows s !! id) as [el |] eqn:H; [| done].
  destruct (reg_get id (openWindows s)) as [[|]|].
  2,3: destruct (String.eqb (w_display el) "flex"); [by apply bringToFront_shownRegistered |].
  all: by apply updateTaskbar_shownRegistered, bringToFront_shownRegistered,
         (shownRegistered_show s).
Qed.

Lemma closeWindow_shownRegistered id s :
  shownRegistered s -> shownRegistered (closeWindow id s).
Proof.
  intros Hinv. unfold closeWindow. destruct (windows s !! id) as [el |] eqn:H; [| done].
  apply updateTaskbar_shownRegistered. intros k e He Hd. simpl in *.
  destruct (decide (k = id)) as [-> | Hne].
  - rewrite lookup_insert_eq in He. by injection He as <-.
  - rewrite lookup_insert_ne in He by done. rewrite reg_get_delete_ne by done. eauto.
Qed.

Lemma minimizeWindow_shownRegistered id s :
  shownRegistered s -> shownRegistered (minimizeWindow id s).
Proof.
  intros Hinv. unfold minimizeWindow. destruct (windows s !! id) as [el |] eqn:H; [| done].
  apply updateTaskbar_shownRegistered. intros k e He Hd. simpl in *.
  destruct (decide (k = id)) as [-> | Hne].
  - rewrite lookup_insert_eq in He. by injection He as <-.
  - rewrite lookup_insert_ne in He by done.
    destruct (reg_get id (openWindows s)) eqn:E.
    + rewrite reg_get_set_ne by done. eauto.
    + rewrite <- (reg_set_absent _ true _ E), reg_get_set_ne by done. eauto.
Qed.

Lemma toggleMaximize_shownRegistered id s :
  shownRegistered s -> shownRegistered (toggleMaximize id s).
Proof.
  intros Hinv. unfold toggleMaximize. destruct (windows s !! id) as [el |] eqn:H; [| done].
  assert (Hins : forall (s0 : State) el1, windows s0 = windows s ->
            openWindows s0 = openWindows s -> w_display el1 = w_display el ->
            shownRegistered (set_windows (<[id := el1]> (windows s0)) s0)).
  { intros s0 el1 Hw Ho Hd1. apply shownRegistered_windows;
      [| by apply (shownRegistered_same s)].
    rewrite Hw. intros k e He Hd. destruct (decide (k = id)) as [-> | Hne].
    - rewrite lookup_insert_eq in He. injection He as <-. exists el. by rewrite <- Hd1.
    - rewrite lookup_insert_ne in He by done. eauto. }
  destruct (w_maximized el).
  - apply (Hins s); try done. by destruct (windowPositions s !! id).
  - by apply Hins.
Qed.

Lemma panelPointerDown_shownRegistered id s :
  shownRegistered s -> shownRegistered (panelPointerDown id s).
Proof.
  intros Hinv. unfold panelPointerDown. destruct (windows s !! id); [| done].
  destruct (w_hasTitlebar w); [by apply bringToFront_shownRegistered | done].
Qed.

Lemma titlebarPointerDown_shownRegistered id b x y s :
  shownRegistered s -> shownRegistered (titlebarPointerDown id b x y s).
Proof.
  intros Hinv. unfold titlebarPointerDown. destruct (windows s !! id); [| done].
  destruct (negb _), (isMobile s), b, (w_maximized w); try done.
  apply bringToFront_shownRegistered. by apply (shownRegistered_same s).
Qed.

Lemma folderDblClick_shownRegistered i s :
  shownRegistered s -> shownRegistered (folderDblClick i s).
Proof.
  intros Hinv. unfold folderDblClick.
  destruct (folders s !! i ≫= f_folderId) as [[|]|]; try done.
  by apply openWindow_shownRegistered.
Qed.

Lemma dragMoveEl_display s x y id el : w_display (dragMoveEl s x y id el) = w_display el.
Proof. unfold dragMoveEl. by destruct (wd_isDragging _). Qed.

Lemma resizeMoveEl_display s x y id el : w_display (resizeMoveEl s x y id el) = w_display el.
Proof. unfold resizeMoveEl. by destruct (wr_isResizing _). Qed.

Lemma step_shownRegistered s e : shownRegistered s -> shownRegistered (step s e).
Proof.
  intros Hinv. destruct e; simpl.
  - by apply openWindow_shownRegistered.
  - by apply closeWindow_shownRegistered.
  - by apply minimizeWindow_shownRegistered.
  - by apply toggleMaximize_shownRegistered.
  - destruct (windows s !! id); [by apply bringToFront_shownRegistered | done].
  - destruct t; simpl.
    + by apply panelPointerDown_shownRegistered.
    + by apply panelPointerDown_shownRegistered, titlebarPointerDown_shownRegistered.
    + by apply panelPointerDown_shownRegistered, titlebarPointerDown_shownRegistered.
    + unfold handlePointerDown. destruct (windows s !! id);
        [| by apply panelPointerDown_shownRegistered].
      destruct (negb _); [by apply panelPointerDown_shownRegistered |].
      destruct (isMobile s); [by apply panelPointerDown_shownRegistered |].
      by apply (shownRegistered_same s).
  - unfold windowButton.
    repeat match goal with |- context [if ?b then _ else _] => destruct b end.
    + by apply closeWindow_shownRegistered.
    + by apply minimizeWindow_shownRegistered.
    + by apply toggleMaximize_shownRegistered.
    + done.
  - unfold taskbarClick. destruct (taskbar s ≫= _); [| done].
    destruct (reg_get _ _) as [[|]|]; [by apply openWindow_shownRegistered | | done].
    destruct (windows s !! _); [| done].
    destruct (w_active w);
      [by apply minimizeWindow_shownRegistered | by apply bringToFront_shownRegistered].
  - unfold folderPointerDown. destruct (folders s !! i); [| done].
    destruct (isMobile s); [by apply (shownRegistered_same s) |].
    destruct (folderLayout s i (viewport s) f). by apply (shownRegistered_same s).
  - by apply folderDblClick_shownRegistered.
  - unfold folderClick. destruct (isMobile s || _); [| done].
    destruct (isMobile s); [by apply folderDblClick_shownRegistered | done].
  - by apply (shownRegistered_same s).
  - unfold pointerMove. intros k e He Hd. simpl in *.
    rewrite map_lookup_imap in He.
    destruct (windows s !! k) as [el |] eqn:Hk; [| done].
    simpl in He. injection He as <-.
    rewrite resizeMoveEl_display, dragMoveEl_display in Hd. eauto.
  - by apply (shownRegistered_same s).
  - unfold viewportResize, arrangeFoldersForMobile.
    destruct (negb _); by apply (shownRegistered_same s).
Qed.

Lemma run_shownRegistered es s : shownRegistered s -> shownRegistered (run es s).
Proof.
  revert s. induction es as [| e es IH]; intros s Hinv; [done |].
  rewrite run_cons. by apply IH, step_shownRegistered.
Qed.

(** In such a state an identity without registry record is closed in the
    full sense: its panel is not shown. *)
Lemma closed_not_shown s id el :
  shownRegistered s -> isOpen s id = false -> windows s !! id = Some el ->
  w_display el <> "flex"%string.
Proof.
  intros Hinv Hopen H Hd. unfold isOpen in Hopen.
  by rewrite (Hinv id el H Hd) in Hopen.
Qed.

(** *** The taskbar lists registry records *)

Lemma reg_get_elem k m l : (k, m) ∈ l -> is_Some (reg_get k l).
Proof.
  induction l as [| [k' m'] r IH]; [by intros ?%elem_of_nil |].
  intros Hin. simpl. destruct (String.eqb_spec k' k); [eauto |].
  apply elem_of_cons in Hin as [[= -> ->] | Hin]; [done | by apply IH].
Qed.

Lemma updateTaskbar_taskbarRegistered s : taskbarRegistered (updateTaskbar s).
Proof.
  intros items item Ht Hin.
  unfold updateTaskbar in *. destruct (taskbar s) eqn:E; [| by rewrite E in Ht].
  simpl in *. injection Ht as <-.
  apply list_elem_of_omap in Hin as ([k m] & Hk & Hitem).
  simpl in Hitem. destruct (windows s !! k) eqn:Hw; [| done].
  injection Hitem as <-. simpl. rewrite Hw. split; [by eapply reg_get_elem | eauto].
Qed.

Lemma bringToFront_taskbarRegistered id s : taskbarRegistered (bringToFront id s).
Proof. unfold bringToFront, updateTaskbarActiveState. apply updateTaskbar_taskbarRegistered. Qed.

(** A step that leaves taskbar and registry alone and removes no panel. *)
Lemma taskbarRegistered_keep s s' :
  taskbar s' = taskbar s -> openWindows s' = openWindows s ->
  (forall k, is_Some (windows s !! k) -> is_Some (windows s' !! k)) ->
  taskbarRegistered s -> taskbarRegistered s'.
Proof.
  intros Ht Ho Hw Hinv items item. rewrite Ht, Ho. intros Hi Hin.
  destruct (Hinv items item Hi Hin). eauto.
Qed.

Lemma openWindow_taskbarRegistered id s :
  taskbarRegistered s -> taskbarRegistered (openWindow id s).
Proof.
  intros Hinv. unfold openWindow. destruct (windows s !! id) as [el |]; [| done].
  destruct (reg_get id (openWindows s)) as [[|]|];
    [apply updateTaskbar_taskbarRegistered | |].
  all: destruct (String.eqb (w_display el) "flex");
    [apply bringToFront_taskbarRegistered | apply updateTaskbar_taskbarRegistered].
Qed.

Lemma closeWindow_taskbarRegistered id s :
  taskbarRegistered s -> taskbarRegistered (closeWindow id s).
Proof.
  intros Hinv. unfold closeWindow. destruct (windows s !! id); [| done].
  apply updateTaskbar_taskbarRegistered.
Qed.

Lemma minimizeWindow_taskbarRegistered id s :
  taskbarRegistered s -> taskbarRegistered (minimizeWindow id s).
Proof.
  intros Hinv. unfold minimizeWindow. destruct (windows s !! id); [| done].
  apply updateTaskbar_taskbarRegistered.
Qed.

Lemma toggleMaximize_taskbarRegistered id s :
  taskbarRegistered s -> taskbarRegistered (toggleMaximize id s).
Proof.
  intros Hinv. unfold toggleMaximize. destruct (windows s !! id) as [el |] eqn:H; [| done].
  destruct (w_maximized el); (apply (taskbarRegistered_keep s); [done | done | | done]).
  all: simpl; intros k Hk; destruct (decide (k = id)) as [-> | Hne];
    [rewrite lookup_insert_eq; eauto | by rewrite lookup_insert_ne].
Qed.

Lemma panelPointerDown_taskbarRegistered id s :
  taskbarRegistered s -> taskbarRegistered (panelPointerDown id s).
Proof.
  intros Hinv. unfold panelPointerDown. destruct (windows s !! id); [| done].
  destruct (w_hasTitlebar w); [apply bringToFront_taskbarRegistered | done].
Qed.

Lemma titlebarPointerDown_taskbarRegistered id b x y s :
  taskbarRegistered s -> taskbarRegistered (titlebarPointerDown id b x y s).
Proof.
  intros Hinv. unfold titlebarPointerDown. destruct (windows s !! id); [| done].
  destruct (negb _), (isMobile s), b, (w_maximized w); try done.
  apply bringToFront_taskbarRegistered.
Qed.

Lemma folderDblClick_taskbarRegistered i s :
  taskbarRegistered s -> taskbarRegistered (folderDblClick i s).
Proof.
  intros Hinv. unfold folderDblClick.
  destruct (folders s !! i ≫= f_folderId) as [[|]|]; try done.
  by apply openWindow_taskbarRegistered.
Qed.

Lemma step_taskbarRegistered s e : taskbarRegistered s -> taskbarRegistered (step s e).
Proof.
  intros Hinv. destruct e; simpl.
  - by apply openWindow_taskbarRegistered.
  - by apply closeWindow_taskbarRegistered.
  - by apply minimizeWindow_taskbarRegistered.
  - by apply toggleMaximize_taskbarRegistered.
  - destruct (windows s !! id); [apply bringToFront_taskbarRegistered | done].
  - destruct t; simpl.
    + by apply panelPointerDown_taskbarRegistered.
    + by apply panelPointerDown_taskbarRegistered, titlebarPointerDown_taskbarRegistered.
    + by apply panelPointerDown_taskbarRegistered, titlebarPointerDown_taskbarRegistered.
    + unfold handlePointerDown. destruct (windows s !! id);
        [| by apply panelPointerDown_taskbarRegistered].
      destruct (negb _); [by apply panelPointerDown_taskbarRegistered |].
      destruct (isMobile s); [by apply panelPointerDown_taskbarRegistered |].
      by apply (taskbarRegistered_keep s).
  - unfold windowButton.
    repeat match goal with |- context [if ?b then _ else _] => destruct b end.
    + by apply closeWindow_taskbarRegistered.
    + by apply minimizeWindow_taskbarRegistered.
    + by apply toggleMaximize_taskbarRegistered.
    + done.
  - unfold taskbarClick. destruct (taskbar s ≫= _); [| done].
    destruct (reg_get _ _) as [[|]|]; [by apply openWindow_taskbarRegistered | | done].
    destruct (windows s !! _); [| done].
    destruct (w_active w);
      [by apply minimizeWindow_taskbarRegistered | apply bringToFront_taskbarRegistered].
  - unfold folderPointerDown. destruct (folders s !! i); [| done].
    destruct (isMobile s); [by apply (taskbarRegistered_keep s) |].
    destruct (folderLayout s i (viewport s) f). by apply (taskbarRegistered_keep s).
  - by apply folderDblClick_taskbarRegistered.
  - unfold folderClick. destruct (isMobile s || _); [| done].
    destruct (isMobile s); [by apply folderDblClick_taskbarRegistered | done].
  - by apply (taskbarRegistered_keep s).
  - apply (taskbarRegistered_keep s); try done.
    intros k [el Hk]. unfold pointerMove. simpl. rewrite map_lookup_imap, Hk. simpl. eauto.
  - by apply (taskbarRegistered_keep s).
  - unfold viewportResize, arrangeFoldersForMobile.
    destruct (negb _); by apply (taskbarRegistered_keep s).
Qed.

(** On a page whose taskbar holds what the script put there, the click
    handler of an item always finds the record and the panel of its id. *)
Lemma run_taskbarRegistered es s : taskbarRegistered s -> taskbarRegistered (run es s).
Proof.
  revert s. induction es as [| e es IH]; intros s Hinv; [done |].
  rewrite run_cons. by apply IH, step_taskbarRegistered.
Qed.

(** *** The taskbar after a rebuild *)

Lemma taskbarItem_active s e item :
  taskbarItem s e = Some item ->
  ti_windowId item = e.1 /\ ti_active item = negb e.2.
Proof.
  destruct e as [k m]. simpl. destruct (windows s !! k); [| done].
  by intros [= <-].
Qed.

(** Whatever the rebuild is given, an item comes out active exactly when
    its registry record is not minimized. *)
Lemma updateTaskbar_active s items item :
  taskbar (updateTaskbar s) = Some items -> item ∈ items ->
  exists m, (ti_windowId item, m) ∈ openWindows s /\ ti_active item = negb m.
Proof.
  unfold updateTaskbar. destruct (taskbar s) eqn:E.
  - simpl. intros [= <-] Hin. apply list_elem_of_omap in Hin as ([k m] & Hk & Hitem).
    destruct (taskbarItem_active _ _ _ Hitem) as [-> ->]. eauto.
  - by rewrite E.
Qed.

(** So after [bringToFront], which ends in a rebuild, the marking of the
    items does not depend on the panel brought to the front. *)
Lemma bringToFront_taskbar_active id s items item :
  taskbar (bringToFront id s) = Some items -> item ∈ items ->
  exists m, (ti_windowId item, m) ∈ openWindows s /\ ti_active item = negb m.
Proof.
  unfold bringToFront, updateTaskbarActiveState. intros H Hin.
  by destruct (updateTaskbar_active _ _ _ H Hin) as (m & Hm & ->); eauto.
Qed.

(** C1, at the scenario of the claim: with [A], [B], [C] opened in that
    order and [B] brought to the front last, [B] alone has the [active]
    class among the panels and holds the highest stacking value, yet the
    three taskbar items all carry the active marking: the rebuild that ends
    [updateTaskbarActiveState] marks every item whose window is not
    minimized. *)
Theorem taskbar_marks_every_visible_window :
  let s := run [Open "A"; Open "B"; Open "C"; BringToFront "B"] page in
  (w_active <$> windows s !! "A", w_zIndex <$> windows s !! "A")
    = (Some false, Some (Some 101))
  /\ (w_active <$> windows s !! "B", w_zIndex <$> windows s !! "B")
    = (Some true, Some (Some 104))
  /\ (w_active <$> windows s !! "C", w_zIndex <$> windows s !! "C")
    = (Some false, Some (Some 103))
  /\ taskbar s = Some [mkTaskbarItem "A" true "aAbout";
                       mkTaskbarItem "B" true "bBlog";
                       mkTaskbarItem "C" true "cContact"].
Proof. vm_compute. done. Qed.

(** ** The claims on the example page *)



(** C3 fails as stated: on the example page nothing is open, and
    [minimizeWindow] puts a record for [A] into the registry. *)
Lemma minimize_unopened_creates_record :
  openWindows page = [] /\ isOpen page "A" = false
  /\ openWindows (minimizeWindow "A" page) = [("A", true)]
  /\ isOpen (minimizeWindow "A" page) "A" = true.
Proof. vm_compute. done. Qed.

Lemma minimizeWindow_unopened_witness :
  isOpen page "A" = false
  /\ openWindows (minimizeWindow "A" page) = openWindows page ++ [("A", true)].
Proof.
  assert (H : isOpen page "A" = false) by (vm_compute; reflexivity).
  split; [exact H |].
  pose proof (minimizeWindow_unopened "A" page H) as Hm.
  replace (windows page !! "A") with (Some (panel "About")) in Hm
    by (vm_compute; reflexivity).
  exact (proj1 Hm).
Defined.

(** C4 fails as stated: on the example page at 1281 by 769 the centring
    puts [A] at 340.5 by 135.5; after two calls of [toggleMaximize] it
    stands at 341 by 136, and has an inline size where it had none. *)
Lemma toggleMaximize_twice_moves_half_pixel :
  let s := pageHalfPixel in
  let s2 := toggleMaximize "A" (toggleMaximize "A" s) in
  isOpen s "A" = true /\ isMinimized s "A" = false
  /\ (w_display <$> windows s !! "A", w_maximized <$> windows s !! "A")
     = (Some "flex"%string, Some false)
  /\ (w_left <$> windows s !! "A", w_top <$> windows s !! "A")
     = (Some (css_px (681 # 2)), Some (css_px (271 # 2)))
  /\ (w_width <$> windows s !! "A", w_height <$> windows s !! "A")
     = (Some (css_str EmptyString), Some (css_str EmptyString))
  /\ (w_left <$> windows s2 !! "A", w_top <$> windows s2 !! "A")
     = (Some (css_px 341), Some (css_px 136))
  /\ (w_width <$> windows s2 !! "A", w_height <$> windows s2 !! "A")
     = (Some (css_px 600), Some (css_px 450))
  /\ w_maximized <$> windows s2 !! "A" = Some false.
Proof. vm_compute. done. Qed.

Lemma toggleMaximize_twice_witness :
  exists el,
    windows pageResized !! "A" = Some el /\ w_maximized el = false
    /\ (w_left el, w_top el, w_width el, w_height el)
       = (css_px 340, css_px 135, css_px 900, css_px 700)
    /\ windows (toggleMaximize "A" (toggleMaximize "A" pageResized)) !! "A" = Some el
    /\ windowPositions pageResized !! "A" = None
    /\ windowPositions (toggleMaximize "A" (toggleMaximize "A" pageResized)) !! "A"
       = Some (mkSavedGeometry 340 135 (css_px 900) (css_px 700)).
Proof.
  set (el := mkWindowEl "flex" (Some 101) (css_px 340) (css_px 135)
               (css_px 900) (css_px 700) true false
               (Some "About"%string) true true).
  assert (H : windows pageResized !! "A" = Some el) by (vm_compute; reflexivity).
  exists el. split; [exact H |]. split; [reflexivity |]. split; [reflexivity |].
  destruct (toggleMaximize_twice "A" pageResized el H eq_refl)
    as (el2 & H2 & _ & _ & _ & _ & _ & _ & _ & _ & Hs2 & Hsame & _).
  assert (Hl : w_left el = px (inject_Z (offsetLeft (boxOf pageResized "A" el))))
    by (vm_compute; reflexivity).
  assert (Ht : w_top el = px (inject_Z (offsetTop (boxOf pageResized "A" el))))
    by (vm_compute; reflexivity).
  rewrite <- (Hsame Hl Ht eq_refl eq_refl).
  split; [exact H2 |]. split; [vm_compute; reflexivity |].
  rewrite Hs2. unfold set_windows, set_windowPositions. cbn [windowPositions].
  rewrite lookup_insert_eq. vm_compute. reflexivity.
Defined.

Lemma pageLayout_hiddenUnmeasured (s : State) (id : string) :
  layout s = pageLayout -> hiddenUnmeasured s id.
Proof.
  intros Hl el Hd. unfold boxOf. rewrite Hl. unfold pageLayout. by rewrite Hd.
Qed.

Lemma pageLayout_widthIgnoresPosition (s : State) (id : string) :
  layout s = pageLayout -> widthIgnoresPosition s id.
Proof.
  intros Hl el l t. unfold boxOf. rewrite Hl. unfold pageLayout. simpl.
  destruct (negb _); [done |]. by destruct (w_maximized el).
Qed.

(** C8 fails as stated: on the example page [A], resized to 900 by 700 and
    closed, is opened again at 340 by 135, where the centring of a window
    of 600 by 450 puts it; the placement of the claim for a window of 900
    by 700 is 190 by 20.  Shown again, the panel measures 900 by 700. *)
Lemma reopened_window_placed_as_600_by_450 :
  let s := pageResizedClosed in
  let s' := openWindow "A" s in
  isOpen s "A" = false /\ windowPositions s !! "A" = None /\ isMobile s = false
  /\ openWindows s = []
  /\ (w_width <$> windows s !! "A", w_height <$> windows s !! "A")
     = (Some (css_px 900), Some (css_px 700))
  /\ (w_left <$> windows s' !! "A", w_top <$> windows s' !! "A")
     = (Some (css_px 340), Some (css_px 135))
  /\ (offsetWidth <$> (boxOf s' "A" <$> windows s' !! "A"),
      offsetHeight <$> (boxOf s' "A" <$> windows s' !! "A"))
     = (Some 900, Some 700)
  /\ px (Math_max 40 ((1280 - 900) / 2 + 30 * 0)) = css_px 190
  /\ px (Math_max 20 ((768 - 48 - 700) / 2 + 30 * 0)) = css_px 20.
Proof. vm_compute. done. Qed.

Lemma open_cascade_placement_witness :
  exists el,
    windows pageResizedClosed !! "A" = Some el
    /\ isOpen pageResizedClosed "A" = false
    /\ windowPositions pageResizedClosed !! "A" = None
    /\ isMobile pageResizedClosed = false
    /\ w_display el = "none"%string
    /\ hiddenUnmeasured pageResizedClosed "A"
    /\ exists el',
         windows (openWindow "A" pageResizedClosed) !! "A" = Some el'
         /\ w_left el' = css_px 340 /\ w_top el' = css_px 135
         /\ w_width el' = css_px 900 /\ w_height el' = css_px 700.
Proof.
  set (el := mkWindowEl "none" (Some 101) (css_px 340) (css_px 135)
               (css_px 900) (css_px 700) true false
               (Some "About"%string) true true).
  assert (H : windows pageResizedClosed !! "A" = Some el) by (vm_compute; reflexivity).
  assert (Ho : isOpen pageResizedClosed "A" = false) by (vm_compute; reflexivity).
  assert (Hs : windowPositions pageResizedClosed !! "A" = None) by (vm_compute; reflexivity).
  assert (Hm : isMobile pageResizedClosed = false) by (vm_compute; reflexivity).
  assert (Hu : hiddenUnmeasured pageResizedClosed "A")
    by (apply pageLayout_hiddenUnmeasured; reflexivity).
  exists el. repeat (split; [assumption || reflexivity |]).
  destruct (open_cascade_placement "A" pageResizedClosed el H Ho)
    as (el' & He & _ & _ & Hw & Hh & _ & _ & Hhidden);
    [discriminate | exact Hs | exact Hm |].
  destruct (Hhidden Hu eq_refl) as [Hl Ht].
  exists el'. rewrite Hl, Ht, Hw, Hh. split; [exact He |].
  repeat split; vm_compute; reflexivity.
Defined.



Lemma resize_floor_witness :
  exists el,
    windows pageResizing !! "A" = Some el
    /\ wr_isResizing (getResizeVars pageResizing "A") = true
    /\ exists el',
         windows (pointerMove (-5000) (-5000) pageResizing) !! "A" = Some el'
         /\ w_width el' = css_px 320 /\ w_height el' = css_px 200.
Proof.
  eexists. split; [vm_compute; reflexivity |].
  assert (Hr : wr_isResizing (getResizeVars pageResizing "A") = true)
    by (vm_compute; reflexivity).
  split; [exact Hr |].
  edestruct (resize_floor (-5000) (-5000) pageResizing "A")
    as (el' & w & h & H & Hw & Hh & _ & _ & Hfw & Hfh);
    [vm_compute; reflexivity | exact Hr |].
  exists el'. rewrite Hw, Hh, Hfw, Hfh by (vm_compute; reflexivity).
  repeat split; done.
Defined.

(** C6 fails as stated: on a viewport 1000px wide and 100px high a dragged
    icon ends at [top = 0], above which the bound [100 - 48 - 80] lies; on
    one 80px high a dragged panel ends at [top = 0], over [80 - 48 - 40]. *)
Lemma drag_leaves_bounds_on_short_viewport :
  let sf := run [ViewportResize 1000 100; FolderPointerDown 0 25 25;
                 PointerMove 500 500] page in
  let sw := run [ViewportResize 1000 80; Open "A";
                 WindowPointerDown "A" OnTitlebar 400 30; PointerMove 9000 9000] page in
  isMobile sf = false
  /\ (f_top <$> folders sf !! 0%nat) = Some (css_px 0)
  /\ ~ (0 <= inject_Z (innerHeight (viewport sf) - 48 - 80))%Q
  /\ isMobile sw = false
  /\ (w_top <$> windows sw !! "A") = Some (css_px 0)
  /\ ~ (0 <= inject_Z (innerHeight (viewport sw) - 48 - 40))%Q.
Proof. vm_compute. repeat split; try done; intros H; by apply H. Qed.

(** Where a resize of the same panel is under way as well, the resize
    listener runs after the drag listener in the same move and may narrow
    the panel: on the example page [A], 600 wide, is put at -500 and made
    320 wide by one move. *)
Lemma drag_bound_is_of_width_before_resize :
  let s := pageDragResize in
  let s' := pointerMove 0 300 s in
  wd_isDragging (getDragVars s "A") = true
  /\ wr_isResizing (getResizeVars s "A") = true
  /\ offsetWidth <$> (boxOf s "A" <$> windows s !! "A") = Some 600
  /\ (w_left <$> windows s' !! "A", w_width <$> windows s' !! "A")
     = (Some (css_px (-500)), Some (css_px 320))
  /\ offsetWidth <$> (boxOf s' "A" <$> windows s' !! "A") = Some 320.
Proof. vm_compute. done. Qed.

Lemma drag_clamped_witness :
  (exists el,
     windows pageDragging !! "A" = Some el
     /\ wd_isDragging (getDragVars pageDragging "A") = true
     /\ wr_isResizing (getResizeVars pageDragging "A") = false
     /\ widthIgnoresPosition pageDragging "A"
     /\ exists el' l t,
          windows (pointerMove 9000 9000 pageDragging) !! "A" = Some el'
          /\ w_left el' = css_px l /\ w_top el' = css_px t
          /\ (-500 <= l)%Q /\ (l <= 1230)%Q /\ (0 <= t)%Q /\ (t <= 680)%Q
          /\ w_width el' = w_width el
          /\ (inject_Z (- offsetWidth (boxOf (pointerMove 9000 9000 pageDragging) "A" el')
                        + 100) <= l)%Q)
  /\ (exists f,
        folders pageDragging !! 0%nat = Some f
        /\ fd_isDragging (getFolderVars pageDragging 0) = true
        /\ exists f' l t,
             folders (pointerMove 9000 9000 pageDragging) !! 0%nat = Some f'
             /\ f_left f' = css_px l /\ f_top f' = css_px t
             /\ (0 <= l)%Q /\ (l <= 1200)%Q /\ (0 <= t)%Q /\ (t <= 640)%Q).
Proof.
  destruct (drag_clamped 9000 9000 pageDragging) as [Hwin Hfol]. split.
  - eexists. split; [vm_compute; reflexivity |].
    assert (Hd : wd_isDragging (getDragVars pageDragging "A") = true)
      by (vm_compute; reflexivity).
    assert (Hr : wr_isResizing (getResizeVars pageDragging "A") = false)
      by (vm_compute; reflexivity).
    assert (Hp : widthIgnoresPosition pageDragging "A")
      by (apply pageLayout_widthIgnoresPosition; reflexivity).
    split; [exact Hd |]. split; [exact Hr |]. split; [exact Hp |].
    edestruct (Hwin "A")
      as (el' & l & t & H & Hl & Ht & Hlo & Ht0 & Hhx & Hhy & _ & _ & Hsize);
      [vm_compute; reflexivity | exact Hd |].
    destruct (Hsize Hr) as (Hw & _ & Hafter).
    exists el', l, t. repeat split; try assumption.
    + apply Hhx. vm_compute. discriminate.
    + apply Hhy. vm_compute. discriminate.
    + by apply Hafter.
  - eexists. split; [vm_compute; reflexivity |].
    assert (Hd : fd_isDragging (getFolderVars pageDragging 0) = true)
      by (vm_compute; reflexivity).
    split; [exact Hd |].
    edestruct (Hfol 0%nat) as (f' & l & t & H & Hl & Ht & Hlo & Ht0 & Hhx & Hhy & _);
      [vm_compute; reflexivity | exact Hd |].
    exists f', l, t. repeat split; try assumption.
    + apply Hhx. vm_compute. discriminate.
    + apply Hhy. vm_compute. discriminate.
Defined.

Lemma page_maximizedSaved : maximizedSaved page.
Proof.
  intros id el H Hm. unfold page in H. simpl in H.
  rewrite !lookup_insert in H.
  repeat case_decide; simplify_eq; try done.
Qed.

Lemma maximized_has_saved_geometry_witness :
  maximizedSaved page
  /\ maximizedSaved (run [Open "A"; ToggleMaximize "A"] page)
  /\ exists g el',
       windowPositions (run [Open "A"; ToggleMaximize "A"] page) !! "A" = Some g
       /\ windows (toggleMaximize "A" (run [Open "A"; ToggleMaximize "A"] page)) !! "A"
          = Some el'
       /\ w_maximized el' = false.
Proof.
  split; [exact page_maximizedSaved |].
  destruct (maximized_has_saved_geometry page [Open "A"; ToggleMaximize "A"]
              page_maximizedSaved) as (_ & Hrun & Hrestore).
  split; [exact Hrun |].
  edestruct (Hrestore "A") as (g & el' & Hg & He & Hm & _);
    [vm_compute; reflexivity | reflexivity |].
  exists g, el'. repeat split; assumption.
Defined.

Lemma bringToFront_monotone_unique_active_witness :
  Forall (fun id => is_Some (windows page !! id)) ["A"; "B"; "A"]
  /\ let s1 := bringToFront "A" (run [BringToFront "A"; BringToFront "B"] page) in
     highestZ s1 = 103
     /\ exists el,
          windows s1 !! "A" = Some el
          /\ w_zIndex el = Some 103 /\ w_active el = true
          /\ forall id' el', id' <> "A" -> windows s1 !! id' = Some el' ->
               w_active el' = false.
Proof.
  assert (Hall : Forall (fun id => is_Some (windows page !! id)) ["A"; "B"; "A"]).
  { repeat constructor; eexists; vm_compute; reflexivity. }
  split; [exact Hall |].
  destruct (bringToFront_monotone_unique_active page ["A"; "B"; "A"] Hall) as [Hseq _].
  destruct (Hseq ["A"; "B"] "A" [] eq_refl) as (_ & Hz & el & He & Hzi & Ha & Hothers).
  split; [exact Hz |].
  exists el. rewrite Hz in Hzi. repeat split; assumption.
Defined.

(** * Further properties of the script *)

(** ** Opening, minimizing, closing *)

Lemma reg_set_same id v m : reg_get id m = Some v -> reg_set id v m = m.
Proof.
  induction m as [| [k x] r IH]; simpl; [done |].
  destruct (String.eqb k id); [by intros [= ->] | intros H; by rewrite IH].
Qed.

Lemma reg_set_set id v w m : reg_set id w (reg_set id v m) = reg_set id w m.
Proof.
  induction m as [| [k x] r IH]; simpl.
  - by rewrite String.eqb_refl.
  - destruct (String.eqb k id) eqn:E; simpl; rewrite E; [done | by rewrite IH].
Qed.

Lemma reg_delete_elem id k m l : (k, m) ∈ reg_delete id l -> k <> id /\ (k, m) ∈ l.
Proof.
  induction l as [| [k' m'] r IH]; simpl; [by intros ?%elem_of_nil |].
  destruct (String.eqb_spec k' id) as [-> | Hne].
  - intros H. destruct (IH H). split; [done | by right].
  - intros [[= -> ->] | H]%elem_of_cons; [split; [done | by left] |].
    destruct (IH H). split; [done | by right].
Qed.

(** The panel that [openWindow] leaves in place of [el1]: shown, focused,
    with the next stacking value. *)
Lemma openWindow_minimized id s el :
  windows s !! id = Some el ->
  reg_get id (openWindows s) = Some true ->
  windows (openWindow id s) !! id =
    Some (el_active true (el_zIndex (highestZ s + 1)
            (el_active false (el_display "flex" el))))
  /\ openWindows (openWindow id s) = reg_set id false (openWindows s)
  /\ highestZ (openWindow id s) = highestZ s + 1.
Proof.
  intros H Hreg. unfold openWindow. rewrite H, Hreg. frame.
  by rewrite lookup_alter_eq, lookup_fmap, lookup_insert_eq.
Qed.

Lemma openWindow_shown id s el :
  windows s !! id = Some el ->
  reg_get id (openWindows s) <> Some true ->
  w_display el = "flex"%string ->
  openWindow id s = bringToFront id s.
Proof.
  intros H Hreg Hd. unfold openWindow. rewrite H, Hd. simpl.
  by destruct (reg_get id (openWindows s)) as [[|]|].
Qed.

Lemma openWindow_lookup_ne id k s el :
  windows s !! id = Some el -> k <> id ->
  windows (openWindow id s) !! k = el_active false <$> windows s !! k.
Proof.
  intros H Hne. unfold openWindow. rewrite H.
  destruct (reg_get id (openWindows s)) as [[|]|].
  2,3: destruct (String.eqb (w_display el) "flex").
  all: frame; rewrite lookup_alter_ne, lookup_fmap by done;
    by rewrite ?lookup_insert_ne.
Qed.

(** X1: on a page where every shown panel is registered as visible,
    [openWindow] on an existing panel always ends with the window open, not
    minimized, shown, carrying the [active] class alone and the new highest
    stacking value, whatever its state before (closed, minimized or already
    open); size and [maximized] class are untouched. *)
Theorem open_ends_visible_and_focused (id : string) (s : State) (el : WindowEl) :
  windows s !! id = Some el ->
  shownRegistered s ->
  let s' := openWindow id s in
  isOpen s' id = true /\ isMinimized s' id = false
  /\ highestZ s' = highestZ s + 1
  /\ exists el',
       windows s' !! id = Some el'
       /\ w_display el' = "flex"%string /\ w_active el' = true
       /\ w_zIndex el' = Some (highestZ s')
       /\ w_width el' = w_width el /\ w_height el' = w_height el
       /\ w_maximized el' = w_maximized el
       /\ forall k e, k <> id -> windows s' !! k = Some e -> w_active e = false.
Proof.
  intros H Hinv s'.
  assert (Hothers : forall k e, k <> id -> windows s' !! k = Some e -> w_active e = false).
  { intros k e Hne He. subst s'. rewrite (openWindow_lookup_ne _ _ _ _ H Hne) in He.
    destruct (windows s !! k); [| done]. simpl in He. by injection He as <-. }
  unfold isOpen, isMinimized.
  destruct (reg_get id (openWindows s)) as [[|]|] eqn:Hreg.
  - destruct (openWindow_minimized id s el H Hreg) as (Hw & Hr & Hz).
    subst s'. rewrite Hr, reg_get_set_eq, Hz. repeat split; try done.
    eexists. split; [exact Hw |]. done.
  - destruct (String.eqb_spec (w_display el) "flex") as [Hd | Hd].
    + assert (Heq : openWindow id s = bringToFront id s)
        by (apply (openWindow_shown id s el); [done | congruence | done]).
      subst s'. rewrite Heq in *.
      frame. rewrite Hreg. repeat split; try done.
      eexists. rewrite lookup_alter_eq, lookup_fmap, H. simpl. split; [done |].
      repeat split; try done. intros k e Hne He. apply (Hothers k e Hne).
      by frame.
    + destruct (openWindow_hidden id s el H) as (Hw & Hr & Hz); [congruence | done |].
      subst s'. rewrite Hr, reg_get_set_eq, Hz. repeat split; try done.
      eexists. split; [exact Hw |]. simpl.
      destruct (positionWindow_size id el s) as (-> & -> & _).
      by rewrite positionWindow_maximized.
  - destruct (String.eqb_spec (w_display el) "flex") as [Hd | Hd].
    + by rewrite (Hinv id el H Hd) in Hreg.
    + destruct (openWindow_hidden id s el H) as (Hw & Hr & Hz); [congruence | done |].
      subst s'. rewrite Hr, reg_get_set_eq, Hz. repeat split; try done.
      eexists. split; [exact Hw |]. simpl.
      destruct (positionWindow_size id el s) as (-> & -> & _).
      by rewrite positionWindow_maximized.
Qed.

(** X2: minimizing an open, visible window and opening it again brings it
    back as it was: shown, with the inline position and size and the
    [maximized] class it had, its registry record in the same place (so the
    taskbar order is kept), saved geometry untouched; it comes back focused,
    one stacking value up. *)
Theorem minimize_then_open_restores (id : string) (s : State) (el : WindowEl) :
  windows s !! id = Some el ->
  reg_get id (openWindows s) = Some false ->
  let s1 := minimizeWindow id s in
  let s2 := openWindow id s1 in
  isMinimized s1 id = true
  /\ (exists el1, windows s1 !! id = Some el1 /\ w_display el1 = "none"%string)
  /\ openWindows s2 = openWindows s
  /\ windowPositions s2 = windowPositions s
  /\ highestZ s2 = highestZ s + 1
  /\ exists el2,
       windows s2 !! id = Some el2
       /\ w_display el2 = "flex"%string
       /\ w_left el2 = w_left el /\ w_top el2 = w_top el
       /\ w_width el2 = w_width el /\ w_height el2 = w_height el
       /\ w_maximized el2 = w_maximized el
       /\ w_active el2 = true.
Proof.
  intros H Hreg s1 s2.
  destruct (minimizeWindow_lookup id s el H) as [Hw1 Hr1].
  assert (Hm1 : reg_get id (openWindows s1) = Some true).
  { subst s1. by rewrite Hr1, reg_get_set_eq. }
  destruct (openWindow_minimized id s1 _ Hw1 Hm1) as (Hw2 & Hr2 & Hz2).
  split; [unfold isMinimized; by rewrite Hm1 |].
  split; [eexists; split; [exact Hw1 | done] |].
  split.
  { subst s2 s1. rewrite Hr2, Hr1, reg_set_set. by apply reg_set_same. }
  split.
  { subst s2 s1. by rewrite openWindow_windowPositions, minimizeWindow_windowPositions. }
  split.
  { subst s2 s1. by rewrite Hz2, minimizeWindow_highestZ. }
  eexists. split; [exact Hw2 |]. done.
Qed.

(** X3: [closeWindow] on an existing panel hides it, clears its
    [maximized] class and removes its registry record and its taskbar item;
    its inline position and size, the saved geometry, the counter and the
    records of the other windows stay as they are. *)
Theorem close_removes_window (id : string) (s : State) (el : WindowEl) :
  windows s !! id = Some el ->
  let s' := closeWindow id s in
  isOpen s' id = false
  /\ windows s' !! id = Some (el_maximized false (el_display "none" el))
  /\ windowPositions s' = windowPositions s
  /\ highestZ s' = highestZ s
  /\ (forall k, k <> id ->
        reg_get k (openWindows s') = reg_get k (openWindows s)
        /\ windows s' !! k = windows s !! k)
  /\ (forall items item, taskbar s' = Some items -> item ∈ items ->
        ti_windowId item <> id).
Proof.
  intros H s'. subst s'.
  rewrite (closeWindow_lookup _ _ _ H), closeWindow_windowPositions, closeWindow_highestZ.
  unfold isOpen. rewrite (closeWindow_openWindows _ _ _ H), reg_get_delete_eq.
  repeat split; try done.
  - by apply reg_get_delete_ne.
  - unfold closeWindow. rewrite H. frame. by rewrite lookup_insert_ne.
  - intros items item Ht Hin. unfold closeWindow in Ht. rewrite H in Ht.
    destruct (updateTaskbar_active _ _ _ Ht Hin) as (m & Hm & _).
    simpl in Hm. by apply reg_delete_elem in Hm as [? _].
Qed.

(** ** The registry and the panels agree *)

Lemma registeredPanel_same s s' :
  windows s' = windows s -> openWindows s' = openWindows s ->
  registeredPanel s -> registeredPanel s'.
Proof. intros Hw Ho Hinv id m. rewrite Hw, Ho. apply Hinv. Qed.

(** A change of the panels that keeps each one and how it is displayed. *)
Lemma registeredPanel_windows s s' :
  openWindows s' = openWindows s ->
  (forall k el, windows s !! k = Some el ->
     exists el', windows s' !! k = Some el' /\ w_display el' = w_display el) ->
  registeredPanel s -> registeredPanel s'.
Proof.
  intros Ho Hw Hinv id m. rewrite Ho. intros Hm.
  destruct (Hinv id m Hm) as (el & Hel & Hd).
  destruct (Hw id el Hel) as (el' & Hel' & Hd'). exists el'. by rewrite Hd'.
Qed.

Lemma bringToFront_keeps_display id s k el :
  windows s !! k = Some el ->
  exists el', windows (bringToFront id s) !! k = Some el' /\ w_display el' = w_display el.
Proof.
  intros H. destruct (decide (k = id)) as [-> | Hne].
  - rewrite (bringToFront_lookup_eq _ _ _ H). eauto.
  - rewrite (bringToFront_lookup_ne _ _ _ Hne), H. simpl. eauto.
Qed.

Lemma updateTaskbar_registeredPanel s :
  registeredPanel s -> registeredPanel (updateTaskbar s).
Proof. destruct (updateTaskbar_frame s) as [t ->]. by apply registeredPanel_same. Qed.

Lemma bringToFront_registeredPanel id s :
  registeredPanel s -> registeredPanel (bringToFront id s).
Proof.
  intros Hinv. apply (registeredPanel_windows s); [by frame | | done].
  intros k el. apply bringToFront_keeps_display.
Qed.

(** One panel shown or hidden together with its record. *)
Lemma registeredPanel_set s id el1 (m : bool) :
  w_display el1 = (if m then "none" else "flex")%string ->
  registeredPanel s ->
  registeredPanel (set_openWindows (reg_set id m (openWindows s))
                     (set_windows (<[id := el1]> (windows s)) s)).
Proof.
  intros Hd Hinv k mk. simpl. destruct (decide (k = id)) as [-> | Hne].
  - rewrite reg_get_set_eq, lookup_insert_eq. intros [= <-]. eauto.
  - rewrite reg_get_set_ne, lookup_insert_ne by done. apply Hinv.
Qed.

Lemma openWindow_registeredPanel id s :
  registeredPanel s -> registeredPanel (openWindow id s).
Proof.
  intros Hinv. unfold openWindow. destruct (windows s !! id) as [el |] eqn:H; [| done].
  destruct (reg_get id (openWindows s)) as [[|]|].
  2,3: destruct (String.eqb (w_display el) "flex"); [by apply bringToFront_registeredPanel |].
  all: by apply updateTaskbar_registeredPanel, bringToFront_registeredPanel,
         (registeredPanel_set s).
Qed.

Lemma closeWindow_registeredPanel id s :
  registeredPanel s -> registeredPanel (closeWindow id s).
Proof.
  intros Hinv. unfold closeWindow. destruct (windows s !! id) as [el |] eqn:H; [| done].
  apply updateTaskbar_registeredPanel. intros k m. simpl.
  destruct (decide (k = id)) as [-> | Hne].
  - by rewrite reg_get_delete_eq.
  - rewrite reg_get_delete_ne, lookup_insert_ne by done. apply Hinv.
Qed.

Lemma minimizeWindow_registeredPanel id s :
  registeredPanel s -> registeredPanel (minimizeWindow id s).
Proof.
  intros Hinv. unfold minimizeWindow. destruct (windows s !! id) as [el |] eqn:H; [| done].
  apply updateTaskbar_registeredPanel. simpl.
  replace (match reg_get id (openWindows s) with
           | Some _ => reg_set id true (openWindows s)
           | None => openWindows s ++ [(id, true)]
           end) with (reg_set id true (openWindows s)).
  - by apply (registeredPanel_set s).
  - destruct (reg_get id (openWindows s)) eqn:E; [done | by apply reg_set_absent].
Qed.

Lemma toggleMaximize_registeredPanel id s :
  registeredPanel s -> registeredPanel (toggleMaximize id s).
Proof.
  intros Hinv. unfold toggleMaximize. destruct (windows s !! id) as [el |] eqn:H; [| done].
  destruct (w_maximized el); (apply (registeredPanel_windows s); [| | exact Hinv]); try done.
  all: simpl; intros k e He; destruct (decide (k = id)) as [-> | Hne];
    [rewrite lookup_insert_eq; rewrite H in He; injection He as <-; eexists; split; [done |]
    | rewrite lookup_insert_ne by done; eauto].
  - by destruct (windowPositions s !! id).
  - done.
Qed.

Lemma panelPointerDown_registeredPanel id s :
  registeredPanel s -> registeredPanel (panelPointerDown id s).
Proof.
  intros Hinv. unfold panelPointerDown. destruct (windows s !! id); [| done].
  destruct (w_hasTitlebar w); [by apply bringToFront_registeredPanel | done].
Qed.

Lemma titlebarPointerDown_registeredPanel id b x y s :
  registeredPanel s -> registeredPanel (titlebarPointerDown id b x y s).
Proof.
  intros Hinv. unfold titlebarPointerDown. destruct (windows s !! id); [| done].
  destruct (negb _), (isMobile s), b, (w_maximized w); try done.
  apply bringToFront_registeredPanel. by apply (registeredPanel_same s).
Qed.

Lemma folderDblClick_registeredPanel i s :
  registeredPanel s -> registeredPanel (folderDblClick i s).
Proof.
  intros Hinv. unfold folderDblClick.
  destruct (folders s !! i ≫= f_folderId) as [[|]|]; try done.
  by apply openWindow_registeredPanel.
Qed.

Lemma step_registeredPanel s e : registeredPanel s -> registeredPanel (step s e).
Proof.
  intros Hinv. destruct e; simpl.
  - by apply openWindow_registeredPanel.
  - by apply closeWindow_registeredPanel.
  - by apply minimizeWindow_registeredPanel.
  - by apply toggleMaximize_registeredPanel.
  - destruct (windows s !! id); [by apply bringToFront_registeredPanel | done].
  - destruct t; simpl.
    + by apply panelPointerDown_registeredPanel.
    + by apply panelPointerDown_registeredPanel, titlebarPointerDown_registeredPanel.
    + by apply panelPointerDown_registeredPanel, titlebarPointerDown_registeredPanel.
    + unfold handlePointerDown. destruct (windows s !! id);
        [| by apply panelPointerDown_registeredPanel].
      destruct (negb _); [by apply panelPointerDown_registeredPanel |].
      destruct (isMobile s); [by apply panelPointerDown_registeredPanel |].
      by apply (registeredPanel_same s).
  - unfold windowButton.
    repeat match goal with |- context [if ?b then _ else _] => destruct b end.
    + by apply closeWindow_registeredPanel.
    + by apply minimizeWindow_registeredPanel.
    + by apply toggleMaximize_registeredPanel.
    + done.
  - unfold taskbarClick. destruct (taskbar s ≫= _); [| done].
    destruct (reg_get _ _) as [[|]|]; [by apply openWindow_registeredPanel | | done].
    destruct (windows s !! _); [| done].
    destruct (w_active w);
      [by apply minimizeWindow_registeredPanel | by apply bringToFront_registeredPanel].
  - unfold folderPointerDown. destruct (folders s !! i); [| done].
    destruct (isMobile s); [by apply (registeredPanel_same s) |].
    destruct (folderLayout s i (viewport s) f). by apply (registeredPanel_same s).
  - by apply folderDblClick_registeredPanel.
  - unfold folderClick. destruct (isMobile s || _); [| done].
    destruct (isMobile s); [by apply folderDblClick_registeredPanel | done].
  - by apply (registeredPanel_same s).
  - apply (registeredPanel_windows s); [done | | done].
    intros k el Hk. eexists. split; [by apply pointerMove_lookup |].
    by rewrite resizeMoveEl_display, dragMoveEl_display.
  - by apply (registeredPanel_same s).
  - unfold viewportResize, arrangeFoldersForMobile.
    destruct (negb _); by apply (registeredPanel_same s).
Qed.

Lemma run_registeredPanel es s : registeredPanel s -> registeredPanel (run es s).
Proof.
  revert s. induction es as [| e es IH]; intros s Hinv; [done |].
  rewrite run_cons. by apply IH, step_registeredPanel.
Qed.

(** X4: the registry and the page never disagree.  From a state in which
    every shown panel is registered as visible and every record has its
    panel, shown or hidden as the record says (such as a page on which
    nothing is open yet), after any sequence of events a panel is shown
    exactly when it is open and not minimized, a minimized window's panel is
    hidden, and every registry record still has its panel. *)
Theorem registry_mirrors_display (s : State) (es : list Event) :
  shownRegistered s -> registeredPanel s ->
  let s' := run es s in
  (forall id el, windows s' !! id = Some el ->
     (w_display el = "flex"%string <-> isOpen s' id = true /\ isMinimized s' id = false)
     /\ (isMinimized s' id = true -> w_display el = "none"%string))
  /\ (forall id, isOpen s' id = true -> is_Some (windows s' !! id)).
Proof.
  intros Hs Hr s'.
  assert (Hs' : shownRegistered s') by by apply run_shownRegistered.
  assert (Hr' : registeredPanel s') by by apply run_registeredPanel.
  unfold isOpen, isMinimized. split.
  - intros id el H. split; [split |].
    + intros Hd. by rewrite (Hs' id el H Hd).
    + destruct (reg_get id (openWindows s')) as [[|]|] eqn:E; intros [? ?]; try done.
      destruct (Hr' id false E) as (el' & He' & Hd'). congruence.
    + destruct (reg_get id (openWindows s')) as [[|]|] eqn:E; try done. intros _.
      destruct (Hr' id true E) as (el' & He' & Hd'). congruence.
  - intros id. destruct (reg_get id (openWindows s')) as [m |] eqn:E; [| done].
    intros _. destruct (Hr' id m E) as (el' & He' & _). eauto.
Qed.

(** ** The taskbar follows the registry *)

Lemma find_labels (P : option string -> bool) (l l' : list FolderEl) :
  folderLabel <$> l' = folderLabel <$> l ->
  List.find (fun f => P (f_folderId f)) l' ≫= f_icon
  = List.find (fun f => P (f_folderId f)) l ≫= f_icon.
Proof.
  revert l'. induction l as [| f r IH]; intros [| f' r']; simpl; try done.
  intros [= Hid Hicon Hr]. rewrite Hid.
  destruct (P (f_folderId f)); simpl; [done | by apply IH].
Qed.

Lemma taskbarItem_labels s s' e : sameLabels s s' -> taskbarItem s' e = taskbarItem s e.
Proof.
  intros [Hw Hf]. destruct e as [k m]. simpl. specialize (Hw k).
  assert (Hicon : findFolder s' k ≫= f_icon = findFolder s k ≫= f_icon).
  { unfold findFolder.
    apply (find_labels (fun o => match o with Some j => String.eqb j k | None => false end)).
    exact Hf. }
  destruct (windows s' !! k) as [el' |], (windows s !! k) as [el |]; try done.
  simpl in Hw. injection Hw as Ht. by rewrite Ht, Hicon.
Qed.

Lemma sameLabels_refl s : sameLabels s s.
Proof. done. Qed.

Lemma taskbarSynced_keep s s' :
  taskbar s' = taskbar s -> openWindows s' = openWindows s -> sameLabels s s' ->
  taskbarSynced s -> taskbarSynced s'.
Proof.
  intros Ht Ho Hl Hinv items. rewrite Ht, Ho. intros Hi.
  rewrite (Hinv items Hi). apply list_omap_ext, Forall_Forall2_diag, Forall_forall.
  intros e _. symmetry. by apply taskbarItem_labels.
Qed.

Lemma updateTaskbar_taskbarSynced s : taskbarSynced (updateTaskbar s).
Proof.
  intros items. unfold updateTaskbar. destruct (taskbar s) eqn:E.
  - simpl. by intros [= <-].
  - by rewrite E.
Qed.

Lemma bringToFront_taskbarSynced id s : taskbarSynced (bringToFront id s).
Proof. unfold bringToFront, updateTaskbarActiveState. apply updateTaskbar_taskbarSynced. Qed.

Lemma labels_imap (g : nat -> FolderEl -> FolderEl) (l : list FolderEl) :
  (forall i f, folderLabel (g i f) = folderLabel f) ->
  folderLabel <$> imap g l = folderLabel <$> l.
Proof.
  intros Hg. apply list_eq. intros i.
  rewrite !list_lookup_fmap, list_lookup_imap.
  destruct (l !! i); simpl; [by rewrite Hg | done].
Qed.

Lemma labels_fmap (g : FolderEl -> FolderEl) (l : list FolderEl) :
  (forall f, folderLabel (g f) = folderLabel f) ->
  folderLabel <$> (g <$> l) = folderLabel <$> l.
Proof.
  intros Hg. rewrite <- list_fmap_compose. apply list_fmap_ext. intros i f _. apply Hg.
Qed.

Lemma labels_insert (l : list FolderEl) i f f' :
  l !! i = Some f -> folderLabel f' = folderLabel f ->
  folderLabel <$> <[i := f']> l = folderLabel <$> l.
Proof.
  intros H Hl. rewrite list_fmap_insert, Hl. apply list_insert_id.
  by rewrite list_lookup_fmap, H.
Qed.

Lemma folderMoveEl_label s x y i f : folderLabel (folderMoveEl s x y i f) = folderLabel f.
Proof. unfold folderMoveEl. by destruct (fd_isDragging _). Qed.

Lemma dragMoveEl_title s x y id el : w_title (dragMoveEl s x y id el) = w_title el.
Proof. unfold dragMoveEl. by destruct (wd_isDragging _). Qed.

Lemma resizeMoveEl_title s x y id el : w_title (resizeMoveEl s x y id el) = w_title el.
Proof. unfold resizeMoveEl. by destruct (wr_isResizing _). Qed.

Lemma toggleMaximize_taskbarSynced id s :
  taskbarSynced s -> taskbarSynced (toggleMaximize id s).
Proof.
  intros Hinv. unfold toggleMaximize. destruct (windows s !! id) as [el |] eqn:H; [| done].
  destruct (w_maximized el); (apply (taskbarSynced_keep s); [done | done | | done]).
  all: split; [| done]; simpl; intros k; destruct (decide (k = id)) as [-> | Hne];
    rewrite ?lookup_insert_eq, ?lookup_insert_ne, ?H by done; try done.
  by destruct (windowPositions s !! id).
Qed.

Lemma openWindow_taskbarSynced id s : taskbarSynced s -> taskbarSynced (openWindow id s).
Proof.
  intros Hinv. unfold openWindow. destruct (windows s !! id) as [el |]; [| done].
  destruct (reg_get id (openWindows s)) as [[|]|];
    [apply updateTaskbar_taskbarSynced | |].
  all: destruct (String.eqb (w_display el) "flex");
    [apply bringToFront_taskbarSynced | apply updateTaskbar_taskbarSynced].
Qed.

Lemma closeWindow_taskbarSynced id s : taskbarSynced s -> taskbarSynced (closeWindow id s).
Proof.
  intros Hinv. unfold closeWindow. destruct (windows s !! id); [| done].
  apply updateTaskbar_taskbarSynced.
Qed.

Lemma minimizeWindow_taskbarSynced id s :
  taskbarSynced s -> taskbarSynced (minimizeWindow id s).
Proof.
  intros Hinv. unfold minimizeWindow. destruct (windows s !! id); [| done].
  apply updateTaskbar_taskbarSynced.
Qed.

Lemma panelPointerDown_taskbarSynced id s :
  taskbarSynced s -> taskbarSynced (panelPointerDown id s).
Proof.
  intros Hinv. unfold panelPointerDown. destruct (windows s !! id); [| done].
  destruct (w_hasTitlebar w); [apply bringToFront_taskbarSynced | done].
Qed.

Lemma titlebarPointerDown_taskbarSynced id b x y s :
  taskbarSynced s -> taskbarSynced (titlebarPointerDown id b x y s).
Proof.
  intros Hinv. unfold titlebarPointerDown. destruct (windows s !! id); [| done].
  destruct (negb _), (isMobile s), b, (w_maximized w); try done.
  apply bringToFront_taskbarSynced.
Qed.

Lemma folderDblClick_taskbarSynced i s :
  taskbarSynced s -> taskbarSynced (folderDblClick i s).
Proof.
  intros Hinv. unfold folderDblClick.
  destruct (folders s !! i ≫= f_folderId) as [[|]|]; try done.
  by apply openWindow_taskbarSynced.
Qed.

Lemma step_taskbarSynced s e : taskbarSynced s -> taskbarSynced (step s e).
Proof.
  intros Hinv. destruct e; simpl.
  - by apply openWindow_taskbarSynced.
  - by apply closeWindow_taskbarSynced.
  - by apply minimizeWindow_taskbarSynced.
  - by apply toggleMaximize_taskbarSynced.
  - destruct (windows s !! id); [apply bringToFront_taskbarSynced | done].
  - destruct t; simpl.
    + by apply panelPointerDown_taskbarSynced.
    + by apply panelPointerDown_taskbarSynced, titlebarPointerDown_taskbarSynced.
    + by apply panelPointerDown_taskbarSynced, titlebarPointerDown_taskbarSynced.
    + unfold handlePointerDown. destruct (windows s !! id);
        [| by apply panelPointerDown_taskbarSynced].
      destruct (negb _); [by apply panelPointerDown_taskbarSynced |].
      destruct (isMobile s); [by apply panelPointerDown_taskbarSynced |].
      by apply (taskbarSynced_keep s).
  - unfold windowButton.
    repeat match goal with |- context [if ?b then _ else _] => destruct b end.
    + by apply closeWindow_taskbarSynced.
    + by apply minimizeWindow_taskbarSynced.
    + by apply toggleMaximize_taskbarSynced.
    + done.
  - unfold taskbarClick. destruct (taskbar s ≫= _); [| done].
    destruct (reg_get _ _) as [[|]|]; [by apply openWindow_taskbarSynced | | done].
    destruct (windows s !! _); [| done].
    destruct (w_active w);
      [by apply minimizeWindow_taskbarSynced | apply bringToFront_taskbarSynced].
  - unfold folderPointerDown. destruct (folders s !! i) as [f |] eqn:Hf; [| done].
    destruct (isMobile s).
    + apply (taskbarSynced_keep s); try done. split; [done |].
      simpl. by apply labels_imap.
    + destruct (folderLayout s i (viewport s) f).
      apply (taskbarSynced_keep s); try done. split; [done |].
      simpl. rewrite labels_imap by done. by apply (labels_insert _ _ f).
  - by apply folderDblClick_taskbarSynced.
  - unfold folderClick. destruct (isMobile s || _); [| done].
    destruct (isMobile s); [by apply folderDblClick_taskbarSynced | done].
  - apply (taskbarSynced_keep s); try done. split; [done |].
    simpl. by apply labels_fmap.
  - apply (taskbarSynced_keep s); try done. split; simpl.
    + intros k. rewrite map_lookup_imap. destruct (windows s !! k); [| done].
      simpl. by rewrite resizeMoveEl_title, dragMoveEl_title.
    + apply labels_imap. intros i f. apply folderMoveEl_label.
  - by apply (taskbarSynced_keep s).
  - unfold viewportResize, arrangeFoldersForMobile.
    destruct (negb _); apply (taskbarSynced_keep s); try done.
    split; [done |]. simpl. by apply labels_imap.
Qed.

Lemma run_taskbarSynced es s : taskbarSynced s -> taskbarSynced (run es s).
Proof.
  revert s. induction es as [| e es IH]; intros s Hinv; [done |].
  rewrite run_cons. by apply IH, step_taskbarSynced.
Qed.

(** The items a rebuild makes of records that all have their panel: one per
    record, in order, active when the record is not minimized. *)
Lemma omap_taskbarItem_records s (l : list (string * bool)) :
  (forall k m, (k, m) ∈ l -> is_Some (windows s !! k)) ->
  (fun item => (ti_windowId item, negb (ti_active item))) <$> omap (taskbarItem s) l = l.
Proof.
  induction l as [| [k m] r IH]; intros Hall; [done |].
  destruct (Hall k m) as [el Hel]; [by left |].
  simpl. rewrite Hel. simpl. rewrite negb_involutive. f_equal.
  apply IH. intros k' m' Hin. apply (Hall k' m'). by right.
Qed.

Lemma reg_get_first k m (l : list (string * bool)) :
  (k, m) ∈ l -> exists m', reg_get k l = Some m'.
Proof. intros H. by apply reg_get_elem in H as [m' ?]; eauto. Qed.

(** X5: the taskbar follows the registry.  From a state whose taskbar holds
    what a rebuild would give and whose records all have their panel (such
    as a page on which nothing is open yet), after any sequence of events
    the taskbar, when the page has the container, has exactly one item per
    registry record, in the order of the registry (the order of opening), and
    an item is marked active exactly when its record is not minimized. *)
Theorem taskbar_follows_registry (s : State) (es : list Event) :
  taskbarSynced s -> registeredPanel s ->
  forall items, taskbar (run es s) = Some items ->
    (fun item => (ti_windowId item, negb (ti_active item))) <$> items
    = openWindows (run es s).
Proof.
  intros Hs Hr items Ht.
  rewrite (run_taskbarSynced es s Hs items Ht).
  apply omap_taskbarItem_records. intros k m Hin.
  destruct (reg_get_first _ _ _ Hin) as [m' Hm'].
  destruct (run_registeredPanel es s Hr k m' Hm') as (el & Hel & _). eauto.
Qed.

(** ** Saved geometry *)

Lemma bringToFront_windowPositions id s :
  windowPositions (bringToFront id s) = windowPositions s.
Proof. by frame. Qed.

Lemma panelPointerDown_windowPositions id s :
  windowPositions (panelPointerDown id s) = windowPositions s.
Proof.
  unfold panelPointerDown. destruct (windows s !! id); [| done].
  destruct (w_hasTitlebar w); [apply bringToFront_windowPositions | done].
Qed.

Lemma titlebarPointerDown_windowPositions id b x y s :
  windowPositions (titlebarPointerDown id b x y s) = windowPositions s.
Proof.
  unfold titlebarPointerDown. destruct (windows s !! id); [| done].
  destruct (negb _), (isMobile s), b, (w_maximized w); try done.
  by rewrite bringToFront_windowPositions.
Qed.

Lemma folderDblClick_windowPositions i s :
  windowPositions (folderDblClick i s) = windowPositions s.
Proof.
  unfold folderDblClick. destruct (folders s !! i ≫= f_folderId) as [[|]|]; try done.
  apply openWindow_windowPositions.
Qed.

Lemma step_windowPositions s e :
  writesGeometry e = false -> windowPositions (step s e) = windowPositions s.
Proof.
  destruct e; simpl; try done; intros Hw.
  - apply openWindow_windowPositions.
  - apply closeWindow_windowPositions.
  - apply minimizeWindow_windowPositions.
  - destruct (windows s !! id); [apply bringToFront_windowPositions | done].
  - destruct t; simpl.
    + apply panelPointerDown_windowPositions.
    + by rewrite panelPointerDown_windowPositions, titlebarPointerDown_windowPositions.
    + by rewrite panelPointerDown_windowPositions, titlebarPointerDown_windowPositions.
    + unfold handlePointerDown. destruct (windows s !! id);
        [| apply panelPointerDown_windowPositions].
      destruct (negb _); [apply panelPointerDown_windowPositions |].
      destruct (isMobile s); [apply panelPointerDown_windowPositions | done].
  - unfold windowButton. rewrite Hw.
    destruct (String.eqb action "close"); [apply closeWindow_windowPositions |].
    destruct (String.eqb action "minimize"); [apply minimizeWindow_windowPositions | done].
  - unfold taskbarClick. destruct (taskbar s ≫= _); [| done].
    destruct (reg_get _ _) as [[|]|]; [apply openWindow_windowPositions | | done].
    destruct (windows s !! _); [| done].
    destruct (w_active w);
      [apply minimizeWindow_windowPositions | apply bringToFront_windowPositions].
  - unfold folderPointerDown. destruct (folders s !! i); [| done].
    destruct (isMobile s); [done |]. by destruct (folderLayout s i (viewport s) f).
  - apply folderDblClick_windowPositions.
  - unfold folderClick. destruct (isMobile s || _); [| done].
    destruct (isMobile s); [apply folderDblClick_windowPositions | done].
  - unfold viewportResize, arrangeFoldersForMobile. by destruct (negb _).
Qed.

(** X6: saved geometry is written by a maximize and by the end of a drag
    only: every other event (opening, closing, minimizing, focusing, any
    pointer-down, pointer moves, clicks, a resize of the viewport) leaves
    [windowPositions] as it is; and no event ever removes a record: an
    identity that has saved geometry keeps some for the rest of the
    session. *)
Theorem saved_geometry_written_by_drop_or_maximize (s : State) :
  (forall e, writesGeometry e = false -> windowPositions (step s e) = windowPositions s)
  /\ (forall es id, is_Some (windowPositions s !! id) ->
        is_Some (windowPositions (run es s) !! id)).
Proof.
  split; [intros e; apply step_windowPositions |].
  intros es id. by apply run_grows.
Qed.

(** ** Pointer sessions *)

Lemma pointerMove_noSession x y s : noSession s -> pointerMove x y s = s.
Proof.
  intros (Hd & Hr & Hf). unfold pointerMove.
  assert (Hws : map_imap (fun id el => Some (resizeMoveEl s x y id (dragMoveEl s x y id el)))
                  (windows s) = windows s).
  { apply map_eq. intros k. rewrite map_lookup_imap.
    destruct (windows s !! k); [| done]. simpl.
    by rewrite dragMoveEl_idle, resizeMoveEl_idle. }
  assert (Hfs : imap (folderMoveEl s x y) (folders s) = folders s).
  { apply list_eq. intros i. rewrite list_lookup_imap.
    destruct (folders s !! i); [| done]. simpl.
    unfold folderMoveEl. by rewrite Hf. }
  assert (Hfv : folderMoveVars x y <$> folderVars s = folderVars s).
  { apply map_eq. intros i. rewrite lookup_fmap.
    destruct (folderVars s !! i) as [v |] eqn:E; [| done]. simpl.
    specialize (Hf i). unfold getFolderVars in Hf. rewrite E in Hf. simpl in Hf.
    unfold folderMoveVars. by rewrite Hf. }
  rewrite Hws, Hfs, Hfv. by destruct s.
Qed.

Lemma pointerUp_noSession s : noSession (pointerUp s).
Proof.
  unfold noSession, getDragVars, getResizeVars, getFolderVars, pointerUp. simpl.
  repeat split; intros k; rewrite lookup_fmap.
  - by destruct (dragVars s !! k).
  - by destruct (resizeVars s !! k).
  - by destruct (folderVars s !! k).
Qed.

(** X7: pointer moves act only within a session.  While no drag and no
    resize is under way a [pointermove] leaves the whole state as it is; a
    [pointerup] ends every session at once, so the moves that follow it
    change nothing. *)
Theorem pointer_moves_act_only_in_a_session (x y : Q) (s : State) :
  (noSession s -> pointerMove x y s = s)
  /\ noSession (pointerUp s)
  /\ pointerMove x y (pointerUp s) = pointerUp s.
Proof.
  split; [apply pointerMove_noSession |].
  split; [apply pointerUp_noSession |].
  apply pointerMove_noSession, pointerUp_noSession.
Qed.

Lemma pointerUp_commit s id el :
  windows s !! id = Some el ->
  windowPositions (pointerUp s) !! id
  = match dragCommit s id el with
    | Some g => Some g
    | None => windowPositions s !! id
    end.
Proof.
  intros H. unfold pointerUp. simpl.
  rewrite lookup_union, map_lookup_imap, H. simpl.
  destruct (dragCommit s id el); [| by rewrite (left_id None _)].
  by destruct (windowPositions s !! id).
Qed.

Lemma pointerUp_windows s : windows (pointerUp s) = windows s.
Proof. done. Qed.

(** X8: the [pointerup] that ends a drag of the panel [id] (with a
    non-empty id) saves where the browser has the panel at that moment,
    with the panel's inline size, over any earlier record; the panels stay
    as they are, and a panel that was not being dragged keeps the record it
    had, or none. *)
Theorem drop_saves_geometry (id : string) (s : State) (el : WindowEl) :
  windows s !! id = Some el ->
  wd_isDragging (getDragVars s id) = true ->
  id <> EmptyString ->
  windowPositions (pointerUp s) !! id
    = Some (mkSavedGeometry (offsetLeft (boxOf s id el)) (offsetTop (boxOf s id el))
              (w_width el) (w_height el))
  /\ windows (pointerUp s) = windows s
  /\ wd_isDragging (getDragVars (pointerUp s) id) = false
  /\ forall k, wd_isDragging (getDragVars s k) = false ->
        windowPositions (pointerUp s) !! k = windowPositions s !! k.
Proof.
  intros H Hd Hne. split.
  - rewrite (pointerUp_commit _ _ _ H). unfold dragCommit. rewrite Hd.
    by destruct id.
  - split; [done |]. split; [apply pointerUp_noSession |].
    intros k Hk. unfold pointerUp. simpl. rewrite lookup_union, map_lookup_imap.
    destruct (windows s !! k) as [ek |]; simpl.
    + unfold dragCommit. rewrite Hk. by rewrite (left_id None _).
    + by rewrite (left_id None _).
Qed.

(** X9: a dropped position survives closing and reopening.  After the
    [pointerup] that ends a drag of the panel [id], closing the window and
    opening it again on a viewport that is not narrow puts the panel at the
    position the browser had it at when it was dropped. *)
Theorem dropped_position_survives_reopen (id : string) (s : State) (el : WindowEl) :
  windows s !! id = Some el ->
  wd_isDragging (getDragVars s id) = true ->
  id <> EmptyString ->
  isMobile s = false ->
  let s' := openWindow id (closeWindow id (pointerUp s)) in
  isOpen s' id = true
  /\ exists el',
       windows s' !! id = Some el'
       /\ w_display el' = "flex"%string
       /\ w_left el' = px (inject_Z (offsetLeft (boxOf s id el)))
       /\ w_top el' = px (inject_Z (offsetTop (boxOf s id el)))
       /\ w_width el' = w_width el /\ w_height el' = w_height el.
Proof.
  intros H Hd Hne Hm s'.
  assert (Hsaved : windowPositions (pointerUp s) !! id
                   = Some (mkSavedGeometry (offsetLeft (boxOf s id el))
                             (offsetTop (boxOf s id el)) (w_width el) (w_height el))).
  { rewrite (pointerUp_commit _ _ _ H). unfold dragCommit. rewrite Hd. by destruct id. }
  set (s1 := pointerUp s) in *.
  assert (H1 : windows s1 !! id = Some el) by done.
  set (s2 := closeWindow id s1) in *.
  assert (H2 : windows s2 !! id = Some (el_maximized false (el_display "none" el)))
    by by apply closeWindow_lookup.
  assert (Hr2 : reg_get id (openWindows s2) = None).
  { subst s2. rewrite (closeWindow_openWindows _ _ _ H1). apply reg_get_delete_eq. }
  assert (Hp2 : windowPositions s2 !! id = windowPositions s1 !! id).
  { subst s2. by rewrite closeWindow_windowPositions. }
  assert (Hm2 : isMobile s2 = false).
  { unfold isMobile in *. subst s2. by rewrite closeWindow_viewport. }
  destruct (openWindow_hidden id s2 _ H2) as (Hw & Hr & _); [by rewrite Hr2 | done |].
  rewrite Hsaved in Hp2.
  rewrite (positionWindow_saved _ _ _ _ Hm2 Hp2) in Hw.
  split; [unfold isOpen; subst s'; by rewrite Hr, reg_get_set_eq |].
  eexists. split; [exact Hw |]. done.
Qed.

Lemma clamp_inside (val lo hi : Q) :
  (lo <= val)%Q -> (val <= hi)%Q -> (clamp val lo hi == val)%Q.
Proof.
  intros Hlo Hhi. unfold clamp, Math_max, Math_min.
  destruct (Qle_bool hi val) eqn:E1.
  - apply Qle_bool_iff in E1.
    assert (Heq : (hi == val)%Q) by by apply Qle_antisym.
    destruct (Qle_bool lo hi) eqn:E2; [done |].
    exfalso. assert (Hle : (lo <= hi)%Q) by by rewrite Heq.
    apply Qle_bool_iff in Hle. congruence.
  - destruct (Qle_bool lo val) eqn:E2; [reflexivity |].
    apply Qle_bool_iff in Hlo. congruence.
Qed.

(** X10: inside the bounds a drag follows the pointer exactly.  While a
    drag is on, a pointer move whose target (origin plus the pointer's
    displacement since the press) lies within the clamp bounds of an axis
    puts the panel, or the icon, at that very target on that axis, for
    coordinates in whole pixels (where the script computes the target
    without rounding). *)
Theorem drag_follows_pointer_inside_bounds (x y : Q) (s : State) :
  (forall (id : string) (el : WindowEl),
     windows s !! id = Some el ->
     wd_isDragging (getDragVars s id) = true ->
     let v := getDragVars s id in
     let tx := (inject_Z (wd_origX v) + (x - wd_startX v))%Q in
     let ty := (inject_Z (wd_origY v) + (y - wd_startY v))%Q in
     exists el',
       windows (pointerMove x y s) !! id = Some el'
       /\ (pixel x = true -> pixel (wd_startX v) = true ->
           pixel (inject_Z (wd_origX v)) = true ->
           (inject_Z (- offsetWidth (boxOf s id el) + 100) <= tx)%Q ->
           (tx <= inject_Z (innerWidth (viewport s) - 50))%Q ->
           w_left el' = px tx)
       /\ (pixel y = true -> pixel (wd_startY v) = true ->
           pixel (inject_Z (wd_origY v)) = true ->
           (0 <= ty)%Q -> (ty <= inject_Z (innerHeight (viewport s) - 48 - 40))%Q ->
           w_top el' = px ty))
  /\
  (forall (i : nat) (f : FolderEl),
     folders s !! i = Some f ->
     fd_isDragging (getFolderVars s i) = true ->
     let v := getFolderVars s i in
     let tx := (inject_Z (fd_origX v) + (x - fd_startX v))%Q in
     let ty := (inject_Z (fd_origY v) + (y - fd_startY v))%Q in
     exists f',
       folders (pointerMove x y s) !! i = Some f'
       /\ (pixel x = true -> pixel (fd_startX v) = true ->
           pixel (inject_Z (fd_origX v)) = true ->
           (0 <= tx)%Q -> (tx <= inject_Z (innerWidth (viewport s) - 80))%Q ->
           f_left f' = px tx)
       /\ (pixel y = true -> pixel (fd_startY v) = true ->
           pixel (inject_Z (fd_origY v)) = true ->
           (0 <= ty)%Q -> (ty <= inject_Z (innerHeight (viewport s) - 48 - 80))%Q ->
           f_top f' = px ty)).
Proof.
  split.
  - intros id el H Hd v tx ty. eexists. split; [by apply pointerMove_lookup |].
    destruct (resizeMoveEl_position s x y id (dragMoveEl s x y id el)) as [-> ->].
    unfold dragMoveEl. rewrite Hd. simpl.
    split; intros _ _ _ Hlo Hhi; by apply px_inj_eq, clamp_inside.
  - intros i f H Hd v tx ty. eexists. split; [by apply pointerMove_folder |].
    unfold folderMoveEl. rewrite Hd. simpl.
    split; intros _ _ _ Hlo Hhi; by apply px_inj_eq, clamp_inside.
Qed.

Lemma map_imap_None {A B : Type} (f : string -> A -> option B) (m : gmap string A) :
  (forall k a, m !! k = Some a -> f k a = None) -> map_imap f m = ∅.
Proof.
  intros H. apply map_eq. intros k. rewrite map_lookup_imap, lookup_empty.
  destruct (m !! k) eqn:E; [by apply H | done].
Qed.

Lemma pointerMove_dragVars x y s : dragVars (pointerMove x y s) = dragVars s.
Proof. done. Qed.

(** X11: above the floor a resize follows the pointer, and it is never
    saved.  While a resize of the panel is on and no panel is being
    dragged, a pointer move changes the panel's inline width and height only
    (position, display and classes stay), to at least 320 by 200, and, for
    coordinates in whole pixels, to the size at the press plus the pointer's
    displacement wherever that is at least 320, respectively 200; and
    neither the move nor the [pointerup] that ends the session writes saved
    geometry. *)
Theorem resize_follows_pointer_and_is_not_saved
    (x y : Q) (s : State) (id : string) (el : WindowEl) :
  windows s !! id = Some el ->
  wr_isResizing (getResizeVars s id) = true ->
  (forall k, wd_isDragging (getDragVars s k) = false) ->
  let v := getResizeVars s id in
  let wantW := (inject_Z (wr_startW v) + (x - wr_startX v))%Q in
  let wantH := (inject_Z (wr_startH v) + (y - wr_startY v))%Q in
  exists w h,
    windows (pointerMove x y s) !! id = Some (el_height (css_px h) (el_width (css_px w) el))
    /\ (320 <= w)%Q /\ (200 <= h)%Q
    /\ (pixel x = true -> pixel (wr_startX v) = true -> pixel (inject_Z (wr_startW v)) = true ->
        (320 <= wantW)%Q -> css_px w = px wantW)
    /\ (pixel y = true -> pixel (wr_startY v) = true -> pixel (inject_Z (wr_startH v)) = true ->
        (200 <= wantH)%Q -> css_px h = px wantH)
    /\ windowPositions (pointerMove x y s) = windowPositions s
    /\ windowPositions (pointerUp (pointerMove x y s)) = windowPositions s.
Proof.
  intros H Hr Hd v wantW wantH.
  assert (Hmax : forall a b : Q, (a <= b)%Q -> (Math_max a b == b)%Q).
  { intros a b Hab. unfold Math_max. apply Qle_bool_iff in Hab. by rewrite Hab. }
  eexists _, _. split.
  { rewrite (pointerMove_lookup _ _ _ _ _ H), dragMoveEl_idle by done.
    unfold resizeMoveEl. rewrite Hr. reflexivity. }
  split; [rewrite Qred_correct; apply Math_max_lb_l |].
  split; [rewrite Qred_correct; apply Math_max_lb_l |].
  split; [intros _ _ _ Hw; by apply px_inj_eq, Hmax |].
  split; [intros _ _ _ Hh; by apply px_inj_eq, Hmax |].
  split; [done |].
  unfold pointerUp. simpl. rewrite map_imap_None; [by rewrite (left_id ∅ _) |].
  intros k a _. unfold dragCommit, getDragVars. simpl.
  specialize (Hd k). unfold getDragVars in Hd. by rewrite Hd.
Qed.

(** ** Pointer-down *)

Lemma bringToFront_vars id s :
  dragVars (bringToFront id s) = dragVars s
  /\ resizeVars (bringToFront id s) = resizeVars s
  /\ folderVars (bringToFront id s) = folderVars s
  /\ folders (bringToFront id s) = folders s
  /\ viewport (bringToFront id s) = viewport s
  /\ openWindows (bringToFront id s) = openWindows s.
Proof. by frame. Qed.

Lemma panelPointerDown_vars id s :
  dragVars (panelPointerDown id s) = dragVars s
  /\ resizeVars (panelPointerDown id s) = resizeVars s.
Proof.
  unfold panelPointerDown. destruct (windows s !! id); [| done].
  destruct (w_hasTitlebar w); [| done].
  destruct (bringToFront_vars id s) as (-> & -> & _). done.
Qed.

(** X12: on a narrow viewport (640px wide or less) no drag and no resize
    can start: a pointer-down on a panel, wherever it lands (body, title
    bar, button, resize handle), and a pointer-down on an icon leave the
    session variables as they are; the icon is still selected, and keeps
    its position and stacking value. *)
Theorem narrow_viewport_starts_no_session (s : State) :
  isMobile s = true ->
  (forall id t x y,
     dragVars (windowPointerDown id t x y s) = dragVars s
     /\ resizeVars (windowPointerDown id t x y s) = resizeVars s)
  /\ (forall i x y f,
        folders s !! i = Some f ->
        folderVars (folderPointerDown i x y s) = folderVars s
        /\ folders (folderPointerDown i x y s) !! i = Some (fo_selected true f)).
Proof.
  intros Hm. split.
  - intros id t x y. destruct t; simpl.
    + apply panelPointerDown_vars.
    + unfold titlebarPointerDown. rewrite Hm.
      destruct (windows s !! id); [destruct (negb _) |]; apply panelPointerDown_vars.
    + unfold titlebarPointerDown. rewrite Hm.
      destruct (windows s !! id); [destruct (negb _) |]; apply panelPointerDown_vars.
    + unfold handlePointerDown. rewrite Hm.
      destruct (windows s !! id); [destruct (negb _) |]; apply panelPointerDown_vars.
  - intros i x y f H. unfold folderPointerDown. rewrite H, Hm. simpl.
    split; [done |]. by rewrite list_lookup_imap, H, Nat.eqb_refl.
Qed.

Lemma bringToFront_twice id s el :
  windows s !! id = Some el ->
  highestZ (bringToFront id (bringToFront id s)) = highestZ s + 2
  /\ windows (bringToFront id (bringToFront id s)) !! id
     = Some (el_active true (el_zIndex (highestZ s + 2) (el_active false el)))
  /\ forall k, k <> id ->
       windows (bringToFront id (bringToFront id s)) !! k = el_active false <$> windows s !! k.
Proof.
  intros H. rewrite !bringToFront_highestZ. split; [lia |]. split.
  - rewrite (bringToFront_lookup_eq id _ _ (bringToFront_lookup_eq id s el H)).
    rewrite bringToFront_highestZ. f_equal.
    replace (highestZ s + 1 + 1) with (highestZ s + 2) by lia. by destruct el.
  - intros k Hne. rewrite !(bringToFront_lookup_ne id k) by done.
    by destruct (windows s !! k).
Qed.

(** X13: an accepted press on the title bar (viewport not narrow, target
    not a button, panel not maximized) starts a drag that records the
    pointer position and the panel's offset position, and focuses the
    panel twice, once by the title bar's listener and once by the panel's:
    the counter goes up by two, the panel is active with the new highest
    stacking value and every other panel is inactive. *)
Theorem titlebar_press_starts_drag (id : string) (x y : Q) (s : State) (el : WindowEl) :
  windows s !! id = Some el ->
  w_hasTitlebar el = true ->
  isMobile s = false ->
  w_maximized el = false ->
  let s' := windowPointerDown id OnTitlebar x y s in
  getDragVars s' id
    = mkDragVars true x y (offsetLeft (boxOf s id el)) (offsetTop (boxOf s id el))
  /\ highestZ s' = highestZ s + 2
  /\ windows s' !! id = Some (el_active true (el_zIndex (highestZ s + 2) (el_active false el)))
  /\ (forall k e, k <> id -> windows s' !! k = Some e -> w_active e = false)
  /\ windowPositions s' = windowPositions s
  /\ openWindows s' = openWindows s.
Proof.
  intros H Ht Hm Hx s'. subst s'. simpl.
  unfold titlebarPointerDown. rewrite H, Ht, Hm, Hx. simpl.
  set (s1 := set_dragVars _ s).
  assert (H1 : windows s1 !! id = Some el) by done.
  unfold panelPointerDown.
  rewrite (bringToFront_lookup_eq id s1 el H1). simpl. rewrite Ht.
  destruct (bringToFront_twice id s1 el H1) as (Hz & Hw & Ho).
  rewrite Hz, Hw. repeat split; try done.
  - unfold getDragVars.
    destruct (bringToFront_vars id (bringToFront id s1)) as (-> & _).
    destruct (bringToFront_vars id s1) as (-> & _).
    subst s1. simpl. by rewrite lookup_insert_eq.
  - intros k e Hne He. rewrite (Ho k Hne) in He.
    change (windows s1) with (windows s) in He.
    destruct (windows s !! k); [| done]. simpl in He. by injection He as <-.
  - by rewrite !bringToFront_windowPositions.
  - destruct (bringToFront_vars id (bringToFront id s1)) as (_ & _ & _ & _ & _ & ->).
    by destruct (bringToFront_vars id s1) as (_ & _ & _ & _ & _ & ->).
Qed.

(** X14: a press that the title bar refuses, because it lands on one of
    its buttons or because the panel is maximized, starts no drag and
    changes no session variable, yet the panel's own listener still focuses
    the panel: the counter goes up by one and the panel becomes the active
    one. *)
Theorem refused_titlebar_press_only_focuses
    (id : string) (t : Target) (x y : Q) (s : State) (el : WindowEl) :
  windows s !! id = Some el ->
  w_hasTitlebar el = true ->
  (t = OnButton \/ (t = OnTitlebar /\ w_maximized el = true)) ->
  let s' := windowPointerDown id t x y s in
  dragVars s' = dragVars s /\ resizeVars s' = resizeVars s
  /\ highestZ s' = highestZ s + 1
  /\ windows s' !! id = Some (el_active true (el_zIndex (highestZ s + 1) (el_active false el)))
  /\ wd_isDragging (getDragVars s' id) = wd_isDragging (getDragVars s id).
Proof.
  intros H Ht Hcase s'.
  assert (Heq : s' = bringToFront id s).
  { subst s'. destruct Hcase as [-> | [-> Hx]]; simpl;
      unfold titlebarPointerDown, panelPointerDown; rewrite H, Ht; simpl.
    - destruct (isMobile s); by rewrite H, Ht.
    - rewrite Hx. destruct (isMobile s); by rewrite H, Ht. }
  rewrite Heq. unfold getDragVars.
  destruct (bringToFront_vars id s) as (-> & -> & _).
  rewrite bringToFront_highestZ, (bringToFront_lookup_eq _ _ _ H). done.
Qed.

Lemma getDragVars_set_resizeVars m s id : getDragVars (set_resizeVars m s) id = getDragVars s id.
Proof. done. Qed.

(** X15: the resize gesture.  On a viewport that is not narrow, a press on
    the resize handle of a panel that is not being dragged, followed by a
    pointer move, sets the panel's inline size, to at least 320 by 200, and
    changes nothing else of the panel; for coordinates in whole pixels the
    size is the measured size at the press plus the pointer's displacement,
    floored at 320 by 200.  The press does not bring the panel to the front
    (the handler stops the event there), and neither step touches the
    registry or the saved geometry.  On a narrow viewport the press starts
    nothing and only reaches the panel's own listener. *)
Theorem resize_gesture (id : string) (x0 y0 x y : Q) (s : State) (el : WindowEl) :
  windows s !! id = Some el ->
  w_hasHandle el = true ->
  wd_isDragging (getDragVars s id) = false ->
  let s1 := windowPointerDown id OnHandle x0 y0 s in
  let s2 := pointerMove x y s1 in
  let ow := inject_Z (offsetWidth (boxOf s id el)) in
  let oh := inject_Z (offsetHeight (boxOf s id el)) in
  if isMobile s then s1 = panelPointerDown id s
  else
    windows s1 = windows s
    /\ highestZ s2 = highestZ s
    /\ openWindows s2 = openWindows s
    /\ windowPositions s2 = windowPositions s
    /\ exists w h,
         windows s2 !! id = Some (el_height (css_px h) (el_width (css_px w) el))
         /\ (320 <= w)%Q /\ (200 <= h)%Q
         /\ (pixel x0 = true -> pixel x = true -> pixel ow = true ->
             css_px w = px (Math_max 320 (ow + (x - x0))))
         /\ (pixel y0 = true -> pixel y = true -> pixel oh = true ->
             css_px h = px (Math_max 200 (oh + (y - y0)))).
Proof.
  intros H Hh Hd s1 s2 ow oh. subst s2 s1. simpl. unfold handlePointerDown. rewrite H, Hh. simpl.
  destruct (isMobile s); [done |].
  set (s1 := set_resizeVars _ s).
  split; [done |]. split; [done |]. split; [done |]. split; [done |].
  exists (Qred (Math_max 320 (ow + (x - x0)))), (Qred (Math_max 200 (oh + (y - y0)))).
  split.
  { change (windows (pointerMove x y s1) !! id = Some
      (el_height (css_px (Qred (Math_max 200 (oh + (y - y0)))))
         (el_width (css_px (Qred (Math_max 320 (ow + (x - x0))))) el))).
    rewrite (pointerMove_lookup x y s1 id el H).
    rewrite dragMoveEl_idle by done.
    unfold resizeMoveEl, getResizeVars. subst s1. simpl. by rewrite lookup_insert_eq. }
  split; [rewrite Qred_correct; apply Math_max_lb_l |].
  split; [rewrite Qred_correct; apply Math_max_lb_l |].
  split; done.
Qed.

(** ** Icons *)

(** What [openWindow] makes of an existing panel: it shows and focuses the
    panel as it was, or, for a panel neither minimized nor shown, as
    [positionWindow] has placed it. *)
Lemma openWindow_element id s el :
  windows s !! id = Some el ->
  exists base,
    (base = el
     \/ (base = positionWindow id el s
         /\ reg_get id (openWindows s) <> Some true /\ w_display el <> "flex"%string))
    /\ windows (openWindow id s) !! id
       = Some (el_active true (el_zIndex (highestZ s + 1)
                 (el_active false (el_display "flex" base)))).
Proof.
  intros H. destruct (reg_get id (openWindows s)) as [[|]|] eqn:Hreg.
  - exists el. split; [by left |]. by apply openWindow_minimized.
  - destruct (String.eqb_spec (w_display el) "flex") as [Hd | Hd].
    + exists el. split; [by left |].
      rewrite (openWindow_shown id s el) by (done || congruence).
      rewrite (bringToFront_lookup_eq _ _ _ H). destruct el; simpl in *. by subst.
    + exists (positionWindow id el s). split; [right; by repeat split |].
      apply openWindow_hidden; [done | congruence | done].
  - destruct (String.eqb_spec (w_display el) "flex") as [Hd | Hd].
    + exists el. split; [by left |].
      rewrite (openWindow_shown id s el) by (done || congruence).
      rewrite (bringToFront_lookup_eq _ _ _ H). destruct el; simpl in *. by subst.
    + exists (positionWindow id el s). split; [right; by repeat split |].
      apply openWindow_hidden; [done | congruence | done].
Qed.

(** X16: a single click on an icon opens its window on a narrow viewport
    only.  On a wider viewport the click changes nothing, whatever the
    movement flag of the icon says.  On a narrow one (the page being one
    where every shown panel is registered as visible) the click on an icon
    whose id names a panel leaves that window open and not minimized, its
    panel shown and active, at the inline position it had: no placement is
    computed there. *)
Theorem folder_tap_opens_on_narrow_viewport_only
    (i : nat) (s : State) (f : FolderEl) (id : string) (el : WindowEl) :
  folders s !! i = Some f ->
  f_folderId f = Some id ->
  id <> EmptyString ->
  windows s !! id = Some el ->
  shownRegistered s ->
  let s' := folderClick i s in
  if isMobile s then
    isOpen s' id = true /\ isMinimized s' id = false
    /\ exists el',
         windows s' !! id = Some el'
         /\ w_display el' = "flex"%string /\ w_active el' = true
         /\ w_left el' = w_left el /\ w_top el' = w_top el
  else s' = s.
Proof.
  intros Hf Hid Hne H Hinv s'. subst s'. unfold folderClick.
  destruct (isMobile s) eqn:Hm; simpl; [| by destruct (negb _)].
  assert (Hdbl : folderDblClick i s = openWindow id s).
  { unfold folderDblClick. rewrite Hf. simpl. rewrite Hid. by destruct id. }
  rewrite Hdbl.
  assert (Hpos : positionWindow id el s = el) by (unfold positionWindow; by rewrite Hm).
  destruct (openWindow_element id s el H) as (base & Hbase & Hw).
  assert (Hb : base = el) by (destruct Hbase as [-> | (-> & _)]; done).
  subst base.
  assert (Hr : reg_get id (openWindows (openWindow id s)) = Some false).
  { destruct (reg_get id (openWindows s)) as [[|]|] eqn:Hreg.
    - destruct (openWindow_minimized id s el H Hreg) as (_ & -> & _).
      apply reg_get_set_eq.
    - destruct (String.eqb_spec (w_display el) "flex") as [Hd | Hd].
      + rewrite (openWindow_shown id s el) by (done || congruence).
        by destruct (bringToFront_vars id s) as (_ & _ & _ & _ & _ & ->).
      + destruct (openWindow_hidden id s el H) as (_ & -> & _); [congruence | done |].
        apply reg_get_set_eq.
    - destruct (String.eqb_spec (w_display el) "flex") as [Hd | Hd].
      + by rewrite (Hinv id el H Hd) in Hreg.
      + destruct (openWindow_hidden id s el H) as (_ & -> & _); [congruence | done |].
        apply reg_get_set_eq. }
  unfold isOpen, isMinimized. rewrite Hr. repeat split.
  eexists. split; [exact Hw |]. done.
Qed.

Lemma pointerMove_folderVars x y s i :
  getFolderVars (pointerMove x y s) i = folderMoveVars x y (getFolderVars s i).
Proof.
  unfold getFolderVars, pointerMove. simpl. rewrite lookup_fmap.
  by destruct (folderVars s !! i).
Qed.

Lemma pointerUp_folderVars s i :
  getFolderVars (pointerUp s) i = folderPointerUpVars (getFolderVars s i).
Proof.
  unfold getFolderVars, pointerUp. simpl. rewrite lookup_fmap.
  by destruct (folderVars s !! i).
Qed.

(** X17: the movement flag of an icon drag.  A press on an icon (viewport
    not narrow) clears the flag.  A pointer move during the drag sets it
    only if the pointer is more than 3px away from the press on one of the
    axes, and, for coordinates in whole pixels, whenever it is; once set,
    the flag stays set over further moves and over the [pointerup]. *)
Theorem folder_drag_sets_moved_flag_beyond_3px (i : nat) (px0 py0 x y : Q) (s : State) (f : FolderEl) :
  folders s !! i = Some f ->
  isMobile s = false ->
  let s1 := folderPointerDown i px0 py0 s in
  let s2 := pointerMove x y s1 in
  fd_isDragging (getFolderVars s1 i) = true
  /\ fd_hasMoved (getFolderVars s1 i) = false
  /\ (fd_hasMoved (getFolderVars s2 i) = true ->
      (3 < Qabs (x - px0))%Q \/ (3 < Qabs (y - py0))%Q)
  /\ (pixel x = true -> pixel px0 = true -> (3 < Qabs (x - px0))%Q ->
      fd_hasMoved (getFolderVars s2 i) = true)
  /\ (pixel y = true -> pixel py0 = true -> (3 < Qabs (y - py0))%Q ->
      fd_hasMoved (getFolderVars s2 i) = true)
  /\ (forall x' y', fd_hasMoved (getFolderVars s2 i) = true ->
        fd_hasMoved (getFolderVars (pointerMove x' y' s2) i) = true
        /\ fd_hasMoved (getFolderVars (pointerUp s2) i) = true).
Proof.
  intros H Hm s1 s2.
  assert (Hv : getFolderVars s1 i
               = mkFolderVars true false px0 py0
                   (folderLayout s i (viewport s) f).1 (folderLayout s i (viewport s) f).2).
  { subst s1. unfold folderPointerDown, getFolderVars. rewrite H, Hm.
    destruct (folderLayout s i (viewport s) f). simpl. by rewrite lookup_insert_eq. }
  split; [by rewrite Hv |]. split; [by rewrite Hv |].
  assert (Hiff : fd_hasMoved (getFolderVars s2 i) = true
                 <-> (3 < Qabs (x - px0))%Q \/ (3 < Qabs (y - py0))%Q).
  { subst s2. rewrite pointerMove_folderVars, Hv. unfold folderMoveVars, Math_abs.
    cbn [fd_isDragging fd_startX fd_startY].
    destruct (Qlt_le_dec 3 (Qabs (x - px0))) as [Hx | Hx];
      cbn [fd_hasMoved]; [tauto |].
    destruct (Qlt_le_dec 3 (Qabs (y - py0))) as [Hy | Hy];
      cbn [fd_hasMoved]; [tauto |].
    split; [done |]. intros [Hc | Hc]; exfalso; eapply Qlt_not_le; eauto. }
  split; [apply Hiff |].
  split; [intros _ _ Hx; apply Hiff; by left |].
  split; [intros _ _ Hy; apply Hiff; by right |].
  intros x' y' Hmoved. split.
  + rewrite pointerMove_folderVars. unfold folderMoveVars.
    destruct (fd_isDragging _); [| done].
    destruct (Qlt_le_dec _ _); [done |]. by destruct (Qlt_le_dec _ _).
  + by rewrite pointerUp_folderVars.
Qed.

(** X18: selection of icons.  A press on an icon leaves that icon selected
    and no other, on any viewport; a press on the bare desktop leaves none
    selected; neither moves an icon. *)
Theorem folder_press_selects_exactly_one (i : nat) (x y : Q) (s : State) (f : FolderEl) :
  folders s !! i = Some f ->
  (forall j g, folders (folderPointerDown i x y s) !! j = Some g ->
     (f_selected g = true <-> j = i)
     /\ exists g0, folders s !! j = Some g0
                   /\ f_left g = f_left g0 /\ f_top g = f_top g0)
  /\ (forall j g, folders (desktopPointerDown s) !! j = Some g ->
        f_selected g = false
        /\ exists g0, folders s !! j = Some g0
                      /\ f_left g = f_left g0 /\ f_top g = f_top g0).
Proof.
  intros H. split.
  - intros j g. unfold folderPointerDown. rewrite H.
    assert (Hsel : forall l : list FolderEl,
              (forall g0, l !! j = Some g0 -> exists g1, folders s !! j = Some g1
                          /\ f_left g0 = f_left g1 /\ f_top g0 = f_top g1) ->
              imap (fun k h => fo_selected (Nat.eqb k i) h) l !! j = Some g ->
              (f_selected g = true <-> j = i)
              /\ exists g0, folders s !! j = Some g0
                            /\ f_left g = f_left g0 /\ f_top g = f_top g0).
    { intros l Hl. rewrite list_lookup_imap. destruct (l !! j) as [g0 |] eqn:E; [| done].
      simpl. intros [= <-]. simpl. split; [| by apply Hl].
      destruct (Nat.eqb_spec j i); split; done. }
    destruct (isMobile s).
    + apply Hsel. eauto.
    + destruct (folderLayout s i (viewport s) f). simpl. apply Hsel.
      intros g0. destruct (decide (j = i)) as [-> | Hne].
      * rewrite list_lookup_insert_eq by by eapply lookup_lt_Some.
        intros [= <-]. eauto.
      * rewrite list_lookup_insert_ne by done. eauto.
  - intros j g. unfold desktopPointerDown. simpl. rewrite list_lookup_fmap.
    destruct (folders s !! j) as [g0 |]; [| done]. simpl. intros [= <-]. eauto.
Qed.

(** ** The mobile grid *)

(** Makes the divisions and the column numbers of the grid formula plain
    constants. *)
Ltac grid_constants :=
  unfold Qdiv in *;
  change (/ 4)%Q with (1 # 4)%Q in *; change (/ 2)%Q with (1 # 2)%Q in *;
  change (inject_Z (Z.of_nat 0)) with 0%Q in *;
  change (inject_Z (Z.of_nat 1)) with 1%Q in *;
  change (inject_Z (Z.of_nat 2)) with 2%Q in *;
  change (inject_Z (Z.of_nat 3)) with 3%Q in *.

Lemma grid_left_bounds (c : nat) (W : Z) :
  (c < 4)%nat -> 320 <= W ->
  let l := (inject_Z (Z.of_nat c) * (inject_Z W / 4) + (inject_Z W / 4 - 80) / 2)%Q in
  (0 <= l)%Q /\ (l + 80 <= inject_Z W)%Q.
Proof.
  intros Hc HW l. subst l.
  assert (Hw : (320 <= inject_Z W)%Q) by (rewrite (Zle_Qle 320 W) in HW; exact HW).
  set (w := inject_Z W) in *.
  destruct c as [| [| [| [| c]]]]; [| | | | lia].
  all: grid_constants; split; lra.
Qed.

Lemma grid_left_apart (ci cj : nat) (W : Z) :
  (ci < cj)%nat -> (cj < 4)%nat -> 320 <= W ->
  (inject_Z (Z.of_nat ci) * (inject_Z W / 4) + (inject_Z W / 4 - 80) / 2 + 80
   <= inject_Z (Z.of_nat cj) * (inject_Z W / 4) + (inject_Z W / 4 - 80) / 2)%Q.
Proof.
  intros Hc Hj HW.
  assert (Hw : (320 <= inject_Z W)%Q) by (rewrite (Zle_Qle 320 W) in HW; exact HW).
  set (w := inject_Z W) in *.
  destruct ci as [| [| [| [| ci]]]], cj as [| [| [| [| cj]]]]; try lia.
  all: grid_constants; lra.
Qed.

Lemma grid_top_apart (ri rj : nat) :
  (ri < rj)%nat ->
  (20 + inject_Z (Z.of_nat ri) * 100 + 100 <= 20 + inject_Z (Z.of_nat rj) * 100)%Q.
Proof.
  intros H.
  assert (Hq : (inject_Z (Z.of_nat ri) + 1 <= inject_Z (Z.of_nat rj))%Q).
  { change 1%Q with (inject_Z 1). rewrite <- inject_Z_plus, <- Zle_Qle. lia. }
  lra.
Qed.

Lemma arrangeFoldersForMobile_lookup s i f :
  isMobile s = true -> folders s !! i = Some f ->
  folders (arrangeFoldersForMobile s) !! i
  = Some (fo_top (px (20 + inject_Z (Z.of_nat (i / 4)) * 100))
            (fo_left (px (inject_Z (Z.of_nat (i mod 4)) * (inject_Z (innerWidth (viewport s)) / 4)
                          + (inject_Z (innerWidth (viewport s)) / 4 - 80) / 2)) f)).
Proof.
  intros Hm H. unfold arrangeFoldersForMobile. rewrite Hm. simpl.
  by rewrite list_lookup_imap, H.
Qed.

(** X19: the grid of icons on a narrow viewport.  [arrangeFoldersForMobile]
    does nothing on a viewport wider than 640px.  On a narrow one that is
    at least 320px wide it puts the i-th icon in column [i mod 4] of row
    [i / 4]: the 80px icon lies within the width of the viewport, at
    [20 + 100 (i / 4)] from the top; of two icons in the same row the later
    one starts at least 80px right of the earlier, and an icon of a later
    row starts at least 100px lower. *)
Theorem mobile_grid_inside_viewport_and_apart (s : State) :
  (isMobile s = false -> arrangeFoldersForMobile s = s)
  /\ (isMobile s = true -> 320 <= innerWidth (viewport s) ->
      let s' := arrangeFoldersForMobile s in
      (forall i f, folders s !! i = Some f ->
         exists f' l t,
           folders s' !! i = Some f'
           /\ f_left f' = css_px l /\ f_top f' = css_px t
           /\ (0 <= l)%Q /\ (l + 80 <= inject_Z (innerWidth (viewport s)))%Q
           /\ (t == 20 + 100 * inject_Z (Z.of_nat (i / 4)))%Q)
      /\ (forall i j fi fj li lj ti tj,
            (i < j)%nat ->
            folders s' !! i = Some fi -> folders s' !! j = Some fj ->
            f_left fi = css_px li -> f_left fj = css_px lj ->
            f_top fi = css_px ti -> f_top fj = css_px tj ->
            if decide (i / 4 = j / 4)%nat
            then (li + 80 <= lj)%Q /\ (ti == tj)%Q
            else (ti + 100 <= tj)%Q)).
Proof.
  split.
  { intros Hm. unfold arrangeFoldersForMobile. by rewrite Hm. }
  intros Hm HW s'. split.
  - intros i f H. eexists _, _, _.
    split; [by apply arrangeFoldersForMobile_lookup |].
    cbn [f_left f_top fo_top fo_left]. unfold px.
    split; [reflexivity |]. split; [reflexivity |].
    assert (Hc : (i mod 4 < 4)%nat) by (apply Nat.mod_upper_bound; lia).
    destruct (grid_left_bounds _ _ Hc HW) as [Hl0 Hl1].
    split; [by rewrite Qred_correct |]. split; [by rewrite Qred_correct |].
    rewrite Qred_correct. ring.
  - intros i j fi fj li lj ti tj Hij Hi Hj Hli Hlj Hti Htj.
    assert (Hlen : forall k fk, folders s' !! k = Some fk ->
              exists f0, folders s !! k = Some f0).
    { intros k fk Hk. destruct (folders s !! k) as [f0 |] eqn:E; [eauto |].
      exfalso. apply lookup_ge_None in E.
      assert (Hlt : (k < length (folders s'))%nat) by by eapply lookup_lt_Some.
      subst s'. unfold arrangeFoldersForMobile in Hlt. rewrite Hm in Hlt.
      simpl in Hlt. rewrite length_imap in Hlt. lia. }
    destruct (Hlen i fi Hi) as [f0 H0], (Hlen j fj Hj) as [g0 G0].
    subst s'.
    rewrite (arrangeFoldersForMobile_lookup _ _ _ Hm H0) in Hi.
    rewrite (arrangeFoldersForMobile_lookup _ _ _ Hm G0) in Hj.
    injection Hi as <-. injection Hj as <-.
    cbn [f_left f_top fo_top fo_left] in *. unfold px in *.
    injection Hli as <-. injection Hlj as <-. injection Hti as <-. injection Htj as <-.
    pose proof (Nat.div_mod_eq i 4) as Ei. pose proof (Nat.div_mod_eq j 4) as Ej.
    assert (Hcj : (j mod 4 < 4)%nat) by (apply Nat.mod_upper_bound; lia).
    assert (Hrows : (i / 4 <= j / 4)%nat) by (apply Nat.Div0.div_le_mono; lia).
    case_decide as Hrow; rewrite !Qred_correct.
    + split.
      * apply (grid_left_apart (i mod 4) (j mod 4)); [| done | done].
        revert Ei Ej Hrow Hij.
        generalize (i / 4)%nat (j / 4)%nat (i mod 4)%nat (j mod 4)%nat.
        intros. lia.
      * change (20 + inject_Z (Z.of_nat (i / 4)) * 100
                == 20 + inject_Z (Z.of_nat (j / 4)) * 100)%Q.
        by rewrite Hrow.
    + apply (grid_top_apart (i / 4) (j / 4)). lia.
Qed.

(** ** The focus order *)

(** A step that keeps the counter and, of every panel, the [active] class
    and the stacking value. *)
Lemma focusOrdered_keep s s' :
  highestZ s' = highestZ s ->
  (forall k el', windows s' !! k = Some el' ->
     exists el, windows s !! k = Some el
                /\ w_active el' = w_active el /\ w_zIndex el' = w_zIndex el) ->
  focusOrdered s -> focusOrdered s'.
Proof.
  intros Hz Hw (Ha & Hi & Hu). unfold focusOrdered. rewrite Hz. repeat split.
  - intros id el' H' Hact. destruct (Hw id el' H') as (el & H & Ea & Ez).
    rewrite Ez. apply (Ha id el H). by rewrite <- Ea.
  - intros id el' z H' Hact Hzi. destruct (Hw id el' H') as (el & H & Ea & Ez).
    apply (Hi id el z H); by rewrite <- ?Ea, <- ?Ez.
  - intros id1 id2 e1 e2 H1 H2 A1 A2.
    destruct (Hw id1 e1 H1) as (el1 & G1 & Ea1 & _).
    destruct (Hw id2 e2 H2) as (el2 & G2 & Ea2 & _).
    apply (Hu id1 id2 el1 el2 G1 G2); by rewrite <- ?Ea1, <- ?Ea2.
Qed.

Lemma focusOrdered_same s s' :
  highestZ s' = highestZ s -> windows s' = windows s ->
  focusOrdered s -> focusOrdered s'.
Proof.
  intros Hz Hw. apply focusOrdered_keep; [done |]. rewrite Hw. eauto.
Qed.

Lemma focusOrdered_insert s id el el1 :
  windows s !! id = Some el ->
  w_active el1 = w_active el -> w_zIndex el1 = w_zIndex el ->
  focusOrdered s -> focusOrdered (set_windows (<[id := el1]> (windows s)) s).
Proof.
  intros H Ea Ez. apply focusOrdered_keep; [done |]. simpl. intros k e He.
  destruct (decide (k = id)) as [-> | Hne].
  - rewrite lookup_insert_eq in He. injection He as <-. eauto.
  - rewrite lookup_insert_ne in He by done. eauto.
Qed.

Lemma updateTaskbar_focusOrdered s : focusOrdered s -> focusOrdered (updateTaskbar s).
Proof. destruct (updateTaskbar_frame s) as [t ->]. by apply focusOrdered_same. Qed.

Lemma bringToFront_focusOrdered id s : focusOrdered s -> focusOrdered (bringToFront id s).
Proof.
  intros (Ha & Hi & Hu).
  assert (Hle : forall k el z, windows s !! k = Some el -> w_zIndex el = Some z ->
            z <= highestZ s).
  { intros k el z H Hz. destruct (w_active el) eqn:E.
    - rewrite (Ha k el H E) in Hz. injection Hz as <-. lia.
    - pose proof (Hi k el z H E Hz). lia. }
  assert (Hlook : forall k e, windows (bringToFront id s) !! k = Some e ->
            exists el, windows s !! k = Some el
              /\ ((k = id /\ e = el_active true (el_zIndex (highestZ s + 1) (el_active false el)))
                  \/ (k <> id /\ e = el_active false el))).
  { intros k e He. destruct (decide (k = id)) as [-> | Hne].
    - destruct (windows s !! id) as [el |] eqn:H.
      + rewrite (bringToFront_lookup_eq _ _ _ H) in He. injection He as <-. eauto.
      + rewrite bringToFront_windows, lookup_alter_eq, lookup_fmap, H in He. done.
    - rewrite (bringToFront_lookup_ne _ _ _ Hne) in He.
      destruct (windows s !! k) as [el |]; [| done].
      simpl in He. injection He as <-. eauto. }
  unfold focusOrdered. rewrite bringToFront_highestZ. repeat split.
  - intros k e He Hact. destruct (Hlook k e He) as (el & H & [[-> ->] | [Hne ->]]); done.
  - intros k e z He Hact Hz.
    destruct (Hlook k e He) as (el & H & [[-> ->] | [Hne ->]]); [done |].
    pose proof (Hle k el z H Hz). lia.
  - intros k1 k2 e1 e2 H1 H2 A1 A2.
    destruct (Hlook k1 e1 H1) as (el1 & _ & [[-> _] | [_ ->]]); [| done].
    destruct (Hlook k2 e2 H2) as (el2 & _ & [[-> _] | [_ ->]]); done.
Qed.

Lemma positionWindow_focus id el s :
  w_active (positionWindow id el s) = w_active el
  /\ w_zIndex (positionWindow id el s) = w_zIndex el.
Proof.
  unfold positionWindow. destruct (negb _); [| done].
  by destruct (windowPositions s !! id).
Qed.

Lemma openWindow_focusOrdered id s : focusOrdered s -> focusOrdered (openWindow id s).
Proof.
  intros Hinv. unfold openWindow. destruct (windows s !! id) as [el |] eqn:H; [| done].
  assert (Hopen : forall el1, w_active el1 = w_active el -> w_zIndex el1 = w_zIndex el ->
    focusOrdered (updateTaskbar (bringToFront id
      (set_openWindows (reg_set id false (openWindows s))
         (set_windows (<[id := el1]> (windows s)) s))))).
  { intros el1 Ea Ez. apply updateTaskbar_focusOrdered, bringToFront_focusOrdered.
    apply (focusOrdered_same (set_windows (<[id := el1]> (windows s)) s)); [done | done |].
    by apply (focusOrdered_insert s id el). }
  destruct (reg_get id (openWindows s)) as [[|]|]; [by apply Hopen | |].
  all: destruct (String.eqb (w_display el) "flex"); [by apply bringToFront_focusOrdered |].
  all: apply Hopen; simpl; apply positionWindow_focus.
Qed.

Lemma closeWindow_focusOrdered id s : focusOrdered s -> focusOrdered (closeWindow id s).
Proof.
  intros Hinv. unfold closeWindow. destruct (windows s !! id) as [el |] eqn:H; [| done].
  apply updateTaskbar_focusOrdered.
  apply (focusOrdered_same (set_windows (<[id := el_maximized false (el_display "none" el)]>
                                            (windows s)) s)); [done | done |].
  by apply (focusOrdered_insert s id el).
Qed.

Lemma minimizeWindow_focusOrdered id s :
  focusOrdered s -> focusOrdered (minimizeWindow id s).
Proof.
  intros Hinv. unfold minimizeWindow. destruct (windows s !! id) as [el |] eqn:H; [| done].
  apply updateTaskbar_focusOrdered.
  apply (focusOrdered_same (set_windows (<[id := el_display "none" el]> (windows s)) s));
    [done | done |].
  by apply (focusOrdered_insert s id el).
Qed.

Lemma toggleMaximize_focusOrdered id s :
  focusOrdered s -> focusOrdered (toggleMaximize id s).
Proof.
  intros Hinv. unfold toggleMaximize. destruct (windows s !! id) as [el |] eqn:H; [| done].
  destruct (w_maximized el).
  - apply (focusOrdered_insert s id el); try done; by destruct (windowPositions s !! id).
  - apply (focusOrdered_keep s); [done | | done]. simpl. intros k e He.
    destruct (decide (k = id)) as [-> | Hne].
    + rewrite lookup_insert_eq in He. injection He as <-. eauto.
    + rewrite lookup_insert_ne in He by done. eauto.
Qed.

Lemma panelPointerDown_focusOrdered id s :
  focusOrdered s -> focusOrdered (panelPointerDown id s).
Proof.
  intros Hinv. unfold panelPointerDown. destruct (windows s !! id); [| done].
  destruct (w_hasTitlebar w); [by apply bringToFront_focusOrdered | done].
Qed.

Lemma titlebarPointerDown_focusOrdered id b x y s :
  focusOrdered s -> focusOrdered (titlebarPointerDown id b x y s).
Proof.
  intros Hinv. unfold titlebarPointerDown. destruct (windows s !! id); [| done].
  destruct (negb _), (isMobile s), b, (w_maximized w); try done.
  apply bringToFront_focusOrdered. by apply (focusOrdered_same s).
Qed.

Lemma folderDblClick_focusOrdered i s :
  focusOrdered s -> focusOrdered (folderDblClick i s).
Proof.
  intros Hinv. unfold folderDblClick.
  destruct (folders s !! i ≫= f_folderId) as [[|]|]; try done.
  by apply openWindow_focusOrdered.
Qed.

Lemma dragMoveEl_focus s x y id el :
  w_active (dragMoveEl s x y id el) = w_active el
  /\ w_zIndex (dragMoveEl s x y id el) = w_zIndex el.
Proof. unfold dragMoveEl. by destruct (wd_isDragging _). Qed.

Lemma resizeMoveEl_focus s x y id el :
  w_active (resizeMoveEl s x y id el) = w_active el
  /\ w_zIndex (resizeMoveEl s x y id el) = w_zIndex el.
Proof. unfold resizeMoveEl. by destruct (wr_isResizing _). Qed.

Lemma step_focusOrdered s e : focusOrdered s -> focusOrdered (step s e).
Proof.
  intros Hinv. destruct e; simpl.
  - by apply openWindow_focusOrdered.
  - by apply closeWindow_focusOrdered.
  - by apply minimizeWindow_focusOrdered.
  - by apply toggleMaximize_focusOrdered.
  - destruct (windows s !! id); [by apply bringToFront_focusOrdered | done].
  - destruct t; simpl.
    + by apply panelPointerDown_focusOrdered.
    + by apply panelPointerDown_focusOrdered, titlebarPointerDown_focusOrdered.
    + by apply panelPointerDown_focusOrdered, titlebarPointerDown_focusOrdered.
    + unfold handlePointerDown. destruct (windows s !! id);
        [| by apply panelPointerDown_focusOrdered].
      destruct (negb _); [by apply panelPointerDown_focusOrdered |].
      destruct (isMobile s); [by apply panelPointerDown_focusOrdered |].
      by apply (focusOrdered_same s).
  - unfold windowButton.
    repeat match goal with |- context [if ?b then _ else _] => destruct b end.
    + by apply closeWindow_focusOrdered.
    + by apply minimizeWindow_focusOrdered.
    + by apply toggleMaximize_focusOrdered.
    + done.
  - unfold taskbarClick. destruct (taskbar s ≫= _); [| done].
    destruct (reg_get _ _) as [[|]|]; [by apply openWindow_focusOrdered | | done].
    destruct (windows s !! _); [| done].
    destruct (w_active w);
      [by apply minimizeWindow_focusOrdered | by apply bringToFront_focusOrdered].
  - unfold folderPointerDown. destruct (folders s !! i); [| done].
    destruct (isMobile s); [by apply (focusOrdered_same s) |].
    destruct (folderLayout s i (viewport s) f). by apply (focusOrdered_same s).
  - by apply folderDblClick_focusOrdered.
  - unfold folderClick. destruct (isMobile s || _); [| done].
    destruct (isMobile s); [by apply folderDblClick_focusOrdered | done].
  - by apply (focusOrdered_same s).
  - apply (focusOrdered_keep s); [done | | done].
    intros k e He. unfold pointerMove in He. simpl in He.
    rewrite map_lookup_imap in He. destruct (windows s !! k) as [el |]; [| done].
    simpl in He. injection He as <-. exists el. split; [done |].
    destruct (resizeMoveEl_focus s x y k (dragMoveEl s x y k el)) as [-> ->].
    apply dragMoveEl_focus.
  - by apply (focusOrdered_same s).
  - unfold viewportResize, arrangeFoldersForMobile.
    destruct (negb _); by apply (focusOrdered_same s).
Qed.

Lemma run_focusOrdered es s : focusOrdered s -> focusOrdered (run es s).
Proof.
  revert s. induction es as [| e es IH]; intros s Hinv; [done |].
  rewrite run_cons. by apply IH, step_focusOrdered.
Qed.

(** X20: the active panel is the topmost one, throughout a session.  From
    a state in focus order (such as a page where no panel is active and none
    has a stacking value yet), after any sequence of events at most one panel
    carries the [active] class; it carries the current value of the counter
    as stacking value, and every other panel that has a stacking value has a
    strictly smaller one. *)
Theorem active_panel_is_topmost (s : State) (es : list Event) :
  focusOrdered s ->
  let s' := run es s in
  forall id el, windows s' !! id = Some el -> w_active el = true ->
    w_zIndex el = Some (highestZ s')
    /\ forall id' el', id' <> id -> windows s' !! id' = Some el' ->
         w_active el' = false
         /\ forall z', w_zIndex el' = Some z' -> z' < highestZ s'.
Proof.
  intros Hinv s' id el H Hact.
  destruct (run_focusOrdered es s Hinv) as (Ha & Hi & Hu).
  split; [by apply (Ha id el) |].
  intros id' el' Hne H'.
  assert (Hin : w_active el' = false).
  { destruct (w_active el') eqn:E; [| done].
    exfalso. apply Hne. by apply (Hu id' id el' el). }
  split; [done |]. intros z' Hz'. by apply (Hi id' el' z').
Qed.

(** ** Clicks on the taskbar *)

(** X21: a click on a taskbar item.  While the item's window is visible
    but not the active one, the click only brings it to the front.  While it
    is visible and active, the click minimizes it: the panel is hidden and
    the record says minimized; a click on the item that then stands for the
    same window brings it back shown, active, with the inline position and
    size it had, and leaves the registry as it was before the two clicks. *)
Theorem taskbar_click_toggles
    (i : nat) (s : State) (items : list TaskbarItem) (item : TaskbarItem) (el : WindowEl) :
  taskbar s = Some items -> items !! i = Some item ->
  windows s !! ti_windowId item = Some el ->
  reg_get (ti_windowId item) (openWindows s) = Some false ->
  let id := ti_windowId item in
  let s1 := taskbarClick i s in
  if w_active el then
    isMinimized s1 id = true
    /\ windows s1 !! id = Some (el_display "none" el)
    /\ forall j items1 item1,
         taskbar s1 = Some items1 -> items1 !! j = Some item1 ->
         ti_windowId item1 = id ->
         let s2 := taskbarClick j s1 in
         isOpen s2 id = true /\ isMinimized s2 id = false
         /\ openWindows s2 = openWindows s
         /\ exists el2,
              windows s2 !! id = Some el2
              /\ w_display el2 = "flex"%string /\ w_active el2 = true
              /\ w_left el2 = w_left el /\ w_top el2 = w_top el
              /\ w_width el2 = w_width el /\ w_height el2 = w_height el
  else s1 = bringToFront id s.
Proof.
  intros Ht Hi H Hreg id s1. subst id. set (id := ti_windowId item) in *.
  assert (Hs1 : s1 = if w_active el then minimizeWindow id s else bringToFront id s).
  { subst s1. unfold taskbarClick. rewrite Ht. simpl. rewrite Hi.
    fold id. by rewrite Hreg, H. }
  destruct (w_active el) eqn:Hact; [| done].
  destruct (minimizeWindow_lookup id s el H) as [Hw1 Hr1].
  rewrite <- Hs1 in Hw1, Hr1.
  assert (Hm1 : reg_get id (openWindows s1) = Some true)
    by (by rewrite Hr1, reg_get_set_eq).
  split; [unfold isMinimized; by rewrite Hm1 |]. split; [done |].
  intros j items1 item1 Ht1 Hj Hid s2.
  assert (Hs2 : s2 = openWindow id s1).
  { subst s2. unfold taskbarClick. rewrite Ht1. simpl. rewrite Hj, Hid. by rewrite Hm1. }
  destruct (openWindow_minimized id s1 _ Hw1 Hm1) as (Hw2 & Hr2 & _).
  rewrite <- Hs2 in Hw2, Hr2.
  unfold isOpen, isMinimized. rewrite Hr2, reg_get_set_eq.
  split; [done |]. split; [done |].
  split; [rewrite Hr1, reg_set_set; by apply reg_set_same |].
  eexists. split; [exact Hw2 |]. done.
Qed.

(** ** Where a reopened panel stands *)

(** X22: [openWindow] moves a panel only when it places a closed one on a
    viewport that is not narrow.  On a narrow viewport, and on any viewport
    for a window that is minimized or whose panel is already shown, the
    panel comes out with the inline position and size it had, whatever the
    saved geometry says. *)
Theorem open_keeps_position_unless_placing (id : string) (s : State) (el : WindowEl) :
  windows s !! id = Some el ->
  isMobile s = true \/ reg_get id (openWindows s) = Some true
  \/ w_display el = "flex"%string ->
  exists el',
    windows (openWindow id s) !! id = Some el'
    /\ w_display el' = "flex"%string
    /\ w_left el' = w_left el /\ w_top el' = w_top el
    /\ w_width el' = w_width el /\ w_height el' = w_height el.
Proof.
  intros H Hcase.
  destruct (openWindow_element id s el H) as (base & Hbase & Hw).
  assert (Hb : base = el).
  { destruct Hbase as [-> | (-> & Hr & Hd)]; [done |].
    destruct Hcase as [Hm | [Hr' | Hd']]; [| done | done].
    unfold positionWindow. by rewrite Hm. }
  subst base. eexists. split; [exact Hw |]. done.
Qed.

(** ** The further properties on the example page *)

Lemma page_lookup id el :
  windows page !! id = Some el ->
  el = panel "About" \/ el = panel "Blog" \/ el = panel "Contact".
Proof.
  intros H. unfold page in H. simpl in H. rewrite !lookup_insert in H.
  repeat case_decide; simplify_eq; auto.
Qed.

Lemma page_shownRegistered : shownRegistered page.
Proof. intros id el H Hd. by destruct (page_lookup id el H) as [-> | [-> | ->]]. Qed.

Lemma page_registeredPanel : registeredPanel page.
Proof. intros id m H. done. Qed.

Lemma page_taskbarSynced : taskbarSynced page.
Proof. intros items H. by injection H as <-. Qed.

Lemma page_focusOrdered : focusOrdered page.
Proof.
  repeat split.
  - intros id el H Ha. by destruct (page_lookup id el H) as [-> | [-> | ->]].
  - intros id el z H _ Hz. by destruct (page_lookup id el H) as [-> | [-> | ->]].
  - intros id1 id2 el1 el2 H1 _ A1. by destruct (page_lookup id1 el1 H1) as [-> | [-> | ->]].
Qed.

Lemma page_noSession : noSession page.
Proof. repeat split. Qed.

Lemma open_ends_visible_and_focused_witness :
  windows page !! "A" = Some (panel "About") /\ shownRegistered page
  /\ isOpen (openWindow "A" page) "A" = true
  /\ isMinimized (openWindow "A" page) "A" = false
  /\ highestZ (openWindow "A" page) = 101.
Proof.
  assert (H : windows page !! "A" = Some (panel "About")) by (vm_compute; reflexivity).
  split; [exact H |]. split; [exact page_shownRegistered |].
  destruct (open_ends_visible_and_focused "A" page _ H page_shownRegistered)
    as (Ho & Hm & Hz & _).
  repeat split; assumption.
Defined.

Lemma minimize_then_open_restores_witness :
  exists el,
    windows pageOpened !! "A" = Some el
    /\ reg_get "A" (openWindows pageOpened) = Some false
    /\ openWindows (openWindow "A" (minimizeWindow "A" pageOpened)) = openWindows pageOpened
    /\ exists el2,
         windows (openWindow "A" (minimizeWindow "A" pageOpened)) !! "A" = Some el2
         /\ w_display el2 = "flex"%string /\ w_left el2 = w_left el /\ w_top el2 = w_top el.
Proof.
  eexists. split; [vm_compute; reflexivity |].
  assert (Hr : reg_get "A" (openWindows pageOpened) = Some false) by (vm_compute; reflexivity).
  split; [exact Hr |].
  edestruct (minimize_then_open_restores "A" pageOpened)
    as (_ & _ & Ho & _ & _ & el2 & H2 & Hd & Hl & Ht & _);
    [vm_compute; reflexivity | exact Hr |].
  split; [exact Ho |]. exists el2. repeat split; assumption.
Defined.

Lemma close_removes_window_witness :
  exists el,
    windows pageOpened !! "A" = Some el
    /\ isOpen pageOpened "A" = true
    /\ isOpen (closeWindow "A" pageOpened) "A" = false
    /\ windows (closeWindow "A" pageOpened) !! "A"
       = Some (el_maximized false (el_display "none" el)).
Proof.
  eexists. split; [vm_compute; reflexivity |]. split; [vm_compute; reflexivity |].
  edestruct (close_removes_window "A" pageOpened) as (Ho & Hw & _);
    [vm_compute; reflexivity |].
  split; [exact Ho | exact Hw].
Defined.

Lemma registry_mirrors_display_witness :
  shownRegistered page /\ registeredPanel page
  /\ forall el, windows (run [Open "A"; Minimize "A"] page) !! "A" = Some el ->
       w_display el = "none"%string.
Proof.
  split; [exact page_shownRegistered |]. split; [exact page_registeredPanel |].
  intros el H.
  destruct (registry_mirrors_display page [Open "A"; Minimize "A"]
              page_shownRegistered page_registeredPanel) as [Hall _].
  destruct (Hall "A" el H) as [_ Hmin]. apply Hmin. vm_compute. reflexivity.
Defined.

Lemma taskbar_follows_registry_witness :
  taskbarSynced page /\ registeredPanel page
  /\ exists items,
       taskbar (run [Open "A"; Open "B"; Minimize "A"] page) = Some items
       /\ (fun item => (ti_windowId item, negb (ti_active item))) <$> items
          = [("A", true); ("B", false)].
Proof.
  split; [exact page_taskbarSynced |]. split; [exact page_registeredPanel |].
  assert (Ht : taskbar (run [Open "A"; Open "B"; Minimize "A"] page)
               = Some [mkTaskbarItem "A" false "aAbout"; mkTaskbarItem "B" true "bBlog"])
    by (vm_compute; reflexivity).
  eexists. split; [exact Ht |].
  rewrite (taskbar_follows_registry page [Open "A"; Open "B"; Minimize "A"]
             page_taskbarSynced page_registeredPanel _ Ht).
  vm_compute. reflexivity.
Defined.

Lemma saved_geometry_written_by_drop_or_maximize_witness :
  writesGeometry (Open "A") = false
  /\ windowPositions (step page (Open "A")) = windowPositions page
  /\ is_Some (windowPositions pageDropped !! "A")
  /\ is_Some (windowPositions (run [Open "A"; Close "A"; ToggleMaximize "B"] pageDropped) !! "A").
Proof.
  destruct (saved_geometry_written_by_drop_or_maximize page) as [Hstep _].
  destruct (saved_geometry_written_by_drop_or_maximize pageDropped) as [_ Hrun].
  assert (Hs : is_Some (windowPositions pageDropped !! "A"))
    by (eexists; vm_compute; reflexivity).
  split; [reflexivity |]. split; [apply Hstep; reflexivity |].
  split; [exact Hs |]. apply Hrun. exact Hs.
Defined.

Lemma pointer_moves_act_only_in_a_session_witness :
  noSession page /\ pointerMove 500 300 page = page.
Proof.
  split; [exact page_noSession |].
  destruct (pointer_moves_act_only_in_a_session 500 300 page) as [Hidle _].
  apply Hidle. exact page_noSession.
Defined.

Lemma drop_saves_geometry_witness :
  exists el,
    windows pageDragged !! "A" = Some el
    /\ wd_isDragging (getDragVars pageDragged "A") = true
    /\ windowPositions (pointerUp pageDragged) !! "A"
       = Some (mkSavedGeometry 440 295 (css_str EmptyString) (css_str EmptyString)).
Proof.
  eexists. split; [vm_compute; reflexivity |].
  assert (Hd : wd_isDragging (getDragVars pageDragged "A") = true)
    by (vm_compute; reflexivity).
  split; [exact Hd |].
  edestruct (drop_saves_geometry "A" pageDragged) as (Hs & _);
    [vm_compute; reflexivity | exact Hd | discriminate |].
  rewrite Hs. vm_compute. reflexivity.
Defined.

Lemma dropped_position_survives_reopen_witness :
  exists el,
    windows pageDragged !! "A" = Some el
    /\ wd_isDragging (getDragVars pageDragged "A") = true
    /\ isMobile pageDragged = false
    /\ exists el',
         windows (openWindow "A" (closeWindow "A" (pointerUp pageDragged))) !! "A" = Some el'
         /\ w_left el' = css_px 440 /\ w_top el' = css_px 295.
Proof.
  eexists. split; [vm_compute; reflexivity |].
  assert (Hd : wd_isDragging (getDragVars pageDragged "A") = true)
    by (vm_compute; reflexivity).
  assert (Hm : isMobile pageDragged = false) by (vm_compute; reflexivity).
  split; [exact Hd |]. split; [exact Hm |].
  edestruct (dropped_position_survives_reopen "A" pageDragged)
    as (_ & el' & H' & _ & Hl & Ht & _);
    [vm_compute; reflexivity | exact Hd | discriminate | exact Hm |].
  exists el'. rewrite Hl, Ht. split; [exact H' |]. split; vm_compute; reflexivity.
Defined.

Lemma drag_follows_pointer_inside_bounds_witness :
  (exists el,
     windows pageDragging !! "A" = Some el
     /\ wd_isDragging (getDragVars pageDragging "A") = true
     /\ pixel 500 = true /\ pixel (wd_startX (getDragVars pageDragging "A")) = true
     /\ exists el',
          windows (pointerMove 500 300 pageDragging) !! "A" = Some el'
          /\ w_left el' = css_px 440 /\ w_top el' = css_px 295)
  /\ (exists f,
        folders pageDragging !! 0%nat = Some f
        /\ fd_isDragging (getFolderVars pageDragging 0) = true
        /\ exists f',
             folders (pointerMove 500 300 pageDragging) !! 0%nat = Some f'
             /\ f_left f' = css_px 495 /\ f_top f' = css_px 295).
Proof.
  destruct (drag_follows_pointer_inside_bounds 500 300 pageDragging) as [Hwin Hfol]. split.
  - eexists. split; [vm_compute; reflexivity |].
    assert (Hd : wd_isDragging (getDragVars pageDragging "A") = true)
      by (vm_compute; reflexivity).
    split; [exact Hd |]. split; [reflexivity |]. split; [vm_compute; reflexivity |].
    edestruct (Hwin "A") as (el' & H & Hl & Ht); [vm_compute; reflexivity | exact Hd |].
    exists el'. split; [exact H |]. split.
    + rewrite Hl; [vm_compute; reflexivity | reflexivity | vm_compute; reflexivity
                  | vm_compute; reflexivity | vm_compute; discriminate
                  | vm_compute; discriminate].
    + rewrite Ht; [vm_compute; reflexivity | reflexivity | vm_compute; reflexivity
                  | vm_compute; reflexivity | vm_compute; discriminate
                  | vm_compute; discriminate].
  - eexists. split; [vm_compute; reflexivity |].
    assert (Hd : fd_isDragging (getFolderVars pageDragging 0) = true)
      by (vm_compute; reflexivity).
    split; [exact Hd |].
    edestruct (Hfol 0%nat) as (f' & H & Hl & Ht); [vm_compute; reflexivity | exact Hd |].
    exists f'. split; [exact H |]. split.
    + rewrite Hl; [vm_compute; reflexivity | reflexivity | vm_compute; reflexivity
                  | vm_compute; reflexivity | vm_compute; discriminate
                  | vm_compute; discriminate].
    + rewrite Ht; [vm_compute; reflexivity | reflexivity | vm_compute; reflexivity
                  | vm_compute; reflexivity | vm_compute; discriminate
                  | vm_compute; discriminate].
Defined.

Lemma pageResizing_not_dragging k : wd_isDragging (getDragVars pageResizing k) = false.
Proof.
  unfold getDragVars.
  replace (dragVars pageResizing) with (∅ : gmap string DragVars) by (vm_compute; reflexivity).
  by rewrite lookup_empty.
Qed.

Lemma resize_follows_pointer_and_is_not_saved_witness :
  exists el,
    windows pageResizing !! "A" = Some el
    /\ wr_isResizing (getResizeVars pageResizing "A") = true
    /\ pixel 1000 = true /\ pixel 700 = true
    /\ windows (pointerMove 1000 700 pageResizing) !! "A"
       = Some (el_height (css_px 565) (el_width (css_px 660) el))
    /\ windowPositions (pointerUp (pointerMove 1000 700 pageResizing))
       = windowPositions pageResizing.
Proof.
  eexists. split; [vm_compute; reflexivity |].
  assert (Hr : wr_isResizing (getResizeVars pageResizing "A") = true)
    by (vm_compute; reflexivity).
  split; [exact Hr |]. split; [reflexivity |]. split; [reflexivity |].
  edestruct (resize_follows_pointer_and_is_not_saved 1000 700 pageResizing "A")
    as (w & h & H & _ & _ & Hw & Hh & _ & Hsaved);
    [vm_compute; reflexivity | exact Hr | exact pageResizing_not_dragging |].
  split; [| exact Hsaved].
  rewrite H, Hw, Hh;
    [vm_compute; reflexivity | reflexivity | vm_compute; reflexivity
    | vm_compute; reflexivity | vm_compute; discriminate
    | reflexivity | vm_compute; reflexivity | vm_compute; reflexivity
    | vm_compute; discriminate].
Defined.

Lemma narrow_viewport_starts_no_session_witness :
  isMobile pageNarrow = true
  /\ dragVars (windowPointerDown "A" OnTitlebar 10 10 pageNarrow) = dragVars pageNarrow
  /\ resizeVars (windowPointerDown "A" OnHandle 10 10 pageNarrow) = resizeVars pageNarrow
  /\ exists f,
       folders pageNarrow !! 0%nat = Some f
       /\ folderVars (folderPointerDown 0 10 10 pageNarrow) = folderVars pageNarrow.
Proof.
  assert (Hm : isMobile pageNarrow = true) by (vm_compute; reflexivity).
  destruct (narrow_viewport_starts_no_session pageNarrow Hm) as [Hwin Hfol].
  split; [exact Hm |].
  split; [exact (proj1 (Hwin "A" OnTitlebar 10%Q 10%Q)) |].
  split; [exact (proj2 (Hwin "A" OnHandle 10%Q 10%Q)) |].
  eexists. split; [vm_compute; reflexivity |].
  edestruct (Hfol 0%nat 10%Q 10%Q) as [Hv _]; [vm_compute; reflexivity |]. exact Hv.
Defined.

Lemma titlebar_press_starts_drag_witness :
  exists el,
    windows pageOpened !! "A" = Some el
    /\ w_hasTitlebar el = true /\ isMobile pageOpened = false /\ w_maximized el = false
    /\ getDragVars (windowPointerDown "A" OnTitlebar 400 140 pageOpened) "A"
       = mkDragVars true 400 140 340 135
    /\ highestZ (windowPointerDown "A" OnTitlebar 400 140 pageOpened) = 103.
Proof.
  eexists. split; [vm_compute; reflexivity |].
  assert (Hm : isMobile pageOpened = false) by (vm_compute; reflexivity).
  split; [reflexivity |]. split; [exact Hm |]. split; [reflexivity |].
  edestruct (titlebar_press_starts_drag "A" 400 140 pageOpened) as (Hv & Hz & _);
    [vm_compute; reflexivity | reflexivity | exact Hm | reflexivity |].
  rewrite Hv, Hz. split; vm_compute; reflexivity.
Defined.

Lemma refused_titlebar_press_only_focuses_witness :
  exists el,
    windows pageOpened !! "A" = Some el
    /\ w_hasTitlebar el = true
    /\ dragVars (windowPointerDown "A" OnButton 400 140 pageOpened) = dragVars pageOpened
    /\ highestZ (windowPointerDown "A" OnButton 400 140 pageOpened) = 102.
Proof.
  eexists. split; [vm_compute; reflexivity |]. split; [reflexivity |].
  edestruct (refused_titlebar_press_only_focuses "A" OnButton 400 140 pageOpened)
    as (Hv & _ & Hz & _);
    [vm_compute; reflexivity | reflexivity | by left |].
  rewrite Hz. split; [exact Hv | vm_compute; reflexivity].
Defined.

Lemma resize_gesture_witness :
  exists el,
    windows pageOpened !! "A" = Some el
    /\ w_hasHandle el = true
    /\ wd_isDragging (getDragVars pageOpened "A") = false
    /\ isMobile pageOpened = false
    /\ pixel 940 = true /\ pixel 585 = true /\ pixel 1000 = true /\ pixel 700 = true
    /\ highestZ (pointerMove 1000 700 (windowPointerDown "A" OnHandle 940 585 pageOpened))
       = highestZ pageOpened
    /\ windows (pointerMove 1000 700 (windowPointerDown "A" OnHandle 940 585 pageOpened)) !! "A"
       = Some (el_height (css_px 565) (el_width (css_px 660) el)).
Proof.
  set (el := mkWindowEl "flex" (Some 101) (css_px 340) (css_px 135)
               (css_str EmptyString) (css_str EmptyString) true false
               (Some "About"%string) true true).
  assert (H : windows pageOpened !! "A" = Some el) by (vm_compute; reflexivity).
  assert (Hd : wd_isDragging (getDragVars pageOpened "A") = false)
    by (vm_compute; reflexivity).
  assert (Hm : isMobile pageOpened = false) by (vm_compute; reflexivity).
  exists el. split; [exact H |]. split; [reflexivity |].
  split; [exact Hd |]. split; [exact Hm |].
  do 4 (split; [reflexivity |]).
  pose proof (resize_gesture "A" 940 585 1000 700 pageOpened el H eq_refl Hd) as Hg.
  cbv zeta in Hg. rewrite Hm in Hg.
  destruct Hg as (_ & Hz & _ & _ & w & h & Hlook & _ & _ & Hw & Hh).
  split; [exact Hz |]. rewrite Hlook.
  rewrite (Hw eq_refl eq_refl ltac:(vm_compute; reflexivity)).
  rewrite (Hh eq_refl eq_refl ltac:(vm_compute; reflexivity)).
  vm_compute. reflexivity.
Defined.

Lemma pageNarrow_shownRegistered : shownRegistered pageNarrow.
Proof. apply run_shownRegistered, page_shownRegistered. Qed.

Lemma folder_tap_opens_on_narrow_viewport_only_witness :
  folders pageNarrow !! 0%nat
    = Some (mkFolderEl (Some "A"%string) (css_px 5) (css_px 20) None false (Some "a"%string))
  /\ windows pageNarrow !! "A" = Some (panel "About")
  /\ shownRegistered pageNarrow
  /\ isMobile pageNarrow = true
  /\ isOpen (folderClick 0 pageNarrow) "A" = true
  /\ exists el',
       windows (folderClick 0 pageNarrow) !! "A" = Some el'
       /\ w_display el' = "flex"%string /\ w_left el' = css_str EmptyString.
Proof.
  assert (Hf : folders pageNarrow !! 0%nat
               = Some (mkFolderEl (Some "A"%string) (css_px 5) (css_px 20) None false
                         (Some "a"%string))) by (vm_compute; reflexivity).
  assert (H : windows pageNarrow !! "A" = Some (panel "About")) by (vm_compute; reflexivity).
  assert (Hm : isMobile pageNarrow = true) by (vm_compute; reflexivity).
  split; [exact Hf |]. split; [exact H |]. split; [exact pageNarrow_shownRegistered |].
  split; [exact Hm |].
  pose proof (folder_tap_opens_on_narrow_viewport_only 0 pageNarrow _ "A" _ Hf eq_refl
                ltac:(discriminate) H pageNarrow_shownRegistered) as Htap.
  cbv zeta in Htap. rewrite Hm in Htap.
  destruct Htap as (Ho & _ & el' & H' & Hd & _ & Hl & _).
  split; [exact Ho |]. exists el'. repeat split; assumption.
Defined.

Lemma folder_drag_sets_moved_flag_beyond_3px_witness :
  folders page !! 0%nat = Some (icon "A" "a")
  /\ isMobile page = false
  /\ pixel 25 = true /\ pixel 30 = true
  /\ fd_hasMoved (getFolderVars (pointerMove 27 26 (folderPointerDown 0 25 25 page)) 0) = false
  /\ fd_hasMoved (getFolderVars (pointerMove 30 25 (folderPointerDown 0 25 25 page)) 0) = true.
Proof.
  assert (Hf : folders page !! 0%nat = Some (icon "A" "a")) by reflexivity.
  assert (Hm : isMobile page = false) by reflexivity.
  split; [exact Hf |]. split; [exact Hm |].
  split; [reflexivity |]. split; [reflexivity |]. split.
  - destruct (folder_drag_sets_moved_flag_beyond_3px 0 25 25 27 26 page _ Hf Hm)
      as (_ & _ & Honly & _).
    destruct (fd_hasMoved _) eqn:E; [| reflexivity].
    exfalso. destruct (Honly eq_refl) as [Hc | Hc]; vm_compute in Hc; discriminate.
  - destruct (folder_drag_sets_moved_flag_beyond_3px 0 25 25 30 25 page _ Hf Hm)
      as (_ & _ & _ & Hx & _).
    apply Hx; [reflexivity | reflexivity | vm_compute; reflexivity].
Defined.

Lemma folder_press_selects_exactly_one_witness :
  folders page !! 1%nat = Some (icon "B" "b")
  /\ (forall j g, folders (folderPointerDown 1 25 125 page) !! j = Some g ->
        f_selected g = true <-> j = 1%nat).
Proof.
  assert (Hf : folders page !! 1%nat = Some (icon "B" "b")) by reflexivity.
  split; [exact Hf |]. intros j g Hj.
  destruct (folder_press_selects_exactly_one 1 25 125 page _ Hf) as [Hsel _].
  exact (proj1 (Hsel j g Hj)).
Defined.

Lemma mobile_grid_inside_viewport_and_apart_witness :
  isMobile pageNarrow = true /\ 320 <= innerWidth (viewport pageNarrow)
  /\ exists f f' l t,
       folders pageNarrow !! 2%nat = Some f
       /\ folders (arrangeFoldersForMobile pageNarrow) !! 2%nat = Some f'
       /\ f_left f' = css_px l /\ f_top f' = css_px t
       /\ (0 <= l)%Q /\ (l + 80 <= 360)%Q /\ (t == 20)%Q.
Proof.
  assert (Hm : isMobile pageNarrow = true) by (vm_compute; reflexivity).
  assert (HW : 320 <= innerWidth (viewport pageNarrow)) by (vm_compute; discriminate).
  split; [exact Hm |]. split; [exact HW |].
  destruct (mobile_grid_inside_viewport_and_apart pageNarrow) as [_ Hgrid].
  destruct (Hgrid Hm HW) as [Hin _].
  assert (Hf : folders pageNarrow !! 2%nat
               = Some (mkFolderEl (Some "C"%string) (css_px 185) (css_px 20) None false
                         (Some "c"%string))) by (vm_compute; reflexivity).
  destruct (Hin 2%nat _ Hf) as (f' & l & t & H' & Hl & Ht & Hl0 & Hl1 & Htop).
  eexists _, f', l, t. repeat split; try eassumption.
Defined.

Lemma active_panel_is_topmost_witness :
  focusOrdered page
  /\ forall el, windows (run [Open "A"; Open "B"] page) !! "B" = Some el ->
       w_active el = true ->
       w_zIndex el = Some 102
       /\ forall el', windows (run [Open "A"; Open "B"] page) !! "A" = Some el' ->
            w_active el' = false.
Proof.
  split; [exact page_focusOrdered |]. intros el H Ha.
  destruct (active_panel_is_topmost page [Open "A"; Open "B"] page_focusOrdered "B" el H Ha)
    as [Hz Hothers].
  split; [exact Hz |]. intros el' H'.
  exact (proj1 (Hothers "A" el' ltac:(discriminate) H')).
Defined.

Lemma taskbar_click_toggles_witness :
  taskbar pageOpened = Some [mkTaskbarItem "A" true "aAbout"]
  /\ reg_get "A" (openWindows pageOpened) = Some false
  /\ isMinimized (taskbarClick 0 pageOpened) "A" = true
  /\ isMinimized (taskbarClick 0 (taskbarClick 0 pageOpened)) "A" = false
  /\ openWindows (taskbarClick 0 (taskbarClick 0 pageOpened)) = openWindows pageOpened.
Proof.
  set (el := mkWindowEl "flex" (Some 101) (css_px 340) (css_px 135)
               (css_str EmptyString) (css_str EmptyString) true false
               (Some "About"%string) true true).
  assert (Ht : taskbar pageOpened = Some [mkTaskbarItem "A" true "aAbout"])
    by (vm_compute; reflexivity).
  assert (H : windows pageOpened !! "A" = Some el) by (vm_compute; reflexivity).
  assert (Hr : reg_get "A" (openWindows pageOpened) = Some false)
    by (vm_compute; reflexivity).
  split; [exact Ht |]. split; [exact Hr |].
  pose proof (taskbar_click_toggles 0 pageOpened _ (mkTaskbarItem "A" true "aAbout") el
                Ht eq_refl H Hr) as Hclick.
  cbv zeta in Hclick. change (w_active el) with true in Hclick.
  destruct Hclick as (Hmin & _ & Hagain).
  split; [exact Hmin |].
  assert (Ht1 : taskbar (taskbarClick 0 pageOpened) = Some [mkTaskbarItem "A" false "aAbout"])
    by (vm_compute; reflexivity).
  destruct (Hagain 0%nat _ (mkTaskbarItem "A" false "aAbout") Ht1 eq_refl eq_refl)
    as (_ & Hm2 & Ho2 & _).
  split; [exact Hm2 | exact Ho2].
Defined.

Lemma open_keeps_position_unless_placing_witness :
  windows pageNarrow !! "A" = Some (panel "About")
  /\ isMobile pageNarrow = true
  /\ exists el',
       windows (openWindow "A" pageNarrow) !! "A" = Some el'
       /\ w_display el' = "flex"%string
       /\ w_left el' = css_str EmptyString /\ w_top el' = css_str EmptyString.
Proof.
  assert (H : windows pageNarrow !! "A" = Some (panel "About")) by (vm_compute; reflexivity).
  assert (Hm : isMobile pageNarrow = true) by (vm_compute; reflexivity).
  split; [exact H |]. split; [exact Hm |].
  destruct (open_keeps_position_unless_placing "A" pageNarrow _ H (or_introl Hm))
    as (el' & H' & Hd & Hl & Ht & _).
  exists el'. repeat split; assumption.
Defined.

(** ** The window buttons *)


